(** * Dvivid psychometric test: the two route handlers

    A shallow embedding of
      - [src/app/api/analyze-results/route.ts] (module [Analyze]) and
      - [src/app/api/generate-pdf/route.ts]    (module [Pdf]),
    over a small model of the JavaScript values, strings and numbers the
    handlers compute with (module [JS]).

    Strings are sequences of UTF-16 code units, numbers are IEEE 754
    binary64 values (the [spec_float] of the standard library, which is
    executable), objects are association lists in insertion order.
    Module [Spec] holds what the specification says where the source
    says something else; the definitions the statements need come next,
    and then the lemmas and the statements, claim by claim. *)

From Stdlib Require Import ZArith NArith List Bool Lia.
From Stdlib Require Import Strings.Ascii Strings.String.
From Stdlib Require Import Floats.SpecFloat.
Import ListNotations.

Set Warnings "-register-all".
Open Scope Z_scope.

(* ================================================================== *)
(** * The JavaScript fragment the handlers use *)
(* ================================================================== *)

Module JS.

(** ** Strings *)

(** A code unit of a JavaScript string. *)
Definition char : Type := N.

Definition jsstring : Type := list char.

(** A literal of the source, given as a Rocq string of ASCII characters. *)
Definition js (s : string) : jsstring :=
  List.map N_of_ascii (list_ascii_of_string s).

(** The same, for texts that contain double quotes: an apostrophe in the
    literal stands for the double quote (code unit 34). *)
Definition jq (s : string) : jsstring :=
  List.map (fun c => if N.eqb c 39 then 34%N else c) (js s).

Fixpoint str_eqb (a b : jsstring) : bool :=
  match a, b with
  | [], [] => true
  | x :: a', y :: b' => N.eqb x y && str_eqb a' b'
  | _, _ => false
  end.

Fixpoint dropWhile {A : Type} (p : A -> bool) (l : list A) : list A :=
  match l with
  | [] => []
  | x :: r => if p x then dropWhile p r else l
  end.

Fixpoint takeWhile {A : Type} (p : A -> bool) (l : list A) : list A :=
  match l with
  | [] => []
  | x :: r => if p x then x :: takeWhile p r else []
  end.

(** [\s] of a regular expression, and what [trim] strips: the WhiteSpace
    and LineTerminator code units of ECMAScript. *)
Definition is_space (c : char) : bool :=
  (N.leb 9 c && N.leb c 13) || N.eqb c 32 || N.eqb c 160 || N.eqb c 5760
  || (N.leb 8192 c && N.leb c 8202) || N.eqb c 8232 || N.eqb c 8233
  || N.eqb c 8239 || N.eqb c 8287 || N.eqb c 12288 || N.eqb c 65279.

(** [\d] *)
Definition is_digit (c : char) : bool := N.leb 48 c && N.leb c 57.

(** [String.prototype.trim] *)
Definition trim (s : jsstring) : jsstring :=
  rev (dropWhile is_space (rev (dropWhile is_space s))).

(** [s.split(/[...]+/)] for a character class [delim]: the pieces between
    the maximal runs of delimiters; a leading or trailing run leaves an
    empty piece, and the empty string gives one empty piece.  [in_run]
    says that the previous code unit was a delimiter, [cur] is the piece
    read so far, reversed. *)
Fixpoint split_aux (delim : char -> bool) (in_run : bool) (cur : jsstring)
         (s : jsstring) : list jsstring :=
  match s with
  | [] => [rev cur]
  | c :: r =>
      if delim c then
        if in_run then split_aux delim true cur r
        else rev cur :: split_aux delim true [] r
      else split_aux delim false (c :: cur) r
  end.

Definition split (delim : char -> bool) (s : jsstring) : list jsstring :=
  split_aux delim false [] s.

(** [s.replace(/\s+/g, sep)] : every maximal run of white space becomes
    one copy of [sep]. *)
Fixpoint replace_spaces_aux (sep : jsstring) (in_run : bool) (s : jsstring)
  : jsstring :=
  match s with
  | [] => []
  | c :: r =>
      if is_space c then
        if in_run then replace_spaces_aux sep true r
        else sep ++ replace_spaces_aux sep true r
      else c :: replace_spaces_aux sep false r
  end.

Definition replace_spaces (sep : jsstring) (s : jsstring) : jsstring :=
  replace_spaces_aux sep false s.

(** [s.replace(/^\d+\.?\s*/, '')] : a leading run of digits, an optional
    full stop after it and the white space that follows are removed; a
    string that does not start with a digit is unchanged. *)
Definition strip_leading_number (s : jsstring) : jsstring :=
  match s with
  | c :: _ =>
      if is_digit c then
        let r := dropWhile is_digit s in
        let r := match r with
                 | d :: r' => if N.eqb d 46 then r' else r
                 | [] => r
                 end in
        dropWhile is_space r
      else s
  | [] => []
  end.

(** [String.prototype.toLowerCase], on the code units below 256 (Basic
    Latin and Latin-1, where the mapping is one code unit to one code
    unit).  Code units from 256 on are left as they are: the Unicode case
    tables are not part of this model. *)
Definition lower_unit (c : char) : char :=
  if (N.leb 65 c && N.leb c 90)
     || (N.leb 192 c && N.leb c 222 && negb (N.eqb c 215))
  then (c + 32)%N else c.

Definition toLowerCase (s : jsstring) : jsstring := List.map lower_unit s.

(** [a.join('')] *)
Definition join (l : list jsstring) : jsstring := List.concat l.

(** ** Numbers: IEEE 754 binary64 *)

Definition number : Type := spec_float.

Definition prec : Z := 53.
Definition emax : Z := 1024.

(** The number an integer literal or an integer-valued expression denotes
    (exact below 2^53 in magnitude). *)
Definition of_Z (z : Z) : number := binary_normalize prec emax z 0 false.

Definition NaN : number := S754_nan.

Definition div (x y : number) : number := SFdiv prec emax x y.
Definition mul (x y : number) : number := SFmul prec emax x y.
Definition sub (x y : number) : number := SFsub prec emax x y.

(** [x >= y] ; false when either side is NaN. *)
Definition geb (x y : number) : bool := SFleb y x.

(** [Math.round]: the nearest integer, a tie going towards +infinity;
    NaN, the infinities and the zeros are returned as they are, and a
    result of zero keeps the sign of the argument. *)
Definition Math_round (x : number) : number :=
  match x with
  | S754_finite s m e =>
      if 0 <=? e then x
      else
        let k := - e in
        let v := if s then Z.neg m else Z.pos m in
        let n := Z.shiftr (2 * v + 2 ^ k) (k + 1) in
        if n =? 0 then S754_zero s else of_Z n
  | _ => x
  end.

(** The number a decimal literal [digits * 10^exp10] denotes (JSON.parse,
    correctly rounded).  [ndigits] is the number of digits of [digits] as
    written.  The two early exits are exact: a non-zero value of at least
    10^310 is beyond the largest double, and a value below 10^-330 is
    less than half the smallest one. *)
Definition of_decimal (neg : bool) (digits : Z) (ndigits : Z) (exp10 : Z)
  : number :=
  if digits =? 0 then S754_zero neg
  else if 310 <=? exp10 then S754_infinity neg
  else if ndigits + exp10 <=? -330 then S754_zero neg
  else
    let sign z := if neg then - z else z in
    if 0 <=? exp10 then
      binary_normalize prec emax (sign (digits * 10 ^ exp10)) 0 neg
    else
      let q := 10 ^ (- exp10) in
      let k := Z.log2 q + 64 in
      let n := digits * 2 ^ k in
      let sticky := if n mod q =? 0 then 0 else 1 in
      binary_normalize prec emax (sign (2 * (n / q) + sticky)) (- (k + 1)) neg.

(** ** Values *)

Inductive value : Type :=
| VUndefined
| VNull
| VBool (b : bool)
| VNum (x : number)
| VStr (s : jsstring)
| VArr (items : list value)
| VObj (props : list (jsstring * value)).

(** ToBoolean: what [!v], [a || b] and [c ? a : b] test. *)
Definition truthy (v : value) : bool :=
  match v with
  | VUndefined | VNull => false
  | VBool b => b
  | VNum (S754_zero _) | VNum S754_nan => false
  | VNum _ => true
  | VStr s => match s with [] => false | _ => true end
  | VArr _ | VObj _ => true
  end.

Fixpoint lookup (k : jsstring) (props : list (jsstring * value)) : value :=
  match props with
  | [] => VUndefined
  | (k', v) :: r => if str_eqb k k' then v else lookup k r
  end.

(** [v[k]] and [v.k] for a value that is neither null nor undefined and a
    key that is no array index, not [length] and no method name: the own
    property of an object, [undefined] for everything else. *)
Definition get (v : value) (k : string) : value :=
  match v with
  | VObj props => lookup (js k) props
  | _ => VUndefined
  end.

(** [a || b] *)
Definition or_else (a b : value) : value := if truthy a then a else b.

(** [a ?? b] *)
Definition coalesce (a b : value) : value :=
  match a with
  | VUndefined | VNull => b
  | _ => a
  end.

Definition is_nullish (v : value) : bool :=
  match v with
  | VUndefined | VNull => true
  | _ => false
  end.

(** Writing a property: an existing key keeps its place and takes the new
    value, a new key goes last. *)
Fixpoint set_prop (k : jsstring) (v : value) (props : list (jsstring * value))
  : list (jsstring * value) :=
  match props with
  | [] => [(k, v)]
  | (k', v') :: r =>
      if str_eqb k k' then (k', v) :: r else (k', v') :: set_prop k v r
  end.

(** ** JSON.parse *)

(** The white space of the JSON grammar. *)
Definition is_json_ws (c : char) : bool :=
  N.eqb c 32 || N.eqb c 9 || N.eqb c 10 || N.eqb c 13.

Definition skip_ws (s : jsstring) : jsstring := dropWhile is_json_ws s.

Definition hex_value (c : char) : option N :=
  if N.leb 48 c && N.leb c 57 then Some (c - 48)%N
  else if N.leb 97 c && N.leb c 102 then Some (c - 87)%N
  else if N.leb 65 c && N.leb c 70 then Some (c - 55)%N
  else None.

Definition hex4 (a b c d : char) : option char :=
  match hex_value a, hex_value b, hex_value c, hex_value d with
  | Some x, Some y, Some z, Some w => Some (((x * 16 + y) * 16 + z) * 16 + w)%N
  | _, _, _, _ => None
  end.

(** The single-character escapes: a backslash followed by a double quote,
    a backslash, a slash, or one of b, f, n, r, t. *)
Definition escape_value (c : char) : option char :=
  if N.eqb c 34 then Some 34%N
  else if N.eqb c 92 then Some 92%N
  else if N.eqb c 47 then Some 47%N
  else if N.eqb c 98 then Some 8%N
  else if N.eqb c 102 then Some 12%N
  else if N.eqb c 110 then Some 10%N
  else if N.eqb c 114 then Some 13%N
  else if N.eqb c 116 then Some 9%N
  else None.

(** The characters of a string literal, after its opening quote, up to
    and including the closing quote. [acc] is the string read so far,
    reversed. *)
Fixpoint parse_chars (acc : jsstring) (s : jsstring) : option (jsstring * jsstring) :=
  match s with
  | [] => None
  | c :: r =>
      if N.eqb c 34 then Some (rev acc, r)
      else if N.eqb c 92 then
        match r with
        | [] => None
        | e :: r1 =>
            if N.eqb e 117 then
              match r1 with
              | h1 :: h2 :: h3 :: h4 :: r2 =>
                  match hex4 h1 h2 h3 h4 with
                  | Some u => parse_chars (u :: acc) r2
                  | None => None
                  end
              | _ => None
              end
            else
              match escape_value e with
              | Some u => parse_chars (u :: acc) r1
              | None => None
              end
        end
      else if N.ltb c 32 then None
      else parse_chars (c :: acc) r
  end.

Definition digits_value (ds : jsstring) : Z :=
  fold_left (fun acc d => 10 * acc + (Z.of_N d - 48)) ds 0.

(** A number literal: an optional minus sign; then a single 0, or a
    digit from 1 to 9 and any digits; then, optionally, a point and at
    least one digit; then, optionally, e or E, an optional sign and at
    least one digit. *)
Definition parse_number (s : jsstring) : option (number * jsstring) :=
  let '(neg, s) := match s with
                   | c :: r => if N.eqb c 45 then (true, r) else (false, s)
                   | [] => (false, s)
                   end in
  match s with
  | [] => None
  | c :: r =>
      if negb (is_digit c) then None
      else
        let ipart := if N.eqb c 48 then [c] else takeWhile is_digit s in
        let s1 := if N.eqb c 48 then r else dropWhile is_digit s in
        let frac :=
          match s1 with
          | d :: r1 =>
              if N.eqb d 46 then
                match takeWhile is_digit r1 with
                | [] => None
                | fs => Some (fs, dropWhile is_digit r1)
                end
              else Some ([], s1)
          | [] => Some ([], s1)
          end in
        match frac with
        | None => None
        | Some (fpart, s2) =>
            let expo :=
              match s2 with
              | e :: r2 =>
                  if N.eqb e 101 || N.eqb e 69 then
                    let '(eneg, r3) :=
                      match r2 with
                      | g :: r3 =>
                          if N.eqb g 45 then (true, r3)
                          else if N.eqb g 43 then (false, r3)
                          else (false, r2)
                      | [] => (false, r2)
                      end in
                    match takeWhile is_digit r3 with
                    | [] => None
                    | es =>
                        let v := digits_value es in
                        Some (if eneg then - v else v, dropWhile is_digit r3)
                    end
                  else Some (0, s2)
              | [] => Some (0, s2)
              end in
            match expo with
            | None => None
            | Some (ex, s3) =>
                let ds := ipart ++ fpart in
                Some (of_decimal neg (digits_value ds)
                        (Z.of_nat (List.length ds))
                        (ex - Z.of_nat (List.length fpart)), s3)
            end
        end
  end.

Definition starts_with (p s : jsstring) : option jsstring :=
  if str_eqb p (firstn (List.length p) s) then Some (skipn (List.length p) s)
  else None.

(** A JSON value at the head of [s], with what follows it.  [parse_elements]
    and [parse_members] read the rest of an array and of an object once
    one more element, or member, is due.  [fuel] bounds the depth of the
    calls; twice the length of the text is enough, since at least one
    code unit is consumed every second call ([JSON_parse_fuel] below). *)
Fixpoint parse_value (fuel : nat) (s : jsstring) : option (value * jsstring) :=
  match fuel with
  | O => None
  | S fuel' =>
      match skip_ws s with
      | [] => None
      | c :: r =>
          if N.eqb c 123 then
            match skip_ws r with
            | d :: r' =>
                if N.eqb d 125 then Some (VObj [], r')
                else parse_members fuel' [] (d :: r')
            | [] => None
            end
          else if N.eqb c 91 then
            match skip_ws r with
            | d :: r' =>
                if N.eqb d 93 then Some (VArr [], r')
                else parse_elements fuel' [] (d :: r')
            | [] => None
            end
          else if N.eqb c 34 then
            match parse_chars [] r with
            | Some (str, r') => Some (VStr str, r')
            | None => None
            end
          else if N.eqb c 116 then
            match starts_with (js "true") (c :: r) with
            | Some r' => Some (VBool true, r')
            | None => None
            end
          else if N.eqb c 102 then
            match starts_with (js "false") (c :: r) with
            | Some r' => Some (VBool false, r')
            | None => None
            end
          else if N.eqb c 110 then
            match starts_with (js "null") (c :: r) with
            | Some r' => Some (VNull, r')
            | None => None
            end
          else
            match parse_number (c :: r) with
            | Some (x, r') => Some (VNum x, r')
            | None => None
            end
      end
  end

with parse_elements (fuel : nat) (acc : list value) (s : jsstring)
  : option (value * jsstring) :=
  match fuel with
  | O => None
  | S fuel' =>
      match parse_value fuel' s with
      | None => None
      | Some (v, r) =>
          match skip_ws r with
          | c :: r' =>
              if N.eqb c 44 then parse_elements fuel' (acc ++ [v]) r'
              else if N.eqb c 93 then Some (VArr (acc ++ [v]), r')
              else None
          | [] => None
          end
      end
  end

with parse_members (fuel : nat) (acc : list (jsstring * value)) (s : jsstring)
  : option (value * jsstring) :=
  match fuel with
  | O => None
  | S fuel' =>
      match skip_ws s with
      | q :: r0 =>
          if negb (N.eqb q 34) then None
          else
            match parse_chars [] r0 with
            | None => None
            | Some (k, r1) =>
                match skip_ws r1 with
                | c :: r2 =>
                    if negb (N.eqb c 58) then None
                    else
                      match parse_value fuel' r2 with
                      | None => None
                      | Some (v, r3) =>
                          match skip_ws r3 with
                          | d :: r4 =>
                              if N.eqb d 44 then
                                parse_members fuel' (set_prop k v acc) r4
                              else if N.eqb d 125 then
                                Some (VObj (set_prop k v acc), r4)
                              else None
                          | [] => None
                          end
                      end
                | [] => None
                end
            end
      | [] => None
      end
  end.

(** [JSON.parse(text)]: [None] stands for the SyntaxError it throws. *)
Definition JSON_parse (text : jsstring) : option value :=
  match parse_value (2 * List.length text + 2) text with
  | Some (v, r) => match skip_ws r with [] => Some v | _ => None end
  | None => None
  end.

(** ** JSON.stringify *)

(** What [JSON.stringify] writes for a value, given as the value a
    reader of the text finds in it: a number that is not finite is
    written [null], a zero is written [0] whatever its sign, an element
    of an array that is [undefined] is written [null], and a property
    whose value is [undefined] is not written.  Strings, booleans,
    [null] and finite numbers are written as they are.  (The order in
    which the keys of an object are written is not part of this
    model.) *)
Fixpoint serialized (v : value) : value :=
  match v with
  | VNum (S754_infinity _) | VNum S754_nan => VNull
  | VNum (S754_zero _) => VNum (S754_zero false)
  | VArr items =>
      VArr (List.map (fun item =>
                        match item with
                        | VUndefined => VNull
                        | _ => serialized item
                        end) items)
  | VObj props =>
      VObj ((fix members (ps : list (jsstring * value))
               : list (jsstring * value) :=
               match ps with
               | [] => []
               | (k, VUndefined) :: r => members r
               | (k, x) :: r => (k, serialized x) :: members r
               end) props)
  | _ => v
  end.

(** ** The value of a header *)

(** The white space that is stripped from both ends of the value of a
    header: tab, line feed, carriage return and space. *)
Definition is_http_space (c : char) : bool :=
  N.eqb c 9 || N.eqb c 10 || N.eqb c 13 || N.eqb c 32.

(** What [new Response(body, { headers })] accepts as the value of a
    header: a string of code units up to 255 that, once the white space
    at its ends is stripped, holds no NUL, line feed or carriage return.
    For any other value the constructor throws a TypeError. *)
Definition header_value_ok (s : jsstring) : bool :=
  forallb (fun c => N.leb c 255) s
  && forallb (fun c => negb (N.eqb c 0 || N.eqb c 10 || N.eqb c 13))
             (rev (dropWhile is_http_space (rev (dropWhile is_http_space s)))).

(** ** Exceptions *)

Inductive error : Type :=
| Error (message : jsstring)   (* [new Error(message)] *)
| TypeError                    (* reading a property of null, calling a non-function *)
| SyntaxError.                 (* JSON.parse on a malformed text *)

Inductive outcome (A : Type) : Type :=
| Returned (a : A)
| Thrown (e : error).

Arguments Returned {A} a.
Arguments Thrown {A} e.

Definition bind {A B : Type} (x : outcome A) (f : A -> outcome B) : outcome B :=
  match x with
  | Returned a => f a
  | Thrown e => Thrown e
  end.

Fixpoint mapM {A B : Type} (f : A -> outcome B) (l : list A) : outcome (list B) :=
  match l with
  | [] => Returned []
  | x :: r =>
      bind (f x) (fun y => bind (mapM f r) (fun ys => Returned (y :: ys)))
  end.

End JS.

(* ================================================================== *)
(** * analyze-results/route.ts *)
(* ================================================================== *)

Module Analyze.
Import JS.

(** ** The request *)

(** An entry of [topicScoresArray]. *)
Record Topic : Type := {
  name : jsstring;
  correct : number;
  weighted : number;
  weight : number;
  total : number
}.

(** [interface StudentData] *)
Record StudentData : Type := {
  userName : jsstring;
  userEmail : option jsstring;
  userPhone : option jsstring;
  overallScore : number;
  topicScoresArray : list Topic
}.

(** ** The readiness levels of the system prompt *)

(** The range of a row of the list READINESS LEVELS of [systemPrompt], as
    the prompt writes it: [lo-hi], or [<bound]. *)
Inductive Range : Type :=
| Between (lo hi : Z)
| Below (bound : Z).

(** The rows of the list.  They are text of the prompt, an instruction
    to the collaborator: the handler evaluates none of them. *)
Definition READINESS_LEVELS : list (Range * string) :=
  [ (Between 90 100, "Excellent");
    (Between 80 89, "Very Good");
    (Between 70 79, "Good");
    (Between 60 69, "Satisfactory");
    (Between 50 59, "Needs Improvement");
    (Below 50, "Low Readiness") ]%string.

(** ** The line of the prompt written for one topic *)

(** [const score = Math.round((topic.correct/topic.total)*100)] *)
Definition score (topic : Topic) : number :=
  Math_round (mul (div (correct topic) (total topic)) (of_Z 100)).

(** The label after [Interpretation:], the chain of conditionals on
    [score]. *)
Definition interpretation (score : number) : jsstring :=
  if geb score (of_Z 90) then js "Excellent"
  else if geb score (of_Z 80) then js "Very Good"
  else if geb score (of_Z 70) then js "Good"
  else if geb score (of_Z 60) then js "Satisfactory"
  else js "Needs Improvement".

(** [frameworkMapping]: the dimension a section of the survey counts
    for, with its weight in percent (the constructs are left out). *)
Definition frameworkMapping : list (string * (string * Z)) :=
  [ ("Academic Readiness", ("Academic Readiness", 20));
    ("Cultural Adaptability", ("Personal & Cultural Readiness", 15));
    ("Career Clarity", ("Career & Goal Alignment", 20));
    ("Study Abroad Readiness", ("Practical Readiness", 10));
    ("Career & Goal Alignment", ("Career & Goal Alignment", 20));
    ("Personal & Cultural Readiness", ("Personal & Cultural Readiness", 15));
    ("Practical Readiness", ("Practical Readiness", 10));
    ("Support System", ("Support System", 10));
    ("Financial Planning", ("Financial Planning", 25)) ]%string.

(** [frameworkMapping] is an object literal, so [frameworkMapping[topic.name]]
    also finds what every object inherits from [Object.prototype]: for a
    section with one of these names the lookup gives a function, or
    [Object.prototype] itself, which is truthy, is no entry of the table
    and has no [constructs]. *)
Definition inherited : list string :=
  [ "constructor"; "hasOwnProperty"; "isPrototypeOf"; "propertyIsEnumerable";
    "toLocaleString"; "toString"; "valueOf"; "__proto__";
    "__defineGetter__"; "__defineSetter__"; "__lookupGetter__";
    "__lookupSetter__" ]%string.

Definition is_inherited (topicName : jsstring) : bool :=
  existsb (fun inheritedName => str_eqb (js inheritedName) topicName) inherited.

(** [frameworkMapping[topic.name] || { name: topic.name, weight: 0, ... }],
    for a name that is not inherited. *)
Definition dimension (topicName : jsstring) : jsstring * Z :=
  match find (fun entry => str_eqb (js (fst entry)) topicName) frameworkMapping with
  | Some (_, (dimensionName, dimensionWeight)) => (js dimensionName, dimensionWeight)
  | None => (topicName, 0)
  end.

(** What the template of the line interpolates for a topic, the
    constructs apart. *)
Record TopicLine : Type := {
  line_dimension : jsstring;
  line_weight : Z;
  line_score : number;
  line_interpretation : jsstring
}.

(** The template literal of the line.  For a section named like an
    inherited property, [dimension.constructs] is [undefined] and
    [dimension.constructs.join(', ')] throws a TypeError; no other part
    of the line throws. *)
Definition topic_line (topic : Topic) : outcome TopicLine :=
  if is_inherited (name topic) then Thrown TypeError
  else
    let dimension := dimension (name topic) in
    let score := score topic in
    Returned {| line_dimension := fst dimension;
                line_weight := snd dimension;
                line_score := score;
                line_interpretation := interpretation score |}.

(** [studentData.topicScoresArray.map(topic => ...)] of [userPrompt]. *)
Definition userPrompt (studentData : StudentData) : outcome (list TopicLine) :=
  mapM topic_line (topicScoresArray studentData).

(** ** The call to the collaborator *)

(** How [openai.chat.completions.create] settles: it resolves with a
    completion object after some milliseconds, rejects with an error after
    some milliseconds, or stays pending. *)
Inductive Promise : Type :=
| Resolves (after_ms : N) (completion : list (jsstring * value))
| Rejects (after_ms : N) (message : jsstring)
| Pending.

(** What [await Promise.race([modelPromise, timeoutPromise])] gives. *)
Inductive Attempt : Type :=
| Succeeded (completion : list (jsstring * value))
| Failed (message : jsstring).

Definition timeout_ms : N := 45000.

(** The race against a timer of 45000 ms that is started for this
    attempt alone; the request has to settle before the timer fires (a
    tie is given to the timer). *)
Definition race (modelPromise : Promise) : Attempt :=
  match modelPromise with
  | Resolves t c => if N.ltb t timeout_ms then Succeeded c
                    else Failed (js "Model timeout")
  | Rejects t m => if N.ltb t timeout_ms then Failed m
                   else Failed (js "Model timeout")
  | Pending => Failed (js "Model timeout")
  end.

(** [const models = ["sonar-pro", "sonar"]] *)
Definition models : list jsstring := [js "sonar-pro"; js "sonar"].

(** The variables of the loop, and the models announced by
    [console.log(`Trying model: ${model}`)]. *)
Record LoopState : Type := {
  completion : option (list (jsstring * value));
  lastError : option jsstring;
  tried : list jsstring
}.

Definition initial : LoopState :=
  {| completion := None; lastError := None; tried := [] |}.

(** [for (const model of models) { try { ...; break } catch { ...; continue } }] *)
Fixpoint try_models (create : jsstring -> Promise) (ms : list jsstring)
         (st : LoopState) : LoopState :=
  match ms with
  | [] => st
  | model :: rest =>
      let st := {| completion := completion st;
                   lastError := lastError st;
                   tried := tried st ++ [model] |} in
      match race (create model) with
      | Succeeded c =>
          {| completion := Some c;
             lastError := lastError st;
             tried := tried st |}
      | Failed m =>
          try_models create rest
            {| completion := completion st;
               lastError := Some m;
               tried := tried st |}
      end
  end.

(** [`All models failed. Last error: ${lastError?.message || 'Unknown error'}`] *)
Definition all_failed_message (lastError : option jsstring) : jsstring :=
  js "All models failed. Last error: "
  ++ match lastError with
     | Some (c :: m) => c :: m
     | _ => js "Unknown error"
     end.

(** The loop and the test [if (!completion)] after it. *)
Definition call_models (create : jsstring -> Promise)
  : outcome (list (jsstring * value)) :=
  let st := try_models create models initial in
  match completion st with
  | Some c => Returned c
  | None => Thrown (Error (all_failed_message (lastError st)))
  end.

(** ** The text of the reply *)

(** [v[0]] *)
Definition first_item (v : value) : value :=
  match v with
  | VArr (x :: _) => x
  | VStr (c :: _) => VStr [c]
  | VObj props => lookup (js "0") props
  | _ => VUndefined
  end.

(** [v?.k] *)
Definition get_opt (v : value) (k : string) : value :=
  if is_nullish v then VUndefined else get v k.

(** [completion.choices[0]?.message?.content || ''], the test
    [if (!generatedText)] and the uses of the text as a string. *)
Definition generatedText (completion : list (jsstring * value))
  : outcome jsstring :=
  let choices := get (VObj completion) "choices" in
  if is_nullish choices then Thrown TypeError
  else
    let text :=
      or_else (get_opt (get_opt (first_item choices) "message") "content")
              (VStr []) in
    if negb (truthy text) then Thrown (Error (js "Empty response from LLM"))
    else match text with
         | VStr s => Returned s
         | _ => Thrown TypeError
         end.

(** ** Extraction of the JSON object *)

Definition is_open_brace (c : char) : bool := N.eqb c 123.
Definition is_close_brace (c : char) : bool := N.eqb c 125.

(** [generatedText.match(/\{[\s\S]*\}/)]: the match starts at the first
    opening brace and, the star being greedy, ends at the last closing
    brace after it. *)
Definition jsonMatch (generatedText : jsstring) : option jsstring :=
  match dropWhile (fun c => negb (is_open_brace c)) generatedText with
  | [] => None
  | b :: after =>
      match dropWhile (fun c => negb (is_close_brace c)) (rev after) with
      | [] => None
      | kept => Some (b :: rev kept)
      end
  end.

(** [if (!jsonMatch) throw ...; const llmResult = JSON.parse(jsonMatch[0])] *)
Definition extract (generatedText : jsstring) : outcome value :=
  match jsonMatch generatedText with
  | None => Thrown (Error (js "No JSON found in LLM response"))
  | Some span =>
      match JSON_parse span with
      | Some llmResult => Returned llmResult
      | None => Thrown SyntaxError
      end
  end.

(** ** Validation of the parsed reply *)

Definition missing (field : string) : error :=
  Error (js "LLM response missing required field: " ++ js field).

(** The seven tests under [// Validate that essential fields exist], in
    their order; what passes them is [llmResult] itself. *)
Definition validate (llmResult : value) : outcome value :=
  if negb (truthy (get llmResult "Student Name"))
     && negb (truthy (get llmResult "studentName"))
  then Thrown (missing "Student Name")
  else if negb (truthy (get llmResult "Scores"))
          && negb (truthy (get llmResult "scores"))
  then Thrown (missing "Scores")
  else if negb (truthy (get llmResult "Overall Readiness Index"))
  then Thrown (missing "Overall Readiness Index")
  else if negb (truthy (get llmResult "Readiness Level"))
  then Thrown (missing "Readiness Level")
  else if negb (truthy (get llmResult "Strengths"))
  then Thrown (missing "Strengths")
  else if negb (truthy (get llmResult "Gaps"))
  then Thrown (missing "Gaps")
  else if negb (truthy (get llmResult "Recommendations"))
  then Thrown (missing "Recommendations")
  else Returned llmResult.

(** ** The handler *)

Inductive Response : Type :=
| Json200 (body : value)
| Json400 (error : jsstring)
| Json500 (details : JS.error).

(** The body of the [try] block from the API key on: the key, the
    prompt, the call, the text, the object and its validation.  [create]
    is how the collaborator answers a user prompt for each model. *)
Definition analyze (apiKey : option jsstring)
           (create : list TopicLine -> jsstring -> Promise)
           (studentData : StudentData) : outcome value :=
  match apiKey with
  | None | Some [] => Thrown (Error (js "PERPLEXITY_API_KEY not configured"))
  | Some _ =>
      bind (userPrompt studentData) (fun userPrompt =>
      bind (call_models (create userPrompt)) (fun completion =>
      bind (generatedText completion) (fun text =>
      bind (extract text) validate)))
  end.

(** [export async function POST]: [apiKey] is
    [process.env.PERPLEXITY_API_KEY].  [NextResponse.json(llmResult)]
    answers with the text [JSON.stringify] writes for the object. *)
Definition POST (apiKey : option jsstring)
           (create : list TopicLine -> jsstring -> Promise)
           (studentData : StudentData) : Response :=
  match userName studentData with
  | [] => Json400 (js "Missing user name")
  | _ =>
      match analyze apiKey create studentData with
      | Returned llmResult => Json200 (serialized llmResult)
      | Thrown e => Json500 e
      end
  end.

(** ** The time spent in the races *)

(** When [await Promise.race([modelPromise, timeoutPromise])] settles,
    in milliseconds after the attempt has started: with the request, or
    with the timer of [timeout_ms]. *)
Definition settles_after (modelPromise : Promise) : N :=
  match modelPromise with
  | Resolves t _ | Rejects t _ => N.min t timeout_ms
  | Pending => timeout_ms
  end.

(** The milliseconds the loop over [ms] spends in its races: the next
    attempt starts when the one before it has failed. *)
Fixpoint waited (create : jsstring -> Promise) (ms : list jsstring) : N :=
  match ms with
  | [] => 0%N
  | model :: rest =>
      (settles_after (create model)
       + match race (create model) with
         | Succeeded _ => 0
         | Failed _ => waited create rest
         end)%N
  end.

End Analyze.

(* ================================================================== *)
(** * generate-pdf/route.ts *)
(* ================================================================== *)

Module Pdf.
Import JS.

(** ** The handler: the first test and the name of the attachment *)

(** [!results['Student Name'] && !results.studentName], which is answered
    with status 400. *)
Definition missing_student_name (results : value) : bool :=
  negb (truthy (get results "Student Name"))
  && negb (truthy (get results "studentName")).

(** The file name in the [Content-Disposition] header:
    [(results['Student Name'] || results.studentName)
       .replace(/\s+/g, '-').toLowerCase()]
    between [psychometric-report-] and [.pdf].  The method calls throw on
    a name that is not a string.  ([toLowerCase] is modelled on the code
    units below 256; what is stated of a string name is stated for such
    names.) *)
Definition filename (results : value) : outcome jsstring :=
  match or_else (get results "Student Name") (get results "studentName") with
  | VStr studentName =>
      Returned (js "psychometric-report-"
                ++ toLowerCase (replace_spaces (js "-") studentName)
                ++ js ".pdf")
  | _ => Thrown TypeError
  end.

Definition contentDisposition (results : value) : outcome jsstring :=
  bind (filename results) (fun f =>
  Returned (jq "attachment; filename='" ++ f ++ jq "'")).

(** ** generateHTMLContent: the data the template interpolates *)

Record Scores : Type := {
  financialPlanning : value;
  academicReadiness : value;
  careerAlignment : value;
  personalCultural : value;
  practicalReadiness : value;
  supportSystem : value
}.

(** The constants of [generateHTMLContent] that its template literal
    interpolates. *)
Record ReportData : Type := {
  studentName : value;
  studentEmail : value;
  studentPhone : value;
  scores : Scores;
  overallIndex : value;
  readinessLevel : value;
  strengths : value;
  gaps : value;
  recommendations : value;
  countryFit : value
}.

Definition is_undefined (v : value) : bool :=
  match v with
  | VUndefined => true
  | _ => false
  end.

Definition required (message : string) : error := Error (js message).

(** The body of [generateHTMLContent] from [// Get data from LLM format]
    down to [const countryFit]: every read of [results] and every
    [throw], in the order of the source.  The template literal that the
    function returns is markup around these constants and the helpers
    below; it is not part of the embedding. *)
Definition generateHTMLContent (results : value) : outcome ReportData :=
  if is_nullish results then Thrown TypeError
  else
  let studentName :=
    or_else (get results "Student Name") (get results "studentName") in
  let studentEmail :=
    or_else (or_else (or_else (get results "Student Email")
                              (get results "studentEmail"))
                     (get results "userEmail"))
            (VStr []) in
  let studentPhone :=
    or_else (or_else (or_else (get results "Student Phone")
                              (get results "studentPhone"))
                     (get results "userPhone"))
            (VStr []) in
  if negb (truthy studentName) then Thrown (required "Student Name is required")
  else
  let scoresRaw :=
    or_else (or_else (get results "scores") (get results "Scores"))
            (get results "Scores") in
  if negb (truthy scoresRaw) then Thrown (required "Scores data is required")
  else
  let zero := VNum (of_Z 0) in
  let scores :=
    {| financialPlanning := coalesce (get scoresRaw "Financial Planning") zero;
       academicReadiness := coalesce (get scoresRaw "Academic Readiness") zero;
       careerAlignment := coalesce (get scoresRaw "Career Alignment") zero;
       personalCultural := coalesce (get scoresRaw "Personal & Cultural") zero;
       practicalReadiness := coalesce (get scoresRaw "Practical Readiness") zero;
       supportSystem := coalesce (get scoresRaw "Support System") zero |} in
  let overallIndex :=
    or_else (get results "Overall Readiness Index") (get results "overallIndex") in
  if is_undefined overallIndex
  then Thrown (required "Overall Readiness Index is required")
  else
  let readinessLevel :=
    or_else (get results "Readiness Level") (get results "readinessLevel") in
  if negb (truthy readinessLevel)
  then Thrown (required "Readiness Level is required")
  else
  let strengths := get results "Strengths" in
  if negb (truthy strengths)
  then Thrown (required "Strengths analysis is required")
  else
  let gaps := get results "Gaps" in
  if negb (truthy gaps) then Thrown (required "Gaps analysis is required")
  else
  let recommendations := get results "Recommendations" in
  if negb (truthy recommendations)
  then Thrown (required "Recommendations are required")
  else
  let countryFit := or_else (get results "Country Fit (Top 3)") (VArr []) in
  Returned
    {| studentName := studentName;
       studentEmail := studentEmail;
       studentPhone := studentPhone;
       scores := scores;
       overallIndex := overallIndex;
       readinessLevel := readinessLevel;
       strengths := strengths;
       gaps := gaps;
       recommendations := recommendations;
       countryFit := countryFit |}.

(** ** formatToBulletPoints *)

(** One list item of the markup. *)
Definition bullet_item (content : jsstring) : jsstring :=
  jq "<li class='bullet-item'>" ++ content ++ js "</li>".

Definition not_available : jsstring := bullet_item (js "Information not available").

(** [s.trim().length > 0] *)
Definition not_blank (s : jsstring) : bool :=
  match trim s with
  | [] => false
  | _ => true
  end.

(** The class [[.!?]] *)
Definition is_sentence_end (c : char) : bool :=
  N.eqb c 46 || N.eqb c 33 || N.eqb c 63.

(** The class [[,;]] *)
Definition is_list_separator (c : char) : bool :=
  N.eqb c 44 || N.eqb c 59.

Definition is_no_content (text : jsstring) : bool :=
  str_eqb text (js "No strengths identified")
  || str_eqb text (js "No gaps identified")
  || str_eqb text (js "No recommendations provided").

(** [item => `<li class=...>${item.trim()}</li>`]; [trim] is a method of
    strings only. *)
Definition array_item (item : value) : outcome jsstring :=
  match item with
  | VStr s => Returned (bullet_item (trim s))
  | _ => Thrown TypeError
  end.

Definition formatToBulletPoints (text : value) : outcome jsstring :=
  if negb (truthy text) then Returned not_available
  else
    match text with
    | VArr items =>
        bind (mapM array_item items) (fun lis => Returned (join lis))
    | VStr text =>
        if is_no_content text then Returned not_available
        else
          let sentences := filter not_blank (split is_sentence_end text) in
          let points :=
            if Nat.ltb 1 (List.length sentences) then sentences
            else filter not_blank (split is_list_separator text) in
          Returned
            (join (List.map
                     (fun point =>
                        let cleanPoint := strip_leading_number (trim point) in
                        bullet_item cleanPoint)
                     points))
    | _ => Returned (bullet_item (js "Invalid input format"))
    end.

(** ** The country matrix and the country cards *)

(** [typeof countryData === 'string' ? countryData : countryData.country] *)
Definition country_of (countryData : value) : outcome value :=
  match countryData with
  | VStr _ => Returned countryData
  | VNull | VUndefined => Thrown TypeError
  | _ => Returned (get countryData "country")
  end.

(** [typeof countryData === 'string' ? Math.round(100 - (index * 15))
                                     : countryData.match || 100] *)
Definition matchScore (countryData : value) (index : nat) : outcome value :=
  match countryData with
  | VStr _ =>
      Returned (VNum (Math_round
                        (sub (of_Z 100)
                             (mul (of_Z (Z.of_nat index)) (of_Z 15)))))
  | VNull | VUndefined => Thrown TypeError
  | _ => Returned (or_else (get countryData "match") (VNum (of_Z 100)))
  end.

(** [typeof countryData === 'string' ? 'Well-suited destination ...'
       : (countryData.reasoning || 'Good study destination')] *)
Definition description_of (countryData : value) : outcome value :=
  match countryData with
  | VStr _ => Returned (VStr (js "Well-suited destination for study abroad"))
  | VNull | VUndefined => Thrown TypeError
  | _ => Returned (or_else (get countryData "reasoning")
                           (VStr (js "Good study destination")))
  end.

(** What one item of the matrix shows. *)
Record MatrixItem : Type := {
  matrix_rank : nat;
  matrix_name : value;
  matrix_score : value;
  matrix_desc : value
}.

(** What one country card shows, the flag apart. *)
Record CountryCard : Type := {
  card_rank : nat;
  card_name : value;
  card_score : value
}.

Definition matrix_item (countryData : value) (index : nat) : outcome MatrixItem :=
  bind (country_of countryData) (fun country =>
  bind (matchScore countryData index) (fun score =>
  bind (description_of countryData) (fun description =>
  Returned {| matrix_rank := index + 1;
              matrix_name := country;
              matrix_score := score;
              matrix_desc := description |}))).

(** [a.map((x, index) => f(x, index))], [index] counting from [start]. *)
Fixpoint map_index {A B : Type} (f : A -> nat -> outcome B) (start : nat)
         (l : list A) : outcome (list B) :=
  match l with
  | [] => Returned []
  | x :: r =>
      bind (f x start) (fun y =>
      bind (map_index f (S start) r) (fun ys => Returned (y :: ys)))
  end.

Definition generateCountryMatrix (countries : list value)
  : outcome (list MatrixItem) :=
  map_index matrix_item 0 countries.

Definition generateCountryCard (countryData : value) (index : nat)
  : outcome CountryCard :=
  bind (country_of countryData) (fun country =>
  bind (matchScore countryData index) (fun score =>
  Returned {| card_rank := index + 1;
              card_name := country;
              card_score := score |})).

(** [countryFit.map((countryData, index) =>
       generateCountryCard(countryData, index))] *)
Definition generateCountryCards (countries : list value)
  : outcome (list CountryCard) :=
  map_index generateCountryCard 0 countries.

(** ** The score cards and the two charts *)

(** [getFrameworkWeight]: a [switch] on the name of the framework. *)
Definition getFrameworkWeight (framework : jsstring) : jsstring :=
  if str_eqb framework (js "Financial Planning") then js "25%"
  else if str_eqb framework (js "Academic Readiness") then js "20%"
  else if str_eqb framework (js "Career Alignment") then js "20%"
  else if str_eqb framework (js "Personal & Cultural") then js "15%"
  else if str_eqb framework (js "Practical Readiness") then js "10%"
  else if str_eqb framework (js "Support System") then js "10%"
  else js "0%".

(** [percentage >= 80 ? 'excellent' : percentage >= 60 ? 'good'
       : percentage >= 40 ? 'average' : 'weak'] *)
Definition barClass (percentage : number) : jsstring :=
  if geb percentage (of_Z 80) then js "excellent"
  else if geb percentage (of_Z 60) then js "good"
  else if geb percentage (of_Z 40) then js "average"
  else js "weak".

(** What one score card shows. *)
Record ScoreCard : Type := {
  scorecard_label : jsstring;
  scorecard_percentage : number;
  scorecard_barClass : jsstring;
  scorecard_weight : jsstring
}.

(** [generateScoreCard = (label: string, score: number, weight: string)],
    on the arguments its signature declares. *)
Definition generateScoreCard (label : jsstring) (score : number)
           (weight : jsstring) : ScoreCard :=
  let percentage := Math_round score in
  {| scorecard_label := label;
     scorecard_percentage := percentage;
     scorecard_barClass := barClass percentage;
     scorecard_weight := weight |}.

(** [generateRadarChart]: the six categories, each with
    [scores[...] || 0]. *)
Definition generateRadarChart (scores : Scores) : list (jsstring * value) :=
  let zero := VNum (of_Z 0) in
  [ (js "Financial Planning", or_else (financialPlanning scores) zero);
    (js "Academic Readiness", or_else (academicReadiness scores) zero);
    (js "Career Alignment", or_else (careerAlignment scores) zero);
    (js "Personal & Cultural", or_else (personalCultural scores) zero);
    (js "Practical Readiness", or_else (practicalReadiness scores) zero);
    (js "Support System", or_else (supportSystem scores) zero) ].

(** [generateTrendChart]: the same, under shorter names. *)
Definition generateTrendChart (scores : Scores) : list (jsstring * value) :=
  let zero := VNum (of_Z 0) in
  [ (js "Financial", or_else (financialPlanning scores) zero);
    (js "Academic", or_else (academicReadiness scores) zero);
    (js "Career", or_else (careerAlignment scores) zero);
    (js "Cultural", or_else (personalCultural scores) zero);
    (js "Practical", or_else (practicalReadiness scores) zero);
    (js "Support", or_else (supportSystem scores) zero) ].

(** ** The second page of the template *)

(** What the second page shows: the two charts, the three lists of
    bullet points, the matrix and the cards. *)
Record CountryPage : Type := {
  page_radar : list (jsstring * value);
  page_trend : list (jsstring * value);
  page_strengths : jsstring;
  page_gaps : jsstring;
  page_recommendations : jsstring;
  page_matrix : list MatrixItem;
  page_cards : list CountryCard
}.

(** [countryFit.length > 0 ? `...` : ''] for a country list that is an
    array: the helpers the second page interpolates, in the order of
    the template, each of which may throw. *)
Definition countryPage (data : ReportData) (countries : list value)
  : outcome (option CountryPage) :=
  match countries with
  | [] => Returned None
  | _ =>
      bind (formatToBulletPoints (strengths data)) (fun strengths =>
      bind (formatToBulletPoints (gaps data)) (fun gaps =>
      bind (formatToBulletPoints (recommendations data)) (fun recommendations =>
      bind (generateCountryMatrix countries) (fun matrix =>
      bind (generateCountryCards countries) (fun cards =>
      Returned (Some {| page_radar := generateRadarChart (scores data);
                        page_trend := generateTrendChart (scores data);
                        page_strengths := strengths;
                        page_gaps := gaps;
                        page_recommendations := recommendations;
                        page_matrix := matrix;
                        page_cards := cards |}))))))
  end.

(** ** The handler and the browser *)

(** The calls of the handler that leave the process: the dynamic imports
    and the methods of the browser and of its page, and the two waits. *)
Inductive Call : Type :=
| ImportChromium                 (* [await import('@sparticuz/chromium')] *)
| ImportPuppeteerCore            (* [await import('puppeteer-core')] *)
| ExecutablePath                 (* [await chromium.executablePath()] *)
| LaunchCore                     (* [await puppeteerCore.launch(...)] *)
| ImportPuppeteer                (* [await import('puppeteer')] *)
| Launch                         (* [await puppeteer.launch(...)] *)
| NewPage                        (* [await browser.newPage()] *)
| SetDefaultTimeout
| SetDefaultNavigationTimeout
| SetViewport
| EmulateMediaType
| SetContent
| Wait (ms : N)                  (* [await new Promise(resolve => setTimeout(resolve, ms))] *)
| PrintPdf                       (* [await page.pdf(...)] *)
| Close.                         (* [await browser.close()] *)

Inductive Response : Type :=
| Json400 (error : jsstring)
| Json500 (error : jsstring)
| Pdf200 (contentType : jsstring) (contentLength : N)
         (contentDisposition : jsstring).

(** [!!process.env.VERCEL || !!process.env.AWS_LAMBDA_FUNCTION_NAME] *)
Definition isServerless (VERCEL AWS_LAMBDA_FUNCTION_NAME : option jsstring)
  : bool :=
  let set v := match v with Some (_ :: _) => true | _ => false end in
  set VERCEL || set AWS_LAMBDA_FUNCTION_NAME.

Section Handler.

(** The markup, and how the template literal of [generateHTMLContent]
    builds it from the constants: it returns the markup, or one of the
    helpers it interpolates throws. *)
Variable Html : Type.
Variable template : ReportData -> outcome Html.

(** The environment variables, the calls that throw, each with its
    error, and the length of the buffer [page.pdf] returns for a
    content. *)
Variable VERCEL AWS_LAMBDA_FUNCTION_NAME : option jsstring.
Variable throws : Call -> option error.
Variable pdfLength : Html -> N.

(** [generateHTMLContent(results)] as the handler calls it: the tests,
    then the template. *)
Definition htmlContent (results : value) : outcome Html :=
  bind (generateHTMLContent results) template.

(** A step of the handler: it returns or throws, and adds the calls it
    makes to those made so far. *)
Definition Run (A : Type) : Type := list Call -> outcome A * list Call.

Definition ret {A : Type} (a : A) : Run A := fun made => (Returned a, made).

Definition throw {A : Type} (e : error) : Run A := fun made => (Thrown e, made).

Definition lift {A : Type} (x : outcome A) : Run A := fun made => (x, made).

Definition and_then {A B : Type} (m : Run A) (f : A -> Run B) : Run B :=
  fun made =>
    match m made with
    | (Returned a, made') => f a made'
    | (Thrown e, made') => (Thrown e, made')
    end.

Definition call (c : Call) : Run unit :=
  fun made =>
    (match throws c with
     | Some e => Thrown e
     | None => Returned tt
     end, made ++ [c]).

(** A timer that resolves a promise does not throw. *)
Definition wait (ms : N) : Run unit := fun made => (Returned tt, made ++ [Wait ms]).

Notation "x <- m ;; k" := (and_then m (fun x => k))
  (at level 61, m at next level, right associativity).
Notation "m ;; k" := (and_then m (fun _ => k))
  (at level 61, right associativity).

(** [if (isServerless) { ... } else { ... }] *)
Definition launch : Run unit :=
  if isServerless VERCEL AWS_LAMBDA_FUNCTION_NAME then
    call ImportChromium ;; call ImportPuppeteerCore ;;
    call ExecutablePath ;; call LaunchCore
  else
    call ImportPuppeteer ;; call Launch.

(** The body of the [try] block once the request has been read.  The
    last step is [new Response(pdfBuffer, { status: 200, headers })],
    which throws a TypeError for a header value it does not accept; the
    values of [Content-Type] and [Content-Length] are always accepted. *)
Definition respond (results : value) : Run Response :=
  if is_nullish results then throw TypeError
  else if missing_student_name results
  then ret (Json400 (js "Missing student name"))
  else
    launch ;;
    call NewPage ;;
    call SetDefaultTimeout ;;
    call SetDefaultNavigationTimeout ;;
    html <- lift (htmlContent results) ;;
    call SetViewport ;;
    call EmulateMediaType ;;
    call SetContent ;;
    wait 1000 ;;
    wait 3000 ;;
    call PrintPdf ;;
    if N.eqb (pdfLength html) 0 then
      call Close ;;
      ret (Json500 (js "PDF generation failed - empty buffer"))
    else
      call Close ;;
      disposition <- lift (contentDisposition results) ;;
      if header_value_ok disposition
      then ret (Pdf200 (js "application/pdf") (pdfLength html) disposition)
      else throw TypeError.

(** [export async function POST]: the answer and the calls made.  [body]
    is what [request.json()] resolves with, [None] when it rejects; every
    exception of the [try] block is answered in the same way. *)
Definition POST (body : option value) : Response * list Call :=
  match body with
  | None => (Json500 (js "Failed to generate PDF"), [])
  | Some results =>
      match respond results [] with
      | (Returned response, made) => (response, made)
      | (Thrown _, made) => (Json500 (js "Failed to generate PDF"), made)
      end
  end.

End Handler.

Arguments htmlContent {Html}.
Arguments POST {Html}.
Arguments respond {Html}.

End Pdf.

(* ================================================================== *)
(** * What the specification says, and the tables the proofs compute *)
(* ================================================================== *)

Module Spec.
Import JS.

(** The tiers of the specification and its ladder [classifyTier]:
    [90,100] Excellent, [80,90) VeryGood, [70,80) Good, [60,70)
    Satisfactory, [50,60) NeedsImprovement, [0,50) Low. *)
Inductive ReadinessTier : Type :=
| Excellent | VeryGood | Good | Satisfactory | NeedsImprovement | Low.

Definition classifyTier (index : Z) : ReadinessTier :=
  if 90 <=? index then Excellent
  else if 80 <=? index then VeryGood
  else if 70 <=? index then Good
  else if 60 <=? index then Satisfactory
  else if 50 <=? index then NeedsImprovement
  else Low.

(** The names the source gives the tiers, in the list READINESS LEVELS
    of its system prompt. *)
Definition label (tier : ReadinessTier) : jsstring :=
  match tier with
  | Excellent => js "Excellent"
  | VeryGood => js "Very Good"
  | Good => js "Good"
  | Satisfactory => js "Satisfactory"
  | NeedsImprovement => js "Needs Improvement"
  | Low => js "Low Readiness"
  end.

(** [normalize] of the specification: InvalidInput ([None]) when
    [total <= 0], [correct > total] or [correct < 0], and otherwise
    100 * correct / total rounded half up. *)
Definition normalize (correct total : Z) : option Z :=
  if (total <=? 0) || (total <? correct) || (correct <? 0) then None
  else Some ((200 * correct + total) / (2 * total)).

(** The fallback match percentage of the specification at a 1-based
    rank. *)
Definition fallbackMatch (rank : Z) : Z := 100 - 15 * (rank - 1).

(** The file name of the specification: every run of code units that
    are neither letters nor digits becomes one separator. *)
Definition is_alphanumeric (c : char) : bool :=
  (N.leb 48 c && N.leb c 57) || (N.leb 65 c && N.leb c 90)
  || (N.leb 97 c && N.leb c 122).

Fixpoint collapse_aux (sep : char) (in_run : bool) (s : jsstring) : jsstring :=
  match s with
  | [] => []
  | c :: r =>
      if is_alphanumeric c then c :: collapse_aux sep false r
      else if in_run then collapse_aux sep true r
      else sep :: collapse_aux sep true r
  end.

Definition collapse (sep : char) (s : jsstring) : jsstring :=
  collapse_aux sep false s.

End Spec.

(* ================================================================== *)
(** * Inputs and decision procedures of the proofs *)
(* ================================================================== *)

Import JS.

(** ** Requests, replies and reports *)

(** A topic with [correct] answers out of [total]. *)
Definition topic_of (correct total : Z) : Analyze.Topic :=
  {| Analyze.name := js "Financial Planning";
     Analyze.correct := of_Z correct;
     Analyze.weighted := of_Z 0;
     Analyze.weight := of_Z 0;
     Analyze.total := of_Z total |}.

Definition student (topics : list Analyze.Topic) : Analyze.StudentData :=
  {| Analyze.userName := js "Asha";
     Analyze.userEmail := None;
     Analyze.userPhone := None;
     Analyze.overallScore := of_Z 0;
     Analyze.topicScoresArray := topics |}.

(** The completion object whose first choice carries [content]. *)
Definition completion_of (content : jsstring) : list (jsstring * value) :=
  [(js "choices",
    VArr [VObj [(js "message", VObj [(js "content", VStr content)])]])].

(** A collaborator that answers every model with [content] after a
    second and a half. *)
Definition replies (content : jsstring)
  : list Analyze.TopicLine -> jsstring -> Analyze.Promise :=
  fun _ _ => Analyze.Resolves 1500 (completion_of content).

(** A collaborator that never answers. *)
Definition silent : jsstring -> Analyze.Promise := fun _ => Analyze.Pending.

(** Prose followed by one well-formed report. *)
Definition prose : jsstring := jq "Here is the assessment you asked for: ".

Definition report_text : jsstring :=
  jq "{'Student Name': 'Asha', 'Scores': {'Financial Planning': 120}, 'Overall Readiness Index': 72, 'Readiness Level': 'Good', 'Strengths': 'Budgeting.', 'Gaps': 'Visa paperwork.', 'Recommendations': 'Start early.'}".

(** A reply whose braces do not enclose JSON. *)
Definition sloppy_text : jsstring := js "Result: {score: 75}".

(** A report whose only property is the name of the student. *)
Definition named (studentName : jsstring) : value :=
  VObj [(js "Student Name", VStr studentName)].

(** The reply with its strengths under the lowerCamelCase key only. *)
Definition camel_strengths : list (jsstring * value) :=
  [ (js "Student Name", VStr (js "Asha"));
    (js "Scores", VObj []);
    (js "Overall Readiness Index", VNum (of_Z 72));
    (js "Readiness Level", VStr (js "Good"));
    (js "strengths", VStr (js "Budgeting."));
    (js "Gaps", VStr (js "Visa paperwork."));
    (js "Recommendations", VStr (js "Start early.")) ].

(** The reply without [Gaps]. *)
Definition no_gaps : list (jsstring * value) :=
  [ (js "Student Name", VStr (js "Asha"));
    (js "Scores", VObj []);
    (js "Overall Readiness Index", VNum (of_Z 72));
    (js "Readiness Level", VStr (js "Good"));
    (js "Strengths", VStr (js "Budgeting."));
    (js "Recommendations", VStr (js "Start early.")) ].

(** A report with an index of 0 under the given keys. *)
Definition index_zero (keys : list string) : value :=
  VObj ([ (js "Student Name", VStr (js "Asha"));
          (js "Scores", VObj []);
          (js "Readiness Level", VStr (js "Low"));
          (js "Strengths", VStr (js "Budgeting."));
          (js "Gaps", VStr (js "Visa paperwork."));
          (js "Recommendations", VStr (js "Start early.")) ]
        ++ List.map (fun k => (js k, VNum (of_Z 0))) keys).

(** A report whose strengths are the empty sequence. *)
Definition blank_strengths : value :=
  VObj [ (js "Student Name", VStr (js "Asha"));
         (js "Scores", VObj []);
         (js "Overall Readiness Index", VNum (of_Z 72));
         (js "Readiness Level", VStr (js "Good"));
         (js "Strengths", VArr []);
         (js "Gaps", VStr (js "Visa paperwork."));
         (js "Recommendations", VStr (js "Start early.")) ].

(** [v] without its own property [k]. *)
Definition without (k : string) (v : value) : value :=
  match v with
  | VObj props => VObj (filter (fun p => negb (str_eqb (js k) (fst p))) props)
  | _ => v
  end.

(** ** The readiness level of an index *)

(** An integer index is in a range of the prompt. *)
Definition in_range (r : Analyze.Range) (index : Z) : bool :=
  match r with
  | Analyze.Between lo hi => (lo <=? index) && (index <=? hi)
  | Analyze.Below bound => index <? bound
  end.

(** The levels whose rows of the prompt hold [index]. *)
Definition levels_of (index : Z) : list jsstring :=
  List.map (fun row => js (snd row))
           (filter (fun row => in_range (fst row) index) Analyze.READINESS_LEVELS).

(** A reply with another index and another level. *)
Definition relabelled (index level : value) (llmResult : value) : value :=
  match llmResult with
  | VObj props =>
      VObj (set_prop (js "Readiness Level") level
              (set_prop (js "Overall Readiness Index") index props))
  | _ => llmResult
  end.

(** A reply that calls an index of 40 Excellent, and what [JSON.parse]
    makes of it. *)
Definition mislabelled_text : jsstring :=
  jq "{'Student Name': 'Asha', 'Scores': {'Financial Planning': 40}, 'Overall Readiness Index': 40, 'Readiness Level': 'Excellent', 'Strengths': 'Budgeting.', 'Gaps': 'Visa paperwork.', 'Recommendations': 'Start early.'}".

Definition mislabelled_report : value :=
  VObj [ (js "Student Name", VStr (js "Asha"));
         (js "Scores", VObj [(js "Financial Planning", VNum (of_Z 40))]);
         (js "Overall Readiness Index", VNum (of_Z 40));
         (js "Readiness Level", VStr (js "Excellent"));
         (js "Strengths", VStr (js "Budgeting."));
         (js "Gaps", VStr (js "Visa paperwork."));
         (js "Recommendations", VStr (js "Start early.")) ].

(** ** Names for the errors and code units of the statements *)

Definition open_brace : char := 123%N.
Definition close_brace : char := 125%N.

Definition no_json : error := Error (js "No JSON found in LLM response").

Definition index_required : error :=
  Pdf.required "Overall Readiness Index is required".

Definition level_required : error :=
  Pdf.required "Readiness Level is required".

Definition primary : jsstring := js "sonar-pro".
Definition alternate : jsstring := js "sonar".

(** The models the loop has tried when it ends, in the order of its
    attempts. *)
Definition attempts (create : jsstring -> Analyze.Promise) : list jsstring :=
  Analyze.tried (Analyze.try_models create Analyze.models Analyze.initial).

(** The request of an attempt resolves with [completion] before the
    timer of the attempt fires. *)
Definition answers_with (modelPromise : Analyze.Promise)
           (completion : list (jsstring * value)) : Prop :=
  exists after_ms,
    modelPromise = Analyze.Resolves after_ms completion
    /\ (after_ms < Analyze.timeout_ms)%N.

(** The request has not settled when the timer fires. *)
Definition unsettled (modelPromise : Analyze.Promise) : Prop :=
  match modelPromise with
  | Analyze.Resolves after_ms _ | Analyze.Rejects after_ms _ =>
      (Analyze.timeout_ms <= after_ms)%N
  | Analyze.Pending => True
  end.

(** The attempt fails with [message]: the request is rejected with it
    before the timer fires (a transport error), or the timer fires
    first, and the message is that of the timer. *)
Definition fails_with (modelPromise : Analyze.Promise) (message : jsstring)
  : Prop :=
  (exists after_ms,
     modelPromise = Analyze.Rejects after_ms message
     /\ (after_ms < Analyze.timeout_ms)%N)
  \/ (message = js "Model timeout" /\ unsettled modelPromise).

(** ** The seven tests of the validator, as a table *)

(** The required fields of [Analyze.validate], in the order of its
    tests, each with what its test finds. *)
Definition supplied (llmResult : value) : list (string * bool) :=
  [ ("Student Name"%string,
      truthy (get llmResult "Student Name") || truthy (get llmResult "studentName"));
    ("Scores"%string,
      truthy (get llmResult "Scores") || truthy (get llmResult "scores"));
    ("Overall Readiness Index"%string,
      truthy (get llmResult "Overall Readiness Index"));
    ("Readiness Level"%string, truthy (get llmResult "Readiness Level"));
    ("Strengths"%string, truthy (get llmResult "Strengths"));
    ("Gaps"%string, truthy (get llmResult "Gaps"));
    ("Recommendations"%string, truthy (get llmResult "Recommendations")) ].

Definition first_missing (fields : list (string * bool)) : option string :=
  option_map fst (find (fun f => negb (snd f)) fields).

Definition required_fields : list string :=
  [ "Student Name"; "Scores"; "Overall Readiness Index"; "Readiness Level";
    "Strengths"; "Gaps"; "Recommendations" ]%string.

(** The errors the handler of analyze-results can answer with status
    500. *)
Definition analysis_error (e : error) : Prop :=
  e = Error (js "PERPLEXITY_API_KEY not configured")
  \/ (exists m, e = Error (Analyze.all_failed_message (Some m)))
  \/ e = TypeError
  \/ e = Error (js "Empty response from LLM")
  \/ e = no_json
  \/ e = SyntaxError
  \/ (exists field, In field required_fields /\ e = Analyze.missing field).

(** ** Names as words and runs of white space *)

(** A name read as words separated by runs of white space: the first
    word, then each run with the word after it. *)
Definition spaced (first : jsstring) (rest : list (jsstring * jsstring)) : jsstring :=
  first ++ List.concat (List.map (fun rw => fst rw ++ snd rw) rest).

(** The same words with one hyphen for each run. *)
Definition hyphenated (first : jsstring) (rest : list (jsstring * jsstring)) : jsstring :=
  first ++ List.concat (List.map (fun rw => js "-" ++ snd rw) rest).

Definition no_space (w : jsstring) : Prop :=
  Forall (fun c => is_space c = false) w.

Definition all_space (r : jsstring) : Prop :=
  Forall (fun c => is_space c = true) r.

(** The runs are not empty and are white space, the words have none,
    and only the last word may be empty (the name then ends with white
    space). *)
Fixpoint well_spaced (rest : list (jsstring * jsstring)) : Prop :=
  match rest with
  | [] => True
  | (run, word) :: rest' =>
      run <> [] /\ all_space run /\ no_space word
      /\ (word = [] -> rest' = []) /\ well_spaced rest'
  end.

(** ** Integers as doubles *)

(** [m] shifted left by [k] binary places. *)
Fixpoint shl (m : positive) (k : nat) : positive :=
  match k with
  | O => m
  | S k' => xO (shl m k')
  end.

(** The double of sign [s] and magnitude [p], for [p] below 2^53: the
    mantissa is [p] shifted to 53 bits. *)
Definition canon (s : bool) (p : positive) : number :=
  S754_finite s (shl p (Z.to_nat (53 - Z.pos (Pos.size p))))
              (Z.pos (Pos.size p) - 53).

(** The integer a double is, when it is one in canonical form. *)
Definition integer_of (x : number) : option Z :=
  match x with
  | S754_zero false => Some 0
  | S754_finite s m e =>
      if (Z.pos (Pos.size m) =? 53) && (e <=? 0) && (Z.pos m mod 2 ^ (- e) =? 0)
      then Some (let n := Z.pos m / 2 ^ (- e) in if s then - n else n)
      else None
  | _ => None
  end.

(** ** The place of a quotient between two mantissas *)

(** [num / den] lies between [m] and [m + 1], where the location says. *)
Definition located (m : Z) (l : location) (num den : Z) : Prop :=
  match l with
  | loc_Exact => num = m * den
  | loc_Inexact Lt => m * den < num /\ 2 * num < (2 * m + 1) * den
  | loc_Inexact Eq => 2 * num = (2 * m + 1) * den
  | loc_Inexact Gt => (2 * m + 1) * den < 2 * num /\ num < (m + 1) * den
  end.

(** ** Tables checked by computation *)

Fixpoint Zrange (lo : Z) (n : nat) : list Z :=
  match n with
  | O => []
  | S n' => lo :: Zrange (lo + 1) n'
  end.

(** [n] is an integer of [0,100] within one half of 100 * c / t. *)
Definition nearest_percentage (c t n : Z) : bool :=
  (0 <=? n) && (n <=? 100) && (Z.abs (2 * (n * t - 100 * c)) <=? t).

Definition score_ok (c t : Z) : bool :=
  match integer_of (Analyze.score (topic_of c t)) with
  | Some n => nearest_percentage c t n
  | None => false
  end.

Definition scores_ok (t : Z) : bool :=
  forallb (fun c => score_ok c t) (Zrange 0 (Z.to_nat t + 1)).

(** ** The report of the reply above, parsed *)

(** What [JSON.parse] makes of [report_text]. *)
Definition asha_report : value :=
  VObj [ (js "Student Name", VStr (js "Asha"));
         (js "Scores", VObj [(js "Financial Planning", VNum (of_Z 120))]);
         (js "Overall Readiness Index", VNum (of_Z 72));
         (js "Readiness Level", VStr (js "Good"));
         (js "Strengths", VStr (js "Budgeting."));
         (js "Gaps", VStr (js "Visa paperwork."));
         (js "Recommendations", VStr (js "Start early.")) ].

(** ** Ladders, frameworks and weights *)

(** The chain of conditionals of [Analyze.interpretation], on integers. *)
Definition label_of_score (k : Z) : jsstring :=
  if 90 <=? k then js "Excellent"
  else if 80 <=? k then js "Very Good"
  else if 70 <=? k then js "Good"
  else if 60 <=? k then js "Satisfactory"
  else js "Needs Improvement".

(** The chain of conditionals of [Pdf.barClass], on integers. *)
Definition class_of_percentage (k : Z) : jsstring :=
  if 80 <=? k then js "excellent"
  else if 60 <=? k then js "good"
  else if 40 <=? k then js "average"
  else js "weak".

(** The six frameworks of the report, in the order of the score cards. *)
Definition frameworks : list string :=
  [ "Financial Planning"; "Academic Readiness"; "Career Alignment";
    "Personal & Cultural"; "Practical Readiness"; "Support System" ]%string.

Definition zero : value := VNum (of_Z 0).

(** What the template writes for the integer [w] of [0,100) followed by
    a percent sign. *)
Definition percent (w : Z) : jsstring :=
  (if w <? 10 then [Z.to_N (48 + w)]
   else [Z.to_N (48 + w / 10); Z.to_N (48 + w mod 10)]) ++ js "%".

Definition empty_response : error := Error (js "Empty response from LLM").

Definition double_quote : char := 34%N.

(** ** A text as pieces between runs of delimiters *)

(** The first piece, then each run of delimiters with the piece after
    it. *)
Definition pieces_text (first : jsstring) (rest : list (jsstring * jsstring))
  : jsstring :=
  first ++ List.concat (List.map (fun rp => fst rp ++ snd rp) rest).

Definition free_of (delim : char -> bool) (piece : jsstring) : Prop :=
  Forall (fun c => delim c = false) piece.

Definition run_of (delim : char -> bool) (run : jsstring) : Prop :=
  run <> [] /\ Forall (fun c => delim c = true) run.

(** The runs are not empty and are delimiters, the pieces have none, and
    only the last piece may be empty (the text then ends with a
    delimiter). *)
Fixpoint well_cut (delim : char -> bool) (rest : list (jsstring * jsstring))
  : Prop :=
  match rest with
  | [] => True
  | (run, piece) :: rest' =>
      run_of delim run /\ free_of delim piece
      /\ (piece = [] -> rest' = []) /\ well_cut delim rest'
  end.

(** The item [formatToBulletPoints] writes for a point of a string. *)
Definition clean (point : jsstring) : jsstring :=
  Pdf.bullet_item (strip_leading_number (trim point)).

(** ** Cards and items *)

(** The card that shows what an item of the matrix shows. *)
Definition card_of (item : Pdf.MatrixItem) : Pdf.CountryCard :=
  {| Pdf.card_rank := Pdf.matrix_rank item;
     Pdf.card_name := Pdf.matrix_name item;
     Pdf.card_score := Pdf.matrix_score item |}.

(** ** The calls of the handler of generate-pdf *)

Definition launch_calls (VERCEL AWS_LAMBDA_FUNCTION_NAME : option jsstring)
  : list Pdf.Call :=
  if Pdf.isServerless VERCEL AWS_LAMBDA_FUNCTION_NAME
  then [Pdf.ImportChromium; Pdf.ImportPuppeteerCore; Pdf.ExecutablePath;
        Pdf.LaunchCore]
  else [Pdf.ImportPuppeteer; Pdf.Launch].

Definition page_calls : list Pdf.Call :=
  [Pdf.NewPage; Pdf.SetDefaultTimeout; Pdf.SetDefaultNavigationTimeout].

(** The calls up to the point where [generateHTMLContent] is called. *)
Definition calls_before (VERCEL AWS_LAMBDA_FUNCTION_NAME : option jsstring)
  : list Pdf.Call :=
  launch_calls VERCEL AWS_LAMBDA_FUNCTION_NAME ++ page_calls.

(** The calls from there to [page.pdf]. *)
Definition print_calls : list Pdf.Call :=
  [Pdf.SetViewport; Pdf.EmulateMediaType; Pdf.SetContent;
   Pdf.Wait 1000; Pdf.Wait 3000; Pdf.PrintPdf].

Definition failed_to_generate : jsstring := js "Failed to generate PDF".

Definition empty_buffer : jsstring := js "PDF generation failed - empty buffer".

(** What a call throws, a wait never throwing. *)
Definition failure (throws : Pdf.Call -> option error) (c : Pdf.Call)
  : option error :=
  match c with
  | Pdf.Wait _ => None
  | _ => throws c
  end.

Definition returns (throws : Pdf.Call -> option error) (c : Pdf.Call) : Prop :=
  failure throws c = None.

(** The calls of [l] that are made when they are attempted in turn, up
    to the first that throws, and whether one throws. *)
Fixpoint made_of (throws : Pdf.Call -> option error) (l : list Pdf.Call)
  : list Pdf.Call * bool :=
  match l with
  | [] => ([], false)
  | c :: r =>
      match failure throws c with
      | Some _ => ([c], true)
      | None => let '(made, thrown) := made_of throws r in (c :: made, thrown)
      end
  end.

(** A browser none of whose calls throws, a template that builds its
    markup for every report, and a buffer of 2048 bytes. *)
Definition unfailing : Pdf.Call -> option error := fun _ => None.

Definition plain_template : Pdf.ReportData -> outcome Pdf.ReportData :=
  fun data => Returned data.

Definition two_kilobytes : Pdf.ReportData -> N := fun _ => 2048%N.

(** ** The tests of [generateHTMLContent], as a table *)

(** The seven tests of [Pdf.generateHTMLContent], in their order, each
    with the message of its error and what it finds. *)
Definition report_tests (results : value) : list (string * bool) :=
  [ ("Student Name is required"%string,
      truthy (or_else (get results "Student Name") (get results "studentName")));
    ("Scores data is required"%string,
      truthy (or_else (get results "scores") (get results "Scores")));
    ("Overall Readiness Index is required"%string,
      negb (Pdf.is_undefined (or_else (get results "Overall Readiness Index")
                                     (get results "overallIndex"))));
    ("Readiness Level is required"%string,
      truthy (or_else (get results "Readiness Level")
                      (get results "readinessLevel")));
    ("Strengths analysis is required"%string, truthy (get results "Strengths"));
    ("Gaps analysis is required"%string, truthy (get results "Gaps"));
    ("Recommendations are required"%string,
      truthy (get results "Recommendations")) ].

(** ** The name of the student in a header *)

(** The student name of a request, when it is a string, has code units
    below 256. *)
Definition latin_named (body : option value) : Prop :=
  forall results studentName,
    body = Some results ->
    or_else (get results "Student Name") (get results "studentName")
    = VStr studentName ->
    Forall (fun c => (c < 256)%N) studentName.

Definition no_nul (c : char) : bool := negb (N.eqb c 0).

(** The code units a header value may hold, among those up to 255. *)
Definition header_unit_ok (c : char) : bool :=
  negb (N.eqb c 0 || N.eqb c 10 || N.eqb c 13).

(** ** Strings among the values *)

Definition is_string (v : value) : bool :=
  match v with
  | VStr _ => true
  | _ => false
  end.

(** ** The stages of a number literal *)

(** [parse_number] in four steps: the sign, the integer part, the
    fraction and the exponent, each with what it leaves. *)
Definition number_sign (s : jsstring) : bool * jsstring :=
  match s with
  | c :: r => if N.eqb c 45 then (true, r) else (false, s)
  | [] => (false, s)
  end.

Definition number_integer (s : jsstring) : option (jsstring * jsstring) :=
  match s with
  | [] => None
  | c :: r =>
      if negb (is_digit c) then None
      else Some (if N.eqb c 48 then [c] else takeWhile is_digit s,
                 if N.eqb c 48 then r else dropWhile is_digit s)
  end.

Definition number_fraction (s1 : jsstring) : option (jsstring * jsstring) :=
  match s1 with
  | d :: r1 =>
      if N.eqb d 46 then
        match takeWhile is_digit r1 with
        | [] => None
        | fs => Some (fs, dropWhile is_digit r1)
        end
      else Some ([], s1)
  | [] => Some ([], s1)
  end.

Definition number_exponent (s2 : jsstring) : option (Z * jsstring) :=
  match s2 with
  | e :: r2 =>
      if N.eqb e 101 || N.eqb e 69 then
        let '(eneg, r3) :=
          match r2 with
          | g :: r3 =>
              if N.eqb g 45 then (true, r3)
              else if N.eqb g 43 then (false, r3)
              else (false, r2)
          | [] => (false, r2)
          end in
        match takeWhile is_digit r3 with
        | [] => None
        | es =>
            let v := digits_value es in
            Some (if eneg then - v else v, dropWhile is_digit r3)
        end
      else Some (0, s2)
  | [] => Some (0, s2)
  end.

(** A value whose end in the text does not depend on what follows the
    text: every value but a number that the text ends with. *)
Definition delimited (v : value) (r : jsstring) : Prop :=
  match v with
  | VNum _ => r <> []
  | _ => True
  end.

(* ================================================================== *)
(** * Lemmas on strings, lists and numbers *)
(* ================================================================== *)

Ltac case_ifs :=
  repeat match goal with
         | |- context [if ?b then _ else _] => destruct b
         end.

(** Membership in an explicit list that cannot hold. *)
Ltac not_in H :=
  repeat (destruct H as [H|H]; [discriminate H|]); exact H.

(** The value of [str_eqb] on two literals. *)
Ltac eval_keys :=
  repeat match goal with
         | |- context [str_eqb (js ?a) (js ?b)] =>
             let r := eval vm_compute in (str_eqb (js a) (js b)) in
             change (str_eqb (js a) (js b)) with r
         end;
  cbv iota.

(** [str_eqb] decides the equality of strings. *)
Lemma str_eqb_eq (a b : jsstring) : str_eqb a b = true <-> a = b.
Proof.
  revert b; induction a as [|x a IH]; intros [|y b]; simpl; split; try congruence.
  - intros H. apply andb_true_iff in H as [H1 H2].
    apply N.eqb_eq in H1. apply IH in H2. congruence.
  - intros H. injection H as -> ->. rewrite N.eqb_refl. simpl. now apply IH.
Qed.

Lemma str_eqb_refl (a : jsstring) : str_eqb a a = true.
Proof. now apply str_eqb_eq. Qed.

(** [Zrange lo n] holds the [n] integers from [lo] on. *)
Lemma Zrange_In (n : nat) :
  forall lo k, lo <= k < lo + Z.of_nat n -> In k (Zrange lo n).
Proof.
  induction n as [|n IH]; intros lo k H.
  - lia.
  - simpl. destruct (Z.eq_dec lo k) as [->|Hne]; [now left|right].
    apply IH. lia.
Qed.

Lemma forallb_Zrange (P : Z -> bool) (lo : Z) (n : nat) :
  forallb P (Zrange lo n) = true ->
  forall k, lo <= k < lo + Z.of_nat n -> P k = true.
Proof.
  intros H k Hk. rewrite forallb_forall in H. apply H. now apply Zrange_In.
Qed.

(** [dropWhile] drops a prefix whose elements all satisfy the test. *)
Lemma dropWhile_app_all {A : Type} (p : A -> bool) (a b : list A) :
  Forall (fun x => p x = true) a -> dropWhile p (a ++ b) = dropWhile p b.
Proof.
  induction 1 as [|x a Hx _ IH]; simpl; [reflexivity|]. now rewrite Hx.
Qed.

(** What [dropWhile] drops satisfies the test. *)
Lemma dropWhile_split {A : Type} (p : A -> bool) (l : list A) :
  exists a, l = a ++ dropWhile p l /\ Forall (fun x => p x = true) a.
Proof.
  induction l as [|x l (a & Ha & Hall)]; simpl.
  - exists []. split; [reflexivity|constructor].
  - destruct (p x) eqn:Hx.
    + exists (x :: a). split; [simpl; congruence|now constructor].
    + exists []. split; [reflexivity|constructor].
Qed.

(** What [dropWhile] stops at does not. *)
Lemma dropWhile_head {A : Type} (p : A -> bool) (l : list A) (x : A) (r : list A) :
  dropWhile p l = x :: r -> p x = false.
Proof.
  induction l as [|y l IH]; simpl; [discriminate|].
  destruct (p y) eqn:Hy; [exact IH|]. intros H. congruence.
Qed.

Lemma Forall_rev_of {A : Type} (P : A -> Prop) (l : list A) :
  Forall P l -> Forall P (rev l).
Proof.
  intros H. apply Forall_forall. intros x Hx. apply in_rev in Hx.
  rewrite Forall_forall in H. auto.
Qed.

(** The first and the last occurrence of a code unit. *)
Lemma in_split_first (c : char) (l : list char) :
  In c l -> exists a b, l = a ++ c :: b /\ ~ In c a.
Proof.
  induction l as [|x l IH]; [intros []|].
  intros Hin. destruct (N.eq_dec x c) as [->|Hne].
  - exists [], l. split; [reflexivity|intros []].
  - destruct Hin as [->|Hin]; [congruence|].
    destruct (IH Hin) as (a & b & -> & Ha).
    exists (x :: a), b. split; [reflexivity|]. intros [H|H]; [congruence|auto].
Qed.

Lemma in_split_last (c : char) (l : list char) :
  In c l -> exists a b, l = a ++ c :: b /\ ~ In c b.
Proof.
  intros Hin. apply in_rev in Hin.
  destruct (in_split_first c (rev l) Hin) as (a & b & Hl & Ha).
  exists (rev b), (rev a). split.
  - rewrite <- (rev_involutive l), Hl, rev_app_distr. simpl.
    now rewrite <- app_assoc.
  - intros H. apply in_rev in H. auto.
Qed.

(** [a || b] is [b] when [a] is falsy. *)
Lemma or_else_falsy (a b : value) : truthy a = false -> or_else a b = b.
Proof. unfold or_else. now intros ->. Qed.

(* ================================================================== *)
(** * Integers in binary64: exact arithmetic below 2^53 *)
(* ================================================================== *)

Lemma digits2_size (p : positive) : digits2_pos p = Pos.size p.
Proof. induction p; simpl; congruence. Qed.

(** Shifting is multiplying by a power of two, and adds to the number
    of binary digits. *)
Lemma shl_Z (m : positive) (k : nat) : Z.pos (shl m k) = Z.pos m * 2 ^ Z.of_nat k.
Proof.
  induction k as [|k IH]; [simpl; lia|].
  cbn [shl]. rewrite Pos2Z.inj_xO, IH, Nat2Z.inj_succ, Z.pow_succ_r by lia.
  lia.
Qed.

Lemma size_shl (m : positive) (k : nat) :
  Z.pos (Pos.size (shl m k)) = Z.pos (Pos.size m) + Z.of_nat k.
Proof.
  induction k as [|k IH]; [simpl; lia|].
  cbn [shl Pos.size]. rewrite Pos2Z.inj_succ, IH. lia.
Qed.

(** [Pos.size p] is the number of binary digits of [p]. *)
Lemma size_bounds (p : positive) :
  2 ^ (Z.pos (Pos.size p) - 1) <= Z.pos p < 2 ^ Z.pos (Pos.size p).
Proof.
  split.
  - pose proof (Pos.size_le p) as H.
    assert (H2 : 2 ^ Z.pos (Pos.size p) <= 2 * Z.pos p).
    { apply Pos2Z.pos_le_pos in H. rewrite Pos2Z.inj_pow in H. exact H. }
    replace (Z.pos (Pos.size p)) with (Z.succ (Z.pos (Pos.size p) - 1)) in H2 by lia.
    rewrite Z.pow_succ_r in H2 by lia. lia.
  - pose proof (Pos.size_gt p) as H. apply Pos2Z.pos_lt_pos in H.
    now rewrite Pos2Z.inj_pow in H.
Qed.

Lemma size_unique (p : positive) (d : Z) :
  2 ^ (d - 1) <= Z.pos p < 2 ^ d -> Z.pos (Pos.size p) = d.
Proof.
  intros [Hlo Hhi]. pose proof (size_bounds p) as [Slo Shi].
  assert (0 < d).
  { destruct (Z.ltb_spec 0 d); [assumption|].
    assert (2 ^ d <= 1).
    { destruct (Z.eq_dec d 0) as [->|]; [simpl; lia|].
      rewrite Z.pow_neg_r by lia. lia. }
    lia. }
  destruct (Z.lt_trichotomy (Z.pos (Pos.size p)) d) as [Hlt|[Heq|Hgt]]; [|assumption|].
  - assert (2 ^ Z.pos (Pos.size p) <= 2 ^ (d - 1)) by (apply Z.pow_le_mono_r; lia). lia.
  - assert (2 ^ d <= 2 ^ (Z.pos (Pos.size p) - 1)) by (apply Z.pow_le_mono_r; lia). lia.
Qed.

(** The iteration of the standard library's rounding, by unary
    numbers. *)
Lemma iter_pos_nat {A : Type} (f : A -> A) (p : positive) (x : A) :
  iter_pos f p x = Nat.iter (Pos.to_nat p) f x.
Proof.
  revert x. induction p as [p IH|p IH|]; intros x; cbn [iter_pos].
  - rewrite !IH, Pos2Nat.inj_xI.
    replace (S (2 * Pos.to_nat p))%nat with (Pos.to_nat p + S (Pos.to_nat p))%nat by lia.
    rewrite Nat.iter_add, Nat.iter_succ_r. reflexivity.
  - rewrite !IH, Pos2Nat.inj_xO.
    replace (2 * Pos.to_nat p)%nat with (Pos.to_nat p + Pos.to_nat p)%nat by lia.
    now rewrite Nat.iter_add.
  - reflexivity.
Qed.

(** Shifting right what was shifted left loses nothing: the round and
    sticky bits stay clear. *)
Lemma shr_exact (k : nat) (m : positive) :
  Nat.iter k shr_1 {| shr_m := Z.pos (shl m k); shr_r := false; shr_s := false |}
  = {| shr_m := Z.pos m; shr_r := false; shr_s := false |}.
Proof.
  induction k as [|k IH]; [reflexivity|].
  rewrite Nat.iter_succ_r. cbn [shl shr_1 orb]. exact IH.
Qed.

Lemma shl_add (m : positive) (j k : nat) : shl m (j + k) = shl (shl m j) k.
Proof.
  induction k as [|k IH].
  - now rewrite Nat.add_0_r.
  - rewrite Nat.add_succ_r. cbn [shl]. now rewrite IH.
Qed.

Lemma iter_xO_shl (m q : positive) : Pos.iter xO m q = shl m (Pos.to_nat q).
Proof.
  induction q as [|q IH] using Pos.peano_ind.
  - reflexivity.
  - rewrite Pos.iter_succ, Pos2Nat.inj_succ, IH. reflexivity.
Qed.

Lemma shl_mul (a b : positive) (j k : nat) :
  (shl a j * shl b k)%positive = shl (a * b) (j + k).
Proof.
  apply Pos2Z.inj. rewrite Pos2Z.inj_mul, !shl_Z, Pos2Z.inj_mul, Nat2Z.inj_add.
  rewrite Z.pow_add_r by lia. ring.
Qed.

Lemma shl_inj_Z (p q : positive) (k : nat) :
  Z.pos q = Z.pos p * 2 ^ Z.of_nat k -> q = shl p k.
Proof. intros H. apply Pos2Z.inj. now rewrite shl_Z. Qed.

(** The exponent of a normal number. *)
Lemma fexp_normal (e : Z) : -1021 <= e -> fexp prec emax e = e - 53.
Proof. intros H. unfold fexp, SpecFloat.emin, prec, emax. lia. Qed.

(** Rounding [p * 2^k], for [p] of at most 53 digits, shifts [p] to 53
    digits exactly. *)
Lemma shr_fexp_exact (p : positive) (k : nat) (e : Z) :
  Z.pos (Pos.size p) <= 53 ->
  53 - Z.pos (Pos.size p) <= Z.of_nat k ->
  -1021 <= Z.pos (Pos.size p) + Z.of_nat k + e ->
  shr_fexp prec emax (Z.pos (shl p k)) e loc_Exact
  = ({| shr_m := Z.pos (shl p (Z.to_nat (53 - Z.pos (Pos.size p))));
        shr_r := false; shr_s := false |},
     e + (Z.pos (Pos.size p) + Z.of_nat k - 53)).
Proof.
  intros Hd Hk He. unfold shr_fexp. cbn [Zdigits2 shr_record_of_loc].
  rewrite digits2_size, size_shl, fexp_normal by lia.
  set (d := Z.pos (Pos.size p)) in *.
  replace (d + Z.of_nat k + e - 53 - e) with (d + Z.of_nat k - 53) by lia.
  unfold shr.
  destruct (d + Z.of_nat k - 53) as [|q|q] eqn:Hn; [| |lia].
  - replace (Z.to_nat (53 - d)) with k by lia. f_equal. lia.
  - rewrite iter_pos_nat.
    replace k with (Z.to_nat (53 - d) + Pos.to_nat q)%nat at 1 by lia.
    rewrite shl_add, shr_exact. reflexivity.
Qed.

Lemma binary_round_aux_exact (s : bool) (p : positive) (k : nat) (e : Z) :
  Z.pos (Pos.size p) <= 53 ->
  53 - Z.pos (Pos.size p) <= Z.of_nat k ->
  e + Z.of_nat k = 0 ->
  binary_round_aux prec emax s (Z.pos (shl p k)) e loc_Exact = canon s p.
Proof.
  intros Hd Hk He. unfold binary_round_aux.
  rewrite shr_fexp_exact by lia. cbn [shr_m loc_of_shr_record round_nearest_even].
  set (d := Z.pos (Pos.size p)) in *.
  assert (Hpos : 0 < d) by (unfold d; lia).
  set (j := Z.to_nat (53 - d)).
  assert (Hsz : Z.pos (Pos.size (shl p j)) = 53) by (rewrite size_shl; fold d; lia).
  replace (shl p j) with (shl (shl p j) 0) at 1 by reflexivity.
  rewrite shr_fexp_exact by (rewrite ?Hsz; cbn [Z.of_nat]; lia).
  rewrite Hsz. cbn [shr_m Z.to_nat Z.sub Z.pos_sub Z.opp shl Z.of_nat].
  replace (e + (d + Z.of_nat k - 53) + (53 + 0 - 53)) with (d - 53) by lia.
  unfold canon. fold d. fold j.
  destruct (Z.leb_spec (d - 53) (emax - prec)) as [_|H]; [reflexivity|].
  unfold emax, prec in H. lia.
Qed.

Lemma binary_round_exact (s : bool) (p : positive) (k : nat) :
  Z.pos (Pos.size p) <= 53 ->
  binary_round prec emax s (shl p k) (- Z.of_nat k) = canon s p.
Proof.
  intros Hd. unfold binary_round, shl_align.
  rewrite digits2_size, size_shl, fexp_normal by lia.
  set (d := Z.pos (Pos.size p)) in *.
  destruct (d + Z.of_nat k + - Z.of_nat k - 53 - - Z.of_nat k) as [|q|q] eqn:Hn.
  - apply binary_round_aux_exact; fold d; lia.
  - apply binary_round_aux_exact; fold d; lia.
  - rewrite iter_xO_shl, <- shl_add.
    apply binary_round_aux_exact; fold d; lia.
Qed.

(** The double of an integer below 2^53 in magnitude. *)
Lemma of_Z_pos (p : positive) :
  Z.pos (Pos.size p) <= 53 -> of_Z (Z.pos p) = canon false p.
Proof.
  intros Hd. unfold of_Z, binary_normalize.
  exact (binary_round_exact false p 0 Hd).
Qed.

Lemma of_Z_neg (p : positive) :
  Z.pos (Pos.size p) <= 53 -> of_Z (Z.neg p) = canon true p.
Proof.
  intros Hd. unfold of_Z, binary_normalize.
  exact (binary_round_exact true p 0 Hd).
Qed.

(** Below 2^53 there are at most 53 digits. *)
Lemma size_le_53 (p : positive) : Z.pos p < 2 ^ 53 -> Z.pos (Pos.size p) <= 53.
Proof.
  intros H. pose proof (size_bounds p) as [Hlo _].
  destruct (Z.le_gt_cases (Z.pos (Pos.size p)) 53) as [|Hgt]; [assumption|].
  assert (2 ^ 53 <= 2 ^ (Z.pos (Pos.size p) - 1)) by (apply Z.pow_le_mono_r; lia).
  lia.
Qed.

Lemma size_mono (p q : positive) :
  (p <= q)%positive -> Z.pos (Pos.size p) <= Z.pos (Pos.size q).
Proof.
  intros H. pose proof (size_bounds p) as [Hlo _].
  pose proof (size_bounds q) as [_ Hhi].
  destruct (Z.le_gt_cases (Z.pos (Pos.size p)) (Z.pos (Pos.size q))) as [|Hgt];
    [assumption|].
  assert (2 ^ Z.pos (Pos.size q) <= 2 ^ (Z.pos (Pos.size p) - 1))
    by (apply Z.pow_le_mono_r; lia).
  lia.
Qed.

(** The product of two integers, when it has at most 53 digits. *)
Lemma mul_canon (s1 s2 : bool) (a b : positive) :
  Z.pos (Pos.size (a * b)) <= 53 ->
  mul (canon s1 a) (canon s2 b) = canon (xorb s1 s2) (a * b).
Proof.
  intros Hab.
  assert (Ha : Z.pos (Pos.size a) <= Z.pos (Pos.size (a * b))) by (apply size_mono; nia).
  assert (Hb : Z.pos (Pos.size b) <= Z.pos (Pos.size (a * b))) by (apply size_mono; nia).
  unfold mul, canon at 1 2. cbn [SFmul]. rewrite shl_mul.
  apply binary_round_aux_exact; lia.
Qed.

(** Products of natural numbers below 2^53 are exact. *)
Lemma mul_of_Z (a b : Z) :
  0 <= a < 2 ^ 53 -> 0 <= b < 2 ^ 53 -> a * b < 2 ^ 53 ->
  mul (of_Z a) (of_Z b) = of_Z (a * b).
Proof.
  intros Ha Hb Hab.
  destruct a as [|a|a]; [|..|lia]; destruct b as [|b|b]; try lia; try reflexivity.
  - rewrite of_Z_pos by (apply size_le_53; lia). reflexivity.
  - rewrite of_Z_pos by (apply size_le_53; lia). reflexivity.
  - rewrite !of_Z_pos by (apply size_le_53; lia).
    change (Z.pos a * Z.pos b) with (Z.pos (a * b)) in *.
    rewrite of_Z_pos by (apply size_le_53; lia).
    apply mul_canon. apply size_le_53. lia.
Qed.

(** Aligning a mantissa to a smaller exponent. *)
Lemma shl_align_Z (m : positive) (e ez : Z) :
  ez <= e ->
  Z.pos (fst (shl_align m e ez)) = Z.pos m * 2 ^ (e - ez).
Proof.
  intros H. unfold shl_align.
  destruct (ez - e) as [|q|q] eqn:Hq; cbn [fst].
  - replace (e - ez) with 0 by lia. simpl. lia.
  - lia.
  - rewrite iter_xO_shl, shl_Z. f_equal. f_equal. lia.
Qed.

Lemma canon_Z (s : bool) (p : positive) :
  Z.pos (Pos.size p) <= 53 ->
  exists m e, canon s p = S754_finite s m e
              /\ e = Z.pos (Pos.size p) - 53
              /\ Z.pos m = Z.pos p * 2 ^ (- e).
Proof.
  intros Hd. eexists _, _. split; [reflexivity|]. split; [reflexivity|].
  rewrite shl_Z. f_equal. f_equal. lia.
Qed.

(** The difference of two positive integers. *)
Lemma sub_canon (a b : positive) :
  Z.pos (Pos.size a) <= 53 -> Z.pos (Pos.size b) <= 53 ->
  sub (canon false a) (canon false b) = of_Z (Z.pos a - Z.pos b).
Proof.
  intros Ha Hb.
  destruct (canon_Z false a Ha) as (ma & ea & -> & Hea & Hma).
  destruct (canon_Z false b Hb) as (mb & eb & -> & Heb & Hmb).
  unfold sub. cbn [SFsub cond_Zopp].
  set (ez := Z.min ea eb).
  assert (Hez : ez <= 0) by lia.
  rewrite !shl_align_Z by lia. rewrite Hma, Hmb.
  set (K := Z.to_nat (- ez)).
  assert (HD : Z.pos a * 2 ^ (- ea) * 2 ^ (ea - ez) - Z.pos b * 2 ^ (- eb) * 2 ^ (eb - ez)
               = (Z.pos a - Z.pos b) * 2 ^ Z.of_nat K).
  { rewrite <- !Z.mul_assoc, <- !Z.pow_add_r by lia.
    replace (- ea + (ea - ez)) with (Z.of_nat K) by lia.
    replace (- eb + (eb - ez)) with (Z.of_nat K) by lia. ring. }
  rewrite HD. clear HD.
  assert (Hpow : 0 < 2 ^ Z.of_nat K) by (apply Z.pow_pos_nonneg; lia).
  replace ez with (- Z.of_nat K) by lia.
  destruct (Z.pos a - Z.pos b) as [|p|p] eqn:Hp.
  - reflexivity.
  - assert (Hsp : Z.pos (Pos.size p) <= 53).
    { pose proof (size_mono p a). lia. }
    rewrite of_Z_pos by assumption.
    destruct (Z.pos p * 2 ^ Z.of_nat K) as [|q|q] eqn:Hq; try lia.
    cbn [binary_normalize]. rewrite (shl_inj_Z p q K (eq_sym Hq)).
    now apply binary_round_exact.
  - assert (Hsp : Z.pos (Pos.size p) <= 53).
    { pose proof (size_mono p b). lia. }
    rewrite of_Z_neg by assumption.
    destruct (Z.neg p * 2 ^ Z.of_nat K) as [|q|q] eqn:Hq; try lia.
    cbn [binary_normalize].
    assert (Hq' : Z.pos q = Z.pos p * 2 ^ Z.of_nat K) by lia.
    rewrite (shl_inj_Z p q K Hq').
    now apply binary_round_exact.
Qed.

(** Differences of natural numbers below 2^53 are exact. *)
Lemma sub_of_Z (a b : Z) :
  0 <= a < 2 ^ 53 -> 0 <= b < 2 ^ 53 -> sub (of_Z a) (of_Z b) = of_Z (a - b).
Proof.
  intros Ha Hb.
  destruct a as [|a|a]; [|..|lia]; destruct b as [|b|b]; try lia.
  - reflexivity.
  - rewrite of_Z_pos by (apply size_le_53; lia).
    change (0 - Z.pos b) with (Z.neg b).
    rewrite of_Z_neg by (apply size_le_53; lia). reflexivity.
  - rewrite Z.sub_0_r. rewrite of_Z_pos by (apply size_le_53; lia). reflexivity.
  - rewrite !of_Z_pos by (apply size_le_53; lia).
    apply sub_canon; apply size_le_53; lia.
Qed.

(** [Math.round] leaves an integer as it is. *)
Lemma Math_round_canon (s : bool) (p : positive) :
  Z.pos (Pos.size p) <= 53 -> Math_round (canon s p) = canon s p.
Proof.
  intros Hd. unfold canon. cbn [Math_round].
  set (d := Z.pos (Pos.size p)) in *.
  assert (Hpos : 0 < d) by (unfold d; lia).
  destruct (Z.leb_spec 0 (d - 53)) as [|He]; [reflexivity|].
  set (j := Z.to_nat (53 - d)).
  assert (Hj : - (d - 53) = Z.of_nat j) by lia.
  rewrite Hj.
  assert (Hpow : 0 < 2 ^ Z.of_nat j) by (apply Z.pow_pos_nonneg; lia).
  assert (Hn : Z.shiftr (2 * (if s then Z.neg (shl p j) else Z.pos (shl p j))
                         + 2 ^ Z.of_nat j) (Z.of_nat j + 1)
               = if s then Z.neg p else Z.pos p).
  { rewrite Z.shiftr_div_pow2 by lia.
    rewrite Z.pow_add_r by lia. change (2 ^ 1) with 2.
    rewrite (Z.mul_comm (2 ^ Z.of_nat j) 2).
    destruct s.
    - change (Z.neg (shl p j)) with (- Z.pos (shl p j)). rewrite shl_Z.
      replace (2 * - (Z.pos p * 2 ^ Z.of_nat j) + 2 ^ Z.of_nat j)
        with ((2 * Z.neg p + 1) * 2 ^ Z.of_nat j) by lia.
      rewrite Z.div_mul_cancel_r by lia.
      symmetry. apply (Z.div_unique _ 2 _ 1); lia.
    - rewrite shl_Z.
      replace (2 * (Z.pos p * 2 ^ Z.of_nat j) + 2 ^ Z.of_nat j)
        with ((2 * Z.pos p + 1) * 2 ^ Z.of_nat j) by lia.
      rewrite Z.div_mul_cancel_r by lia.
      symmetry. apply (Z.div_unique _ 2 _ 1); lia. }
  rewrite Hn. destruct s; cbn [Z.eqb].
  - rewrite of_Z_neg by assumption. reflexivity.
  - rewrite of_Z_pos by assumption. reflexivity.
Qed.

(** On integers [Math.round] is the identity. *)
Lemma Math_round_of_Z (z : Z) : Z.abs z < 2 ^ 53 -> Math_round (of_Z z) = of_Z z.
Proof.
  intros H. destruct z as [|p|p]; [reflexivity|..].
  - rewrite of_Z_pos by (apply size_le_53; lia). apply Math_round_canon.
    apply size_le_53. lia.
  - rewrite of_Z_neg by (apply size_le_53; lia). apply Math_round_canon.
    apply size_le_53. lia.
Qed.

(** Doubles in canonical form compare as their integers do. *)
Lemma compare_shl (a b : positive) (j : nat) :
  (shl a j ?= shl b j)%positive = (a ?= b)%positive.
Proof. induction j as [|j IH]; [reflexivity|exact IH]. Qed.

Lemma compare_canon (a b : positive) :
  Z.pos (Pos.size a) <= 53 -> Z.pos (Pos.size b) <= 53 ->
  match Z.pos (Pos.size a) - 53 ?= Z.pos (Pos.size b) - 53 with
  | Lt => Lt
  | Gt => Gt
  | Eq => Pos.compare_cont Eq (shl a (Z.to_nat (53 - Z.pos (Pos.size a))))
                              (shl b (Z.to_nat (53 - Z.pos (Pos.size b))))
  end = (a ?= b)%positive.
Proof.
  intros Ha Hb.
  pose proof (size_bounds a) as [Alo Ahi]. pose proof (size_bounds b) as [Blo Bhi].
  set (da := Z.pos (Pos.size a)) in *. set (db := Z.pos (Pos.size b)) in *.
  destruct (Z.compare_spec (da - 53) (db - 53)) as [Heq|Hlt|Hgt].
  - assert (da = db) by lia.
    change (Pos.compare_cont Eq ?x ?y) with (x ?= y)%positive.
    replace (53 - db) with (53 - da) by lia. apply compare_shl.
  - symmetry. apply Pos.compare_lt_iff. apply Pos2Z.pos_lt_pos.
    assert (2 ^ da <= 2 ^ (db - 1)) by (apply Z.pow_le_mono_r; lia). lia.
  - symmetry. apply Pos.compare_gt_iff. apply Pos2Z.pos_lt_pos.
    assert (2 ^ db <= 2 ^ (da - 1)) by (apply Z.pow_le_mono_r; lia). lia.
Qed.

(** Comparison of integers below 2^53 in magnitude. *)
Lemma compare_of_Z (a b : Z) :
  Z.abs a < 2 ^ 53 -> Z.abs b < 2 ^ 53 ->
  SFcompare (of_Z a) (of_Z b) = Some (a ?= b).
Proof.
  intros Ha Hb.
  destruct a as [|a|a], b as [|b|b];
    rewrite ?of_Z_pos, ?of_Z_neg by (apply size_le_53; lia);
    try reflexivity.
  - unfold canon. cbn [SFcompare]. f_equal.
    rewrite compare_canon by (apply size_le_53; lia). reflexivity.
  - (* both negative *)
    unfold canon. cbn [SFcompare]. f_equal.
    pose proof (compare_canon a b) as H.
    change (Z.neg a ?= Z.neg b) with (CompOpp (a ?= b)%positive).
    rewrite <- H by (apply size_le_53; lia).
    destruct (Z.pos (Pos.size a) - 53 ?= Z.pos (Pos.size b) - 53); reflexivity.
Qed.

(** [>=] and [<] on integers. *)
Lemma geb_of_Z (a b : Z) :
  Z.abs a < 2 ^ 53 -> Z.abs b < 2 ^ 53 -> geb (of_Z a) (of_Z b) = (b <=? a).
Proof.
  intros Ha Hb. unfold geb, SFleb. rewrite compare_of_Z by assumption.
  unfold Z.leb. destruct (b ?= a); reflexivity.
Qed.

Lemma ltb_of_Z (a b : Z) :
  Z.abs a < 2 ^ 53 -> Z.abs b < 2 ^ 53 -> SFltb (of_Z a) (of_Z b) = (a <? b).
Proof.
  intros Ha Hb. unfold SFltb. rewrite compare_of_Z by assumption.
  unfold Z.ltb. destruct (a ?= b); reflexivity.
Qed.

(** A double in canonical form that is an integer is the double of
    that integer. *)
Lemma integer_of_spec (x : number) (n : Z) : integer_of x = Some n -> x = of_Z n.
Proof.
  destruct x as [[|]| | |s m e]; cbn [integer_of]; try discriminate.
  - intros H. injection H as <-. reflexivity.
  - destruct (Z.eqb_spec (Z.pos (Pos.size m)) 53) as [Hs|]; [|discriminate].
    destruct (Z.leb_spec e 0) as [He|]; [|discriminate].
    destruct (Z.eqb_spec (Z.pos m mod 2 ^ (- e)) 0) as [Hm|]; [|discriminate].
    cbn [andb]. intros H. injection H as <-.
    set (K := Z.to_nat (- e)).
    assert (HK : - e = Z.of_nat K) by lia. rewrite HK in *.
    assert (Hpow : 0 < 2 ^ Z.of_nat K) by (apply Z.pow_pos_nonneg; lia).
    assert (Hdiv : Z.pos m = Z.pos m / 2 ^ Z.of_nat K * 2 ^ Z.of_nat K).
    { rewrite (Z.div_mod (Z.pos m) (2 ^ Z.of_nat K)) at 1 by lia. lia. }
    destruct (Z.pos m / 2 ^ Z.of_nat K) as [|p|p] eqn:Hp; try lia.
    pose proof (shl_inj_Z p m K Hdiv) as Hshl.
    assert (Hsz : Z.pos (Pos.size p) = 53 - Z.of_nat K).
    { pose proof (size_shl p K). rewrite <- Hshl in *. lia. }
    assert (Hcanon : canon s p = S754_finite s m e).
    { unfold canon. rewrite Hsz. f_equal; [|lia].
      replace (Z.to_nat (53 - (53 - Z.of_nat K))) with K by lia. now symmetry. }
    destruct s.
    + change (- Z.pos p) with (Z.neg p). rewrite of_Z_neg by lia. now symmetry.
    + rewrite of_Z_pos by lia. now symmetry.
Qed.

(* ================================================================== *)
(** * The fuel of the JSON parser *)
(* ================================================================== *)

Section Fuel.

Local Open Scope nat_scope.

(** Each piece of the parser leaves less than it is given. *)
Lemma dropWhile_length {A : Type} (p : A -> bool) (l : list A) :
  List.length (dropWhile p l) <= List.length l.
Proof.
  induction l as [|x l IH]; simpl; [lia|]. destruct (p x); simpl; lia.
Qed.

Lemma skip_ws_length (s : jsstring) : List.length (skip_ws s) <= List.length s.
Proof. apply dropWhile_length. Qed.

Lemma parse_chars_length (s : jsstring) :
  forall acc str r, parse_chars acc s = Some (str, r) -> List.length r < List.length s.
Proof.
  induction s as [s IH] using (well_founded_induction
                                 (well_founded_ltof _ (@List.length char))).
  unfold ltof in IH. intros acc str r.
  destruct s as [|c s]; [discriminate|]. cbn [parse_chars].
  destruct (N.eqb c 34); [intros H; injection H as _ <-; simpl; lia|].
  destruct (N.eqb c 92).
  - destruct s as [|e r1]; [discriminate|].
    destruct (N.eqb e 117).
    + destruct r1 as [|h1 [|h2 [|h3 [|h4 r2]]]]; try discriminate.
      destruct (hex4 h1 h2 h3 h4); [|discriminate].
      intros H. apply IH in H; simpl in *; lia.
    + destruct (escape_value e); [|discriminate].
      intros H. apply IH in H; simpl in *; lia.
  - destruct (N.ltb c 32); [discriminate|].
    intros H. apply IH in H; simpl in *; lia.
Qed.

Lemma parse_number_length (s : jsstring) (x : number) (r : jsstring) :
  parse_number s = Some (x, r) -> List.length r < List.length s.
Proof.
  unfold parse_number.
  set (ns := match s with
             | c :: r0 => if N.eqb c 45 then (true, r0) else (false, s)
             | [] => (false, s)
             end).
  assert (Hns : List.length (snd ns) <= List.length s).
  { subst ns. destruct s as [|c r0]; simpl; [lia|].
    destruct (N.eqb c 45); simpl; lia. }
  destruct ns as [neg s0]. simpl in Hns.
  destruct s0 as [|c r0]; [discriminate|].
  destruct (is_digit c) eqn:Hc; [|discriminate]. cbn [negb].
  set (s1 := if N.eqb c 48 then r0 else dropWhile is_digit (c :: r0)).
  assert (Hs1 : List.length s1 < List.length (c :: r0)).
  { subst s1. destruct (N.eqb c 48); [simpl; lia|]. simpl. rewrite Hc.
    pose proof (dropWhile_length is_digit r0). lia. }
  revert Hs1. generalize s1. clear s1. intros s1 Hs1.
  set (frac := match s1 with
               | d :: r1 =>
                   if N.eqb d 46
                   then match takeWhile is_digit r1 with
                        | [] => None
                        | c0 :: l => Some (c0 :: l, dropWhile is_digit r1)
                        end
                   else Some ([], s1)
               | [] => Some ([], s1)
               end).
  assert (Hfrac : forall fpart s2, frac = Some (fpart, s2) ->
                                   List.length s2 <= List.length s1).
  { subst frac. intros fpart s2. destruct s1 as [|d r1].
    - intros H. injection H as _ <-. lia.
    - destruct (N.eqb d 46).
      + destruct (takeWhile is_digit r1); [discriminate|].
        intros H. injection H as _ <-.
        pose proof (dropWhile_length is_digit r1). simpl. lia.
      + intros H. injection H as _ <-. lia. }
  destruct frac as [[fpart s2]|]; [|discriminate].
  specialize (Hfrac fpart s2 eq_refl).
  match goal with
  | |- match ?e with _ => _ end = _ -> _ => set (expo := e)
  end.
  assert (Hexpo : forall ex s3, expo = Some (ex, s3) ->
                                List.length s3 <= List.length s2).
  { subst expo. intros ex s3. destruct s2 as [|e r2].
    - intros H. injection H as _ <-. lia.
    - destruct (N.eqb e 101 || N.eqb e 69).
      + set (sg := match r2 with
                   | g :: r3 =>
                       if N.eqb g 45 then (true, r3)
                       else if N.eqb g 43 then (false, r3) else (false, r2)
                   | [] => (false, r2)
                   end).
        assert (Hsg : List.length (snd sg) <= List.length r2).
        { subst sg. destruct r2 as [|g r3]; simpl; [lia|].
          destruct (N.eqb g 45); simpl; [lia|].
          destruct (N.eqb g 43); simpl; lia. }
        destruct sg as [eneg r3]. simpl in Hsg.
        destruct (takeWhile is_digit r3); [discriminate|].
        intros H. injection H as _ <-.
        pose proof (dropWhile_length is_digit r3). simpl. lia.
      + intros H. injection H as _ <-. lia. }
  destruct expo as [[ex s3]|]; [|discriminate].
  specialize (Hexpo ex s3 eq_refl).
  intros H. injection H as _ <-. unfold jsstring, char in *. simpl in *. lia.
Qed.

Lemma starts_with_length (p s r : jsstring) :
  starts_with p s = Some r -> p <> [] -> List.length r < List.length s.
Proof.
  unfold starts_with. destruct (str_eqb p (firstn (List.length p) s)) eqn:He;
    [|discriminate].
  apply str_eqb_eq in He. intros H Hp. injection H as <-.
  assert (Hl : List.length p = List.length (firstn (List.length p) s)) by congruence.
  rewrite length_firstn in Hl. rewrite length_skipn.
  destruct p; [congruence|]. cbn [List.length] in *. lia.
Qed.

(** Fuel: a value that is parsed with some fuel is parsed with any fuel
    of at least twice the number of code units it takes. *)
Lemma parse_fuel (f : nat) :
  (forall s v r,
      parse_value f s = Some (v, r) ->
      List.length r < List.length s
      /\ forall f', 2 * (List.length s - List.length r) <= f' ->
                    parse_value f' s = Some (v, r))
  /\ (forall acc s v r,
      parse_elements f acc s = Some (v, r) ->
      List.length r < List.length s
      /\ forall f', 2 * (List.length s - List.length r) <= f' + 1 ->
                    parse_elements f' acc s = Some (v, r))
  /\ (forall acc s v r,
      parse_members f acc s = Some (v, r) ->
      List.length r < List.length s
      /\ forall f', 2 * (List.length s - List.length r) <= f' + 1 ->
                    parse_members f' acc s = Some (v, r)).
Proof.
  induction f as [|f (IHv & IHe & IHm)]; [repeat split; discriminate|].
  split; [|split].
  - (* parse_value *)
    intros s v r. cbn [parse_value].
    pose proof (skip_ws_length s) as Hws.
    destruct (skip_ws s) as [|c r0] eqn:Hs; [discriminate|].
    cbn [List.length] in Hws.
    destruct (N.eqb c 123) eqn:H123.
    { pose proof (skip_ws_length r0) as Hws0.
      destruct (skip_ws r0) as [|d r'] eqn:Hr0; [discriminate|].
      cbn [List.length] in Hws0.
      destruct (N.eqb d 125) eqn:H125.
      - intros H. injection H as <- <-. split; [lia|].
        intros [|f'] Hf; [lia|]. cbn [parse_value]. now rewrite Hs, H123, Hr0, H125.
      - intros H. apply IHm in H as [Hlen Hfuel]. cbn [List.length] in Hlen.
        split; [lia|].
        intros [|f'] Hf; [lia|]. cbn [parse_value]. rewrite Hs, H123, Hr0, H125.
        apply Hfuel. cbn [List.length]. lia. }
    destruct (N.eqb c 91) eqn:H91.
    { pose proof (skip_ws_length r0) as Hws0.
      destruct (skip_ws r0) as [|d r'] eqn:Hr0; [discriminate|].
      cbn [List.length] in Hws0.
      destruct (N.eqb d 93) eqn:H93.
      - intros H. injection H as <- <-. split; [lia|].
        intros [|f'] Hf; [lia|]. cbn [parse_value].
        now rewrite Hs, H123, H91, Hr0, H93.
      - intros H. apply IHe in H as [Hlen Hfuel]. cbn [List.length] in Hlen.
        split; [lia|].
        intros [|f'] Hf; [lia|]. cbn [parse_value].
        rewrite Hs, H123, H91, Hr0, H93.
        apply Hfuel. cbn [List.length]. lia. }
    assert (Hleaf : forall res : option (value * jsstring),
               (forall v0 r1, res = Some (v0, r1) ->
                              List.length r1 < S (List.length r0)) ->
               (forall f', parse_value (S f') s = res) ->
               res = Some (v, r) ->
               List.length r < List.length s
               /\ (forall f', 2 * (List.length s - List.length r) <= f' ->
                              parse_value f' s = Some (v, r))).
    { intros res Hlen Hsame Hres. specialize (Hlen v r Hres).
      split; [lia|]. intros [|f'] Hf; [lia|]. now rewrite Hsame. }
    intros H. eapply Hleaf; [| |exact H].
    + intros v0 r1.
      destruct (N.eqb c 34);
        [destruct (parse_chars [] r0) as [[str r']|] eqn:Hp; [|discriminate];
         intros H0; injection H0 as _ <-;
         apply parse_chars_length in Hp; lia|].
      destruct (N.eqb c 116);
        [destruct (starts_with (js "true") (c :: r0)) as [r'|] eqn:Hp; [|discriminate];
         intros H0; injection H0 as _ <-;
         apply starts_with_length in Hp; [cbn [List.length] in Hp; lia|discriminate]|].
      destruct (N.eqb c 102);
        [destruct (starts_with (js "false") (c :: r0)) as [r'|] eqn:Hp; [|discriminate];
         intros H0; injection H0 as _ <-;
         apply starts_with_length in Hp; [cbn [List.length] in Hp; lia|discriminate]|].
      destruct (N.eqb c 110);
        [destruct (starts_with (js "null") (c :: r0)) as [r'|] eqn:Hp; [|discriminate];
         intros H0; injection H0 as _ <-;
         apply starts_with_length in Hp; [cbn [List.length] in Hp; lia|discriminate]|].
      destruct (parse_number (c :: r0)) as [[x r']|] eqn:Hp; [|discriminate].
      intros H0; injection H0 as _ <-.
      apply parse_number_length in Hp. cbn [List.length] in Hp. lia.
    + intros f'. cbn [parse_value]. now rewrite Hs, H123, H91.
  - (* parse_elements *)
    intros acc s v r. cbn [parse_elements].
    destruct (parse_value f s) as [[v0 r0]|] eqn:Hv; [|discriminate].
    apply IHv in Hv as [Hlen0 Hfuel0].
    pose proof (skip_ws_length r0) as Hws.
    destruct (skip_ws r0) as [|c r'] eqn:Hr0; [discriminate|].
    cbn [List.length] in Hws.
    destruct (N.eqb c 44) eqn:H44.
    + intros H. apply IHe in H as [Hlen Hfuel]. split; [lia|].
      intros [|f'] Hf; [lia|]. cbn [parse_elements].
      rewrite Hfuel0 by lia. rewrite Hr0, H44. apply Hfuel. lia.
    + destruct (N.eqb c 93) eqn:H93; [|discriminate].
      intros H. injection H as <- <-. split; [lia|].
      intros [|f'] Hf; [lia|]. cbn [parse_elements].
      rewrite Hfuel0 by lia. now rewrite Hr0, H44, H93.
  - (* parse_members *)
    intros acc s v r. cbn [parse_members].
    pose proof (skip_ws_length s) as Hws.
    destruct (skip_ws s) as [|q r0] eqn:Hs; [discriminate|].
    cbn [List.length] in Hws.
    destruct (negb (N.eqb q 34)) eqn:Hq; [discriminate|].
    destruct (parse_chars [] r0) as [[k r1]|] eqn:Hk; [|discriminate].
    pose proof (parse_chars_length _ _ _ _ Hk) as Hlk.
    pose proof (skip_ws_length r1) as Hws1.
    destruct (skip_ws r1) as [|c r2] eqn:Hr1; [discriminate|].
    cbn [List.length] in Hws1.
    destruct (negb (N.eqb c 58)) eqn:Hc; [discriminate|].
    destruct (parse_value f r2) as [[v0 r3]|] eqn:Hv; [|discriminate].
    apply IHv in Hv as [Hlen0 Hfuel0].
    pose proof (skip_ws_length r3) as Hws3.
    destruct (skip_ws r3) as [|d r4] eqn:Hr3; [discriminate|].
    cbn [List.length] in Hws3.
    destruct (N.eqb d 44) eqn:H44.
    + intros H. apply IHm in H as [Hlen Hfuel]. split; [lia|].
      intros [|f'] Hf; [lia|]. cbn [parse_members].
      rewrite Hs, Hq, Hk, Hr1, Hc. rewrite Hfuel0 by lia. rewrite Hr3, H44.
      apply Hfuel. lia.
    + destruct (N.eqb d 125) eqn:H125; [|discriminate].
      intros H. injection H as <- <-. split; [lia|].
      intros [|f'] Hf; [lia|]. cbn [parse_members].
      rewrite Hs, Hq, Hk, Hr1, Hc. rewrite Hfuel0 by lia.
      now rewrite Hr3, H44, H125.
Qed.

(** The fuel of [JSON_parse] is enough: a text that parses with some
    fuel parses with it. *)
Theorem JSON_parse_fuel (fuel : nat) (text : jsstring) (v : value) (r : jsstring) :
  parse_value fuel text = Some (v, r) -> skip_ws r = [] ->
  JSON_parse text = Some v.
Proof.
  intros H Hr. unfold JSON_parse.
  destruct (parse_fuel fuel) as (Hv & _ & _).
  destruct (Hv _ _ _ H) as [Hlen Hfuel].
  rewrite (Hfuel (2 * List.length text + 2)) by lia. now rewrite Hr.
Qed.

End Fuel.

(* ================================================================== *)
(** * The scores of the topics with at most 100 questions, and the errors *)
(* ================================================================== *)

Lemma score_table : forallb scores_ok (Zrange 1 100) = true.
Proof. vm_compute. reflexivity. Qed.

(** Every valid result with at most 100 questions is in the table. *)
Lemma score_in_table (c t : Z) :
  0 <= c <= t -> 0 < t <= 100 -> score_ok c t = true.
Proof.
  intros Hc Ht.
  assert (Hs : scores_ok t = true).
  { apply (forallb_Zrange scores_ok 1 100 score_table). simpl. lia. }
  unfold scores_ok in Hs.
  apply (forallb_Zrange _ 0 (Z.to_nat t + 1) Hs). lia.
Qed.

(** The errors of the validator and of the loop over the models. *)
Lemma validate_errors (llmResult : value) (e : error) :
  Analyze.validate llmResult = Thrown e ->
  exists field, In field required_fields /\ e = Analyze.missing field.
Proof.
  unfold Analyze.validate, required_fields. case_ifs; try discriminate;
    intros H; injection H as <-; eexists; (split; [|reflexivity]); simpl; tauto.
Qed.

Lemma call_models_errors (create : jsstring -> Analyze.Promise) (e : error) :
  Analyze.call_models create = Thrown e ->
  exists m, e = Error (Analyze.all_failed_message (Some m)).
Proof.
  unfold Analyze.call_models, Analyze.models. simpl Analyze.try_models.
  destruct (Analyze.race (create (js "sonar-pro"))) as [c|m]; simpl;
    [discriminate|].
  destruct (Analyze.race (create (js "sonar"))) as [c|m']; simpl;
    [discriminate|].
  intros H. injection H as <-. eauto.
Qed.

(** The prompt fails with a TypeError only. *)
Lemma userPrompt_errors (studentData : Analyze.StudentData) (e : error) :
  Analyze.userPrompt studentData = Thrown e -> e = TypeError.
Proof.
  unfold Analyze.userPrompt.
  induction (Analyze.topicScoresArray studentData) as [|topic topics IH];
    cbn [mapM]; [discriminate|].
  unfold Analyze.topic_line at 1.
  destruct (Analyze.is_inherited _); cbn [bind];
    [intros H; now injection H|].
  destruct (mapM Analyze.topic_line topics) as [ls|e'] eqn:Hm; cbn [bind];
    [discriminate|].
  intros H. injection H as <-. now apply IH.
Qed.

(** Every answer of the handler. *)
Lemma POST_errors (apiKey : option jsstring)
      (create : list Analyze.TopicLine -> jsstring -> Analyze.Promise)
      (studentData : Analyze.StudentData) :
  match Analyze.POST apiKey create studentData with
  | Analyze.Json200 body => True
  | Analyze.Json400 m =>
      m = js "Missing user name" /\ Analyze.userName studentData = []
  | Analyze.Json500 e => analysis_error e
  end.
Proof.
  unfold Analyze.POST.
  destruct (Analyze.userName studentData) as [|c n]; [split; reflexivity|].
  destruct (Analyze.analyze apiKey create studentData) as [body|e] eqn:Ha;
    [exact I|].
  unfold analysis_error. unfold Analyze.analyze in Ha.
  destruct apiKey as [[|k key]|]; try (injection Ha as <-; now left).
  destruct (Analyze.userPrompt studentData) as [prompt|e0] eqn:Hu;
    cbn [bind] in Ha;
    [|injection Ha as <-; apply userPrompt_errors in Hu; subst; tauto].
  destruct (Analyze.call_models _) as [completion|e1] eqn:Hc; simpl in Ha.
  2:{ injection Ha as <-. right. left. eapply call_models_errors. exact Hc. }
  unfold Analyze.generatedText in Ha.
  destruct (is_nullish _); simpl in Ha; [injection Ha as <-; tauto|].
  destruct (negb _); simpl in Ha; [injection Ha as <-; tauto|].
  destruct (or_else _ _); simpl in Ha; try (injection Ha as <-; tauto).
  unfold Analyze.extract in Ha.
  destruct (Analyze.jsonMatch s) as [span|]; simpl in Ha;
    [|injection Ha as <-; unfold no_json; tauto].
  destruct (JSON_parse span) as [llmResult|]; simpl in Ha;
    [|injection Ha as <-; tauto].
  do 6 right. exact (validate_errors llmResult e Ha).
Qed.

(* ================================================================== *)
(** * The call to the collaborator (C9) *)
(* ================================================================== *)

Section Fallback.

Variable create : jsstring -> Analyze.Promise.

(** An attempt succeeds exactly when its request resolves before the
    timer fires, and fails otherwise, with the message of a rejection
    that came before the timer or with the message of the timer. *)
Lemma race_succeeded (modelPromise : Analyze.Promise)
      (completion : list (jsstring * value)) :
  Analyze.race modelPromise = Analyze.Succeeded completion
  <-> answers_with modelPromise completion.
Proof.
  unfold Analyze.race, answers_with. split.
  - destruct modelPromise as [t c|t m|]; try discriminate.
    + destruct (N.ltb_spec t Analyze.timeout_ms) as [Ht|Ht]; [|discriminate].
      intros H. injection H as ->. eauto.
    + destruct (N.ltb t Analyze.timeout_ms); discriminate.
  - intros (t & -> & Ht). apply N.ltb_lt in Ht. now rewrite Ht.
Qed.

Lemma race_failed (modelPromise : Analyze.Promise) (message : jsstring) :
  Analyze.race modelPromise = Analyze.Failed message
  <-> fails_with modelPromise message.
Proof.
  unfold Analyze.race, fails_with, unsettled. split.
  - destruct modelPromise as [t c|t m|].
    + destruct (N.ltb_spec t Analyze.timeout_ms) as [Ht|Ht]; [discriminate|].
      intros H. injection H as <-. right. split; [reflexivity|exact Ht].
    + destruct (N.ltb_spec t Analyze.timeout_ms) as [Ht|Ht];
        intros H; injection H as <-.
      * left. eauto.
      * right. split; [reflexivity|exact Ht].
    + intros H. injection H as <-. right. split; [reflexivity|exact I].
  - intros [(t & -> & Ht)|[-> Hu]].
    + apply N.ltb_lt in Ht. now rewrite Ht.
    + destruct modelPromise as [t c|t m|]; [| |reflexivity];
        apply N.ltb_ge in Hu; now rewrite Hu.
Qed.

(** The message of the failure ends with the message of the last
    error, or with Unknown error when that message is empty. *)
Lemma all_failed_message_carries (m : jsstring) :
  Analyze.all_failed_message (Some m)
  = js "All models failed. Last error: "
    ++ match m with
       | [] => js "Unknown error"
       | _ => m
       end.
Proof. destruct m as [|x m]; reflexivity. Qed.

(** C9.  The primary model is attempted first.  Its attempt succeeds
    when its request resolves before its timer of 45 seconds fires, and
    the loop ends there; it fails when the request is rejected before
    the timer (a transport error) or has not settled when the timer
    fires (a timeout), and exactly then the alternate model is attempted,
    once and against a timer of its own; no third attempt is made.  The
    call returns the completion of the first attempt that succeeds, and
    it fails exactly when both attempts fail, with an error whose
    message carries the message of the second failure: that of the
    rejection, or Model timeout. *)
Theorem call_models_fallback :
  hd_error (attempts create) = Some primary
  /\ (attempts create = [primary] <-> exists c, answers_with (create primary) c)
  /\ (attempts create = [primary; alternate]
      <-> exists m, fails_with (create primary) m)
  /\ (forall c, Analyze.call_models create = Returned c <->
        answers_with (create primary) c
        \/ ((exists m, fails_with (create primary) m)
            /\ answers_with (create alternate) c))
  /\ (forall e, Analyze.call_models create = Thrown e <->
        exists m1 m2,
          fails_with (create primary) m1
          /\ fails_with (create alternate) m2
          /\ e = Error (Analyze.all_failed_message (Some m2)))
  /\ (forall m,
        Analyze.all_failed_message (Some m)
        = js "All models failed. Last error: "
          ++ match m with
             | [] => js "Unknown error"
             | _ => m
             end).
Proof.
  pose proof all_failed_message_carries as Hmsg.
  unfold attempts, Analyze.call_models, Analyze.models.
  simpl Analyze.try_models. fold primary alternate.
  assert (Hex : forall p c m,
             answers_with p c -> fails_with p m -> False).
  { intros p c m Hc Hm. apply race_succeeded in Hc. apply race_failed in Hm.
    congruence. }
  destruct (Analyze.race (create primary)) as [c|m] eqn:Hp; simpl.
  - apply race_succeeded in Hp.
    split; [reflexivity|].
    split; [split; [eauto|reflexivity]|].
    split; [split; [discriminate|intros [m Hm]; exfalso; eauto]|].
    split.
    { intros c0. split.
      - intros H. injection H as <-. now left.
      - intros [H|[[m Hm] _]]; [|exfalso; eauto].
        apply race_succeeded in H, Hp. congruence. }
    split; [|exact Hmsg].
    intros e. split; [discriminate|].
    intros (m1 & m2 & H1 & _). exfalso. eauto.
  - apply race_failed in Hp.
    destruct (Analyze.race (create alternate)) as [c|m'] eqn:Ha; simpl.
    + apply race_succeeded in Ha.
      split; [reflexivity|].
      split; [split; [discriminate|intros [c0 Hc0]; exfalso; eauto]|].
      split; [split; eauto|].
      split.
      { intros c0. split.
        - intros H. injection H as <-. right. eauto.
        - intros [H|[_ H]]; [exfalso; eauto|].
          apply race_succeeded in H, Ha. congruence. }
      split; [|exact Hmsg].
      intros e. split; [discriminate|].
      intros (m1 & m2 & _ & H2 & _). exfalso. eauto.
    + apply race_failed in Ha.
      split; [reflexivity|].
      split; [split; [discriminate|intros [c0 Hc0]; exfalso; eauto]|].
      split; [split; eauto|].
      split.
      { intros c0. split; [discriminate|].
        intros [H|[_ H]]; exfalso; eauto. }
      split; [|exact Hmsg].
      intros e. split.
      * intros H. injection H as <-. exists m, m'. auto.
      * intros (m1 & m2 & _ & H2 & ->). apply race_failed in H2, Ha.
        congruence.
Qed.

End Fallback.

Lemma call_models_fallback_witness :
  Analyze.call_models silent
  = Thrown (Error (Analyze.all_failed_message (Some (js "Model timeout")))).
Proof.
  apply (proj2 (proj1 (proj2 (proj2 (proj2 (proj2
           (call_models_fallback silent)))))
           (Error (Analyze.all_failed_message (Some (js "Model timeout")))))).
  exists (js "Model timeout"), (js "Model timeout").
  split; [right; split; [reflexivity|exact I]|].
  split; [right; split; [reflexivity|exact I]|reflexivity].
Defined.

(* ================================================================== *)
(** * Extraction of the JSON object (C4) *)
(* ================================================================== *)

(** The match is the span from the first opening brace to the last
    closing brace. *)
Lemma jsonMatch_span (pre mid post : jsstring) :
  ~ In open_brace pre -> ~ In close_brace post ->
  Analyze.jsonMatch (pre ++ open_brace :: mid ++ close_brace :: post)
  = Some (open_brace :: mid ++ [close_brace]).
Proof.
  intros Hpre Hpost. unfold Analyze.jsonMatch.
  rewrite dropWhile_app_all.
  2:{ apply Forall_forall. intros x Hx. unfold Analyze.is_open_brace.
      destruct (N.eqb_spec x 123); [subst; contradiction|reflexivity]. }
  simpl. rewrite rev_app_distr. simpl. rewrite <- app_assoc. simpl.
  rewrite dropWhile_app_all.
  2:{ apply Forall_rev_of. apply Forall_forall. intros x Hx.
      unfold Analyze.is_close_brace.
      destruct (N.eqb_spec x 125); [subst; contradiction|reflexivity]. }
  simpl. rewrite rev_involutive. reflexivity.
Qed.

(** A match is such a span. *)
Lemma jsonMatch_some (text span : jsstring) :
  Analyze.jsonMatch text = Some span ->
  exists pre mid post,
    text = pre ++ open_brace :: mid ++ close_brace :: post
    /\ span = open_brace :: mid ++ [close_brace]
    /\ ~ In open_brace pre /\ ~ In close_brace post.
Proof.
  unfold Analyze.jsonMatch. intros H.
  destruct (dropWhile_split (fun c => negb (Analyze.is_open_brace c)) text)
    as (pre & Htext & Hpre).
  destruct (dropWhile (fun c => negb (Analyze.is_open_brace c)) text)
    as [|b after] eqn:Hd; [discriminate|].
  apply dropWhile_head in Hd.
  destruct (dropWhile_split (fun c => negb (Analyze.is_close_brace c)) (rev after))
    as (tsop & Hafter & Hpost).
  destruct (dropWhile (fun c => negb (Analyze.is_close_brace c)) (rev after))
    as [|e dim] eqn:Hk; [discriminate|].
  apply dropWhile_head in Hk. injection H as <-.
  unfold Analyze.is_open_brace in Hd. unfold Analyze.is_close_brace in Hk.
  apply negb_false_iff in Hd, Hk. apply N.eqb_eq in Hd, Hk. subst b e.
  exists pre, (rev dim), (rev tsop).
  assert (Ha : after = rev dim ++ close_brace :: rev tsop).
  { rewrite <- (rev_involutive after), Hafter, rev_app_distr. simpl.
    now rewrite <- app_assoc. }
  split; [now rewrite Htext at 1; rewrite Ha|].
  split; [simpl; reflexivity|].
  split.
  - intros Hin. rewrite Forall_forall in Hpre. specialize (Hpre _ Hin).
    discriminate.
  - intros Hin. apply in_rev in Hin. rewrite Forall_forall in Hpost.
    specialize (Hpost _ Hin). discriminate.
Qed.

(** A closing brace after some opening brace is after the first one. *)
Lemma close_after_first_open (a b pre mid post : jsstring) :
  ~ In open_brace a ->
  a ++ open_brace :: b = pre ++ open_brace :: mid ++ close_brace :: post ->
  In close_brace b.
Proof.
  revert pre. induction a as [|x a IH]; intros pre Ha Htext.
  - destruct pre as [|y pre]; simpl in Htext.
    + injection Htext as ->. apply in_or_app. right. now left.
    + injection Htext as _ ->. apply in_or_app. right. right.
      apply in_or_app. right. now left.
  - destruct pre as [|y pre]; simpl in Htext.
    + injection Htext as -> _. exfalso. apply Ha. now left.
    + injection Htext as _ Htext.
      apply (IH pre (fun H => Ha (or_intror H)) Htext).
Qed.

(** There is no match exactly when no closing brace follows an opening
    brace. *)
Lemma jsonMatch_none (text : jsstring) :
  Analyze.jsonMatch text = None <->
  ~ exists pre mid post, text = pre ++ open_brace :: mid ++ close_brace :: post.
Proof.
  split.
  - intros Hnone (pre & mid & post & Htext).
    assert (Hin : In open_brace text)
      by (rewrite Htext; apply in_or_app; right; now left).
    destruct (in_split_first _ _ Hin) as (a & b & Hab & Ha).
    assert (Hb : In close_brace b).
    { rewrite Hab in Htext. exact (close_after_first_open _ _ _ _ _ Ha Htext). }
    destruct (in_split_last _ _ Hb) as (mid' & post' & -> & Hpost).
    rewrite Hab, jsonMatch_span in Hnone by assumption. discriminate.
  - intros Hno. destruct (Analyze.jsonMatch text) as [span|] eqn:Hm; [|reflexivity].
    exfalso. apply Hno.
    apply jsonMatch_some in Hm as (pre & mid & post & H & _). eauto.
Qed.

(** A text that starts with an opening brace parses to an object, if it
    parses at all. *)
Lemma parse_members_object (fuel : nat) :
  forall acc s v r,
    parse_members fuel acc s = Some (v, r) -> exists props, v = VObj props.
Proof.
  induction fuel as [|fuel IH]; intros acc s v r; [discriminate|].
  cbn [parse_members].
  destruct (skip_ws s) as [|q r0]; [discriminate|].
  destruct (negb (N.eqb q 34)); [discriminate|].
  destruct (parse_chars [] r0) as [[k r1]|]; [|discriminate].
  destruct (skip_ws r1) as [|c r2]; [discriminate|].
  destruct (negb (N.eqb c 58)); [discriminate|].
  destruct (parse_value fuel r2) as [[v' r3]|]; [|discriminate].
  destruct (skip_ws r3) as [|d r4]; [discriminate|].
  destruct (N.eqb d 44); [apply IH|].
  destruct (N.eqb d 125); [|discriminate].
  intros H. injection H as <- _. eauto.
Qed.

Lemma JSON_parse_object (s : jsstring) (v : value) :
  JSON_parse (open_brace :: s) = Some v -> exists props, v = VObj props.
Proof.
  unfold JSON_parse.
  destruct (parse_value _ _) as [[v' r]|] eqn:Hp; [|discriminate].
  destruct (skip_ws r); [|discriminate]. intros H. injection H as <-.
  revert Hp. generalize (List.length (open_brace :: s)). intros n.
  replace (2 * n + 2)%nat with (S (2 * n + 1)) by lia.
  cbn [parse_value]. unfold skip_ws at 1.
  cbn [dropWhile is_json_ws open_brace N.eqb Pos.eqb orb].
  destruct (skip_ws s) as [|d r']; [discriminate|].
  destruct (N.eqb d 125).
  - intros H. injection H as <- _. eauto.
  - apply parse_members_object.
Qed.

(** C4, as amended.  Extraction fails with the error No JSON found
    exactly when the text has no opening brace with a closing brace
    after it.  Otherwise the span from the first opening brace to the
    last closing brace is handed to JSON.parse: its value is returned,
    and when it is not valid JSON the failure is the SyntaxError of the
    parser, not No JSON found.  So prose without an opening brace,
    followed by one well-formed object, extracts that object, and a text
    without any opening brace fails with No JSON found.  What extraction
    returns is an object. *)
Theorem extract_first_to_last_brace (text : jsstring) :
  (Analyze.extract text = Thrown no_json <->
     ~ exists pre mid post, text = pre ++ open_brace :: mid ++ close_brace :: post)
  /\ (forall pre mid post,
        text = pre ++ open_brace :: mid ++ close_brace :: post ->
        ~ In open_brace pre -> ~ In close_brace post ->
        Analyze.extract text
        = match JSON_parse (open_brace :: mid ++ [close_brace]) with
          | Some llmResult => Returned llmResult
          | None => Thrown SyntaxError
          end)
  /\ (~ In open_brace text -> Analyze.extract text = Thrown no_json)
  /\ (forall llmResult,
        Analyze.extract text = Returned llmResult ->
        exists props, llmResult = VObj props).
Proof.
  assert (H1 : Analyze.extract text = Thrown no_json
               <-> Analyze.jsonMatch text = None).
  { unfold Analyze.extract. destruct (Analyze.jsonMatch text) as [span|].
    - destruct (JSON_parse span); split; discriminate.
    - split; reflexivity. }
  split; [rewrite H1; apply jsonMatch_none|].
  split; [|split].
  - intros pre mid post -> Hpre Hpost. unfold Analyze.extract.
    now rewrite jsonMatch_span.
  - intros Hno. apply H1. apply jsonMatch_none.
    intros (pre & mid & post & ->). apply Hno. apply in_or_app. right. now left.
  - intros llmResult. unfold Analyze.extract.
    destruct (Analyze.jsonMatch text) as [span|] eqn:Hm; [|discriminate].
    apply jsonMatch_some in Hm as (pre & mid & post & _ & -> & _).
    destruct (JSON_parse _) as [v|] eqn:Hp; [|discriminate].
    intros H. injection H as <-. eapply JSON_parse_object. exact Hp.
Qed.

Lemma extract_first_to_last_brace_witness :
  Analyze.extract (prose ++ report_text)
  = match JSON_parse report_text with
    | Some llmResult => Returned llmResult
    | None => Thrown SyntaxError
    end
  /\ exists llmResult, JSON_parse report_text = Some llmResult.
Proof.
  split; [|eexists; vm_compute; reflexivity].
  apply (proj1 (proj2 (extract_first_to_last_brace (prose ++ report_text)))
           prose (removelast (tl report_text)) []).
  - vm_compute. reflexivity.
  - vm_compute. intros H. not_in H.
  - intros [].
Defined.

(** C4, as stated, fails: the braces of this reply enclose no JSON, and
    the failure is the SyntaxError of JSON.parse, not No JSON found. *)
Lemma extract_sloppy_is_syntax_error :
  Analyze.jsonMatch sloppy_text = Some (js "{score: 75}")
  /\ JSON_parse (js "{score: 75}") = None
  /\ Analyze.extract sloppy_text = Thrown SyntaxError
  /\ Analyze.extract sloppy_text <> Thrown no_json.
Proof.
  repeat split; try (vm_compute; reflexivity).
  vm_compute. discriminate.
Qed.

(* ================================================================== *)
(** * Validation of the parsed reply (C3) *)
(* ================================================================== *)

(** C3, as amended.  The validator accepts the name of the student and
    the score mapping under either key spelling, and the overall index,
    the tier label, the strengths, the gaps and the recommendations
    under the capitalized key only; a field counts as supplied when its
    value is truthy.  When all seven are supplied the parsed object is
    returned as it is; otherwise the error names the first field, in the
    order of the tests, that is not, and nothing else is returned. *)
Theorem validate_required_fields (props : list (jsstring * value)) :
  let llmResult := VObj props in
  (Analyze.validate llmResult = Returned llmResult
   <-> Forall (fun f => snd f = true) (supplied llmResult))
  /\ (forall field,
        first_missing (supplied llmResult) = Some field ->
        Analyze.validate llmResult = Thrown (Analyze.missing field))
  /\ (forall e,
        Analyze.validate llmResult = Thrown e ->
        exists field, first_missing (supplied llmResult) = Some field
                      /\ e = Analyze.missing field)
  /\ (forall report,
        Analyze.validate llmResult = Returned report -> report = llmResult).
Proof.
  intros llmResult. unfold Analyze.validate, supplied, first_missing.
  generalize (truthy (get llmResult "Student Name")),
             (truthy (get llmResult "studentName")),
             (truthy (get llmResult "Scores")),
             (truthy (get llmResult "scores")),
             (truthy (get llmResult "Overall Readiness Index")),
             (truthy (get llmResult "Readiness Level")),
             (truthy (get llmResult "Strengths")),
             (truthy (get llmResult "Gaps")),
             (truthy (get llmResult "Recommendations")).
  generalize llmResult. clear llmResult props.
  assert (Hall : forall l : list (string * bool),
             Forall (fun f => snd f = true) l
             <-> find (fun f => negb (snd f)) l = None).
  { induction l as [|[f b] l IH]; [split; [reflexivity|constructor]|].
    cbn [find snd]. destruct b; cbn [negb].
    - rewrite <- IH. split; [now inversion 1|now constructor].
    - split; [inversion 1; discriminate|discriminate]. }
  intros r name name' scores scores' index level strengths gaps recs.
  rewrite Hall.
  destruct name, name'; cbn [negb andb orb find snd fst option_map];
    try (repeat split; intros; try discriminate;
         match goal with
         | H : Some _ = Some _ |- _ => injection H as <-; reflexivity
         | H : Thrown _ = Thrown _ |- _ =>
             injection H as <-; eexists; split; reflexivity
         end);
    (destruct scores, scores'; cbn [negb andb orb find snd fst option_map];
     try (repeat split; intros; try discriminate;
          match goal with
          | H : Some _ = Some _ |- _ => injection H as <-; reflexivity
          | H : Thrown _ = Thrown _ |- _ =>
              injection H as <-; eexists; split; reflexivity
          end));
    (destruct index; cbn [negb find snd fst option_map];
     [destruct level; cbn [negb find snd fst option_map];
      [destruct strengths; cbn [negb find snd fst option_map];
       [destruct gaps; cbn [negb find snd fst option_map];
        [destruct recs; cbn [negb find snd fst option_map]|]|]|]|]);
    repeat split; intros; try discriminate; try reflexivity;
    match goal with
    | H : Some _ = Some _ |- _ => injection H as <-; reflexivity
    | H : Thrown _ = Thrown _ |- _ =>
        injection H as <-; eexists; split; reflexivity
    | H : Returned _ = Returned _ |- _ => injection H as <-; reflexivity
    end.
Qed.

Lemma validate_required_fields_witness :
  Analyze.validate (VObj no_gaps) = Thrown (Analyze.missing "Gaps").
Proof.
  apply (proj1 (proj2 (validate_required_fields no_gaps))). reflexivity.
Defined.

(** C3, as stated, fails: this reply has all seven fields, the strengths
    under the lowerCamelCase key, and is rejected for its strengths. *)
Lemma validate_rejects_camel_strengths :
  truthy (get (VObj camel_strengths) "strengths") = true
  /\ Analyze.validate (VObj camel_strengths)
     = Thrown (Analyze.missing "Strengths").
Proof. split; reflexivity. Qed.

(* ================================================================== *)
(** * The presence tests of the assembler (C10) *)
(* ================================================================== *)

Lemma lookup_without (k k' : jsstring) (props : list (jsstring * value)) :
  lookup k' (filter (fun p => negb (str_eqb k (fst p))) props)
  = if str_eqb k k' then VUndefined else lookup k' props.
Proof.
  induction props as [|[k0 v] props IH]; simpl.
  - now destruct (str_eqb k k').
  - destruct (str_eqb k k0) eqn:H0; simpl.
    + apply str_eqb_eq in H0. subst k0. rewrite IH.
      destruct (str_eqb k k') eqn:H1; [reflexivity|].
      destruct (str_eqb k' k) eqn:H2; [|reflexivity].
      apply str_eqb_eq in H2. subst. now rewrite str_eqb_refl in H1.
    + destruct (str_eqb k' k0) eqn:H2.
      * apply str_eqb_eq in H2. subst k0. now rewrite H0.
      * exact IH.
Qed.

(** Reading a report without one of its keys. *)
Lemma get_without (k k' : string) (v : value) :
  get (without k v) k'
  = if str_eqb (js k) (js k') then VUndefined else get v k'.
Proof.
  destruct v; simpl; try now destruct (str_eqb (js k) (js k')).
  apply lookup_without.
Qed.

Lemma is_nullish_without (k : string) (v : value) :
  is_nullish (without k v) = is_nullish v.
Proof. now destruct v. Qed.

(** C10, as amended.  An Overall Readiness Index or a Readiness Level
    that is present under the capitalized key with a falsy value (0, the
    empty string, null, false) is read exactly as if that key were
    absent: the value under the lowerCamelCase key is taken instead.
    The record is rejected when that one is undefined, for the index
    (with the error Overall Readiness Index is required, once the name
    and the scores have passed), or falsy, for the level; an index that
    is accepted is the value of [overallIndex], which may be 0. *)
Theorem falsy_index_and_level_read_as_absent (results : value) :
  (truthy (get results "Overall Readiness Index") = false ->
     Pdf.generateHTMLContent results
     = Pdf.generateHTMLContent (without "Overall Readiness Index" results))
  /\ (truthy (get results "Readiness Level") = false ->
     Pdf.generateHTMLContent results
     = Pdf.generateHTMLContent (without "Readiness Level" results))
  /\ (truthy (get results "Overall Readiness Index") = false ->
      get results "overallIndex" = VUndefined ->
      ~ exists report, Pdf.generateHTMLContent results = Returned report)
  /\ (truthy (get results "Overall Readiness Index") = false ->
      forall report, Pdf.generateHTMLContent results = Returned report ->
      Pdf.overallIndex report = get results "overallIndex")
  /\ (truthy (get results "Readiness Level") = false ->
      truthy (get results "readinessLevel") = false ->
      ~ exists report, Pdf.generateHTMLContent results = Returned report)
  /\ (truthy (get results "Readiness Level") = false ->
      forall report, Pdf.generateHTMLContent results = Returned report ->
      Pdf.readinessLevel report = get results "readinessLevel")
  /\ (truthy (or_else (get results "Student Name") (get results "studentName"))
        = true ->
      truthy (or_else (or_else (get results "scores") (get results "Scores"))
                      (get results "Scores")) = true ->
      truthy (get results "Overall Readiness Index") = false ->
      (Pdf.generateHTMLContent results = Thrown index_required
       <-> get results "overallIndex" = VUndefined))
  /\ (truthy (or_else (get results "Student Name") (get results "studentName"))
        = true ->
      truthy (or_else (or_else (get results "scores") (get results "Scores"))
                      (get results "Scores")) = true ->
      Pdf.is_undefined (or_else (get results "Overall Readiness Index")
                                (get results "overallIndex")) = false ->
      truthy (get results "Readiness Level") = false ->
      (Pdf.generateHTMLContent results = Thrown level_required
       <-> truthy (get results "readinessLevel") = false)).
Proof.
  split; [|split; [|split; [|split; [|split; [|split; [|split]]]]]].
  - intros H. unfold Pdf.generateHTMLContent.
    rewrite is_nullish_without, !get_without. eval_keys.
    rewrite (or_else_falsy _ _ H). reflexivity.
  - intros H. unfold Pdf.generateHTMLContent.
    rewrite is_nullish_without, !get_without. eval_keys.
    rewrite (or_else_falsy _ _ H). reflexivity.
  - intros H Hu [report Hr]. revert Hr. unfold Pdf.generateHTMLContent.
    rewrite (or_else_falsy _ _ H), Hu. simpl. case_ifs; discriminate.
  - intros H report. unfold Pdf.generateHTMLContent.
    rewrite (or_else_falsy _ _ H).
    case_ifs; try discriminate. intros Hr. injection Hr as <-. reflexivity.
  - intros H Hu [report Hr]. revert Hr. unfold Pdf.generateHTMLContent.
    rewrite (or_else_falsy _ _ H), Hu. simpl. case_ifs; discriminate.
  - intros H report. unfold Pdf.generateHTMLContent.
    rewrite (or_else_falsy _ _ H).
    case_ifs; try discriminate. intros Hr. injection Hr as <-. reflexivity.
  - intros Hname Hscores H. unfold Pdf.generateHTMLContent.
    assert (Hn : is_nullish results = false)
      by (destruct results; try reflexivity; discriminate Hname).
    rewrite Hn, Hname, Hscores, (or_else_falsy _ _ H). cbn [negb].
    destruct (get results "overallIndex"); cbn [Pdf.is_undefined];
      [split; reflexivity|..];
      (split; [|discriminate]); case_ifs; discriminate.
  - intros Hname Hscores Hindex H. unfold Pdf.generateHTMLContent.
    assert (Hn : is_nullish results = false)
      by (destruct results; try reflexivity; discriminate Hname).
    rewrite Hn, Hname, Hscores, Hindex, (or_else_falsy _ _ H). cbn [negb].
    destruct (truthy (get results "readinessLevel")); cbn [negb];
      [|split; reflexivity].
    split; [|discriminate]. case_ifs; discriminate.
Qed.

Lemma falsy_index_and_level_read_as_absent_witness :
  Pdf.generateHTMLContent (index_zero ["Overall Readiness Index"%string])
  = Thrown index_required.
Proof.
  apply (proj1 (proj2 (proj2 (proj2 (proj2 (proj2 (proj2
           (falsy_index_and_level_read_as_absent
              (index_zero ["Overall Readiness Index"%string]))))))))).
  - reflexivity.
  - reflexivity.
  - reflexivity.
  - reflexivity.
Defined.

(** C10, as stated, fails: with an index of 0 under both spellings the
    record is accepted, and the index the template shows is 0. *)
Lemma index_zero_is_rendered :
  get (index_zero ["Overall Readiness Index"; "overallIndex"]%string)
      "Overall Readiness Index" = VNum (of_Z 0)
  /\ exists report,
       Pdf.generateHTMLContent
         (index_zero ["Overall Readiness Index"; "overallIndex"]%string)
       = Returned report
       /\ Pdf.overallIndex report = VNum (of_Z 0).
Proof.
  split; [reflexivity|]. eexists. split; vm_compute; reflexivity.
Qed.

(* ================================================================== *)
(** * The match percentage of a country (C2) *)
(* ================================================================== *)

(** The fallback of an entry given as a string: the double arithmetic
    of the source is exact on array indices. *)
Lemma matchScore_string (country : jsstring) (index : nat) :
  Z.of_nat index < 2 ^ 32 ->
  Pdf.matchScore (VStr country) index
  = Returned (VNum (of_Z (Spec.fallbackMatch (Z.of_nat index + 1)))).
Proof.
  intros H. unfold Pdf.matchScore, Spec.fallbackMatch.
  rewrite mul_of_Z by lia.
  rewrite sub_of_Z by lia.
  rewrite Math_round_of_Z by lia.
  do 3 f_equal. lia.
Qed.

(** C2, as amended.  The fallback 100 - 15 * (rank - 1) is what an entry
    given as a bare string gets at every rank (an array has fewer than
    2^32 elements), so these percentages decrease strictly with the
    rank: 100, 85, 70 for three names.  An entry given as an object gets
    its [match] when that is truthy and 100 otherwise, whatever its
    rank.  The country card computes the same score as the matrix. *)
Theorem matchScore_fallback :
  (forall country index, Z.of_nat index < 2 ^ 32 ->
     Pdf.matchScore (VStr country) index
     = Returned (VNum (of_Z (Spec.fallbackMatch (Z.of_nat index + 1)))))
  /\ (forall country country' index, Z.of_nat index + 1 < 2 ^ 32 ->
        exists x y,
          Pdf.matchScore (VStr country) index = Returned (VNum x)
          /\ Pdf.matchScore (VStr country') (S index) = Returned (VNum y)
          /\ SFltb y x = true)
  /\ (forall props index,
        Pdf.matchScore (VObj props) index
        = Returned (if truthy (lookup (js "match") props)
                    then lookup (js "match") props
                    else VNum (of_Z 100)))
  /\ (forall a b c,
        Pdf.generateCountryMatrix [VStr a; VStr b; VStr c]
        = Returned
            [ {| Pdf.matrix_rank := 1; Pdf.matrix_name := VStr a;
                 Pdf.matrix_score := VNum (of_Z 100);
                 Pdf.matrix_desc :=
                   VStr (js "Well-suited destination for study abroad") |};
              {| Pdf.matrix_rank := 2; Pdf.matrix_name := VStr b;
                 Pdf.matrix_score := VNum (of_Z 85);
                 Pdf.matrix_desc :=
                   VStr (js "Well-suited destination for study abroad") |};
              {| Pdf.matrix_rank := 3; Pdf.matrix_name := VStr c;
                 Pdf.matrix_score := VNum (of_Z 70);
                 Pdf.matrix_desc :=
                   VStr (js "Well-suited destination for study abroad") |} ])
  /\ (forall countryData index,
        Pdf.generateCountryCard countryData index
        = bind (Pdf.country_of countryData) (fun country =>
          bind (Pdf.matchScore countryData index) (fun score =>
          Returned {| Pdf.card_rank := index + 1;
                      Pdf.card_name := country;
                      Pdf.card_score := score |}))).
Proof.
  split; [|split; [|split; [|split]]].
  - intros country index H. now apply matchScore_string.
  - intros country country' index H.
    eexists _, _. split; [apply matchScore_string; lia|].
    split; [apply matchScore_string; lia|].
    unfold Spec.fallbackMatch. rewrite ltb_of_Z by lia.
    apply Z.ltb_lt. lia.
  - intros props index. reflexivity.
  - intros a b c. vm_compute. reflexivity.
  - reflexivity.
Qed.

Lemma matchScore_fallback_witness :
  Pdf.matchScore (VStr (js "Canada")) 1 = Returned (VNum (of_Z 85)).
Proof.
  apply (proj1 matchScore_fallback (js "Canada") 1%nat). reflexivity.
Defined.

(** C2, as stated, fails: an entry given as an object without a match
    percentage, at rank 2, gets 100, not 85. *)
Lemma matchScore_of_object_without_match :
  Pdf.matchScore (VObj [(js "country", VStr (js "Canada"))]) 1
  = Returned (VNum (of_Z 100))
  /\ of_Z 100 <> of_Z (Spec.fallbackMatch 2).
Proof. split; [reflexivity|vm_compute; discriminate]. Qed.

(* ================================================================== *)
(** * Bullet points (C6, C7) *)
(* ================================================================== *)

(** C6 (the code departs from the claim on the empty sequence).  An
    absent field and an empty string give the one placeholder item, but
    the empty sequence is truthy, reaches the branch of arrays and gives
    no item at all; and a report whose strengths are the empty sequence
    passes the presence tests of [generateHTMLContent]. *)
Theorem formatToBulletPoints_empty_array :
  Pdf.formatToBulletPoints (VArr []) = Returned []
  /\ Pdf.formatToBulletPoints VUndefined = Returned Pdf.not_available
  /\ Pdf.formatToBulletPoints (VStr []) = Returned Pdf.not_available
  /\ (exists report, Pdf.generateHTMLContent blank_strengths = Returned report
                     /\ Pdf.strengths report = VArr []).
Proof.
  repeat split. eexists. split; vm_compute; reflexivity.
Qed.

(** The items of a sequence of strings. *)
Lemma mapM_array_items (l : list jsstring) :
  mapM Pdf.array_item (List.map VStr l)
  = Returned (List.map (fun s => Pdf.bullet_item (trim s)) l).
Proof.
  induction l as [|s l IH]; [reflexivity|].
  cbn [List.map mapM]. rewrite IH. reflexivity.
Qed.

(** C7, as amended.  A sequence of strings gives one item for each
    element, in the order of the sequence, holding the element with the
    white space around it stripped and nothing else changed: an element
    is not split again, and a leading enumeration marker stays (only the
    pieces of a single string have it removed).  So a sequence of
    entries without white space around them is reproduced as it is. *)
Theorem formatToBulletPoints_sequence (entries : list jsstring) :
  Pdf.formatToBulletPoints (VArr (List.map VStr entries))
  = Returned (join (List.map (fun s => Pdf.bullet_item (trim s)) entries))
  /\ (Forall (fun s => trim s = s) entries ->
      Pdf.formatToBulletPoints (VArr (List.map VStr entries))
      = Returned (join (List.map Pdf.bullet_item entries))).
Proof.
  assert (H : Pdf.formatToBulletPoints (VArr (List.map VStr entries))
              = Returned (join (List.map (fun s => Pdf.bullet_item (trim s))
                                         entries))).
  { unfold Pdf.formatToBulletPoints. cbn [truthy negb].
    rewrite mapM_array_items. reflexivity. }
  split; [exact H|].
  intros Ht. rewrite H. clear H. do 2 f_equal.
  induction Ht as [|s l Hs _ IH]; [reflexivity|].
  cbn [List.map]. rewrite Hs, IH. reflexivity.
Qed.

Lemma formatToBulletPoints_sequence_witness :
  Pdf.formatToBulletPoints
    (VArr (List.map VStr [js "Budget early, and often"; js "2. Apply for a visa"]))
  = Returned (join (List.map Pdf.bullet_item
                      [js "Budget early, and often"; js "2. Apply for a visa"])).
Proof.
  apply (proj2 (formatToBulletPoints_sequence
                  [js "Budget early, and often"; js "2. Apply for a visa"])).
  repeat constructor.
Defined.

(** C7, as stated, fails: the enumeration marker of an element of a
    sequence is kept, where the claim has it stripped. *)
Lemma formatToBulletPoints_keeps_marker :
  Pdf.formatToBulletPoints (VArr [VStr (js "1. Budget early")])
  = Returned (Pdf.bullet_item (js "1. Budget early"))
  /\ strip_leading_number (trim (js "1. Budget early")) = js "Budget early"
  /\ Pdf.formatToBulletPoints (VArr [VStr (js "1. Budget early")])
     <> Returned (Pdf.bullet_item
                    (strip_leading_number (trim (js "1. Budget early")))).
Proof.
  split; [reflexivity|]. split; [reflexivity|]. vm_compute. discriminate.
Qed.

(* ================================================================== *)
(** * The name of the attachment (C8) *)
(* ================================================================== *)

Lemma replace_spaces_word (sep word s : jsstring) (in_run : bool) :
  no_space word -> word <> [] ->
  replace_spaces_aux sep in_run (word ++ s)
  = word ++ replace_spaces_aux sep false s.
Proof.
  intros Hw. revert in_run.
  induction Hw as [|c w Hc Hw IH]; intros in_run Hne; [congruence|].
  simpl. rewrite Hc. f_equal.
  destruct w as [|d w]; [reflexivity|]. apply IH. discriminate.
Qed.

(** Inside a run of white space nothing is written; its first code
    unit writes the separator. *)
Lemma replace_spaces_skip (sep run s : jsstring) :
  all_space run ->
  replace_spaces_aux sep true (run ++ s) = replace_spaces_aux sep true s.
Proof.
  induction 1 as [|c r Hc _ IH]; [reflexivity|]. simpl. now rewrite Hc.
Qed.

Lemma replace_spaces_run (sep run s : jsstring) :
  all_space run -> run <> [] ->
  replace_spaces_aux sep false (run ++ s)
  = sep ++ replace_spaces_aux sep true s.
Proof.
  intros Hr Hne. destruct Hr as [|c r Hc Hr]; [congruence|].
  simpl. rewrite Hc. f_equal. now apply replace_spaces_skip.
Qed.

(** Runs and words in turn. *)
Lemma replace_spaces_rest (sep : jsstring) (rest : list (jsstring * jsstring)) :
  well_spaced rest ->
  replace_spaces_aux sep false
    (List.concat (List.map (fun rw => fst rw ++ snd rw) rest))
  = List.concat (List.map (fun rw => sep ++ snd rw) rest).
Proof.
  induction rest as [|[run word] rest IH]; [reflexivity|].
  intros (Hne & Hrun & Hword & Hlast & Hrest).
  cbn [List.map List.concat fst snd].
  rewrite <- !app_assoc. rewrite replace_spaces_run by assumption. f_equal.
  destruct word as [|c w].
  - rewrite (Hlast eq_refl). reflexivity.
  - rewrite replace_spaces_word by (assumption || discriminate).
    f_equal. now apply IH.
Qed.

Lemma replace_spaces_spaced (sep first : jsstring)
      (rest : list (jsstring * jsstring)) :
  no_space first -> well_spaced rest ->
  replace_spaces sep (spaced first rest)
  = first ++ List.concat (List.map (fun rw => sep ++ snd rw) rest).
Proof.
  intros Hf Hr. unfold replace_spaces, spaced.
  destruct first as [|c w].
  - simpl. now apply replace_spaces_rest.
  - rewrite replace_spaces_word by (assumption || discriminate).
    f_equal. now apply replace_spaces_rest.
Qed.

(** C8, as amended.  The file name is the name of the student with
    every maximal run of white space replaced by one hyphen, in lower
    case, between the prefix psychometric-report- and the suffix .pdf.
    Code units that are not white space are kept, punctuation
    included.  (Names of code units below 256, where the model of
    toLowerCase is exact.) *)
Theorem filename_hyphenates_white_space
        (results : value) (first : jsstring) (rest : list (jsstring * jsstring)) :
  or_else (get results "Student Name") (get results "studentName")
    = VStr (spaced first rest) ->
  no_space first -> well_spaced rest ->
  Forall (fun c => (c < 256)%N) (spaced first rest) ->
  Pdf.filename results
  = Returned (js "psychometric-report-"
              ++ toLowerCase (hyphenated first rest) ++ js ".pdf").
Proof.
  intros Hname Hf Hr _. unfold Pdf.filename. rewrite Hname.
  rewrite replace_spaces_spaced by assumption. reflexivity.
Qed.

Lemma filename_hyphenates_white_space_witness :
  Pdf.filename (named (js "Asha  Rao-Iyer, Jr."))
  = Returned (js "psychometric-report-asha-rao-iyer,-jr..pdf").
Proof.
  apply (filename_hyphenates_white_space
           (named (js "Asha  Rao-Iyer, Jr."))
           (js "Asha") [(js "  ", js "Rao-Iyer,"); (js " ", js "Jr.")]).
  - reflexivity.
  - repeat constructor.
  - cbn [well_spaced]. repeat split; try discriminate; repeat constructor.
  - vm_compute. repeat constructor.
Defined.

(** C8, as stated, fails: a run of two full stops stays as it is, where
    the claim has one separator for it. *)
Lemma filename_keeps_punctuation :
  Pdf.filename (named (js "a..b")) = Returned (js "psychometric-report-a..b.pdf")
  /\ ~ (exists sep,
          Pdf.filename (named (js "a..b"))
          = Returned (js "psychometric-report-"
                      ++ Spec.collapse sep (js "a..b") ++ js ".pdf")).
Proof.
  split; [vm_compute; reflexivity|].
  intros [sep H]. vm_compute in H. discriminate.
Qed.

(* ================================================================== *)
(** * The dimension and the score of a topic, at the edges *)
(* ================================================================== *)

(** X1.  Renaming a section to its dimension is idempotent: the
    dimension of a section is a dimension of its own, with the same
    weight, so the old and the new section names of one dimension get
    the same line.  A section the table does not know keeps its name and
    gets the weight 0, and the weights are 0, 10, 15, 20 and 25.  (For
    section names that are no inherited property names, which the lookup
    of the source would find.) *)
Theorem dimension_is_idempotent (topicName : jsstring) :
  ~ In topicName (List.map js Analyze.inherited) ->
  Analyze.dimension (fst (Analyze.dimension topicName))
  = Analyze.dimension topicName
  /\ (~ In topicName
         (List.map (fun entry => js (fst entry)) Analyze.frameworkMapping) ->
      Analyze.dimension topicName = (topicName, 0))
  /\ In (snd (Analyze.dimension topicName)) [0; 10; 15; 20; 25].
Proof.
  intros _. unfold Analyze.dimension, Analyze.frameworkMapping.
  cbn [find fst snd List.map].
  repeat match goal with
         | |- context [str_eqb (js ?k) topicName] =>
             let H := fresh "H" in
             destruct (str_eqb (js k) topicName) eqn:H;
             [apply str_eqb_eq in H; subst topicName;
              split; [vm_compute; reflexivity|];
              split; [intros Hn; exfalso; apply Hn; simpl; tauto|simpl; tauto]|]
         end.
  split; [|split; [reflexivity|simpl; tauto]].
  cbn [fst].
  repeat match goal with
         | H : str_eqb _ topicName = false |- _ => rewrite H; clear H
         end.
  reflexivity.
Qed.

Lemma dimension_is_idempotent_witness :
  Analyze.dimension (fst (Analyze.dimension (js "Cultural Adaptability")))
  = Analyze.dimension (js "Cultural Adaptability")
  /\ Analyze.dimension (js "Cultural Adaptability")
     = (js "Personal & Cultural Readiness", 15).
Proof.
  split; [|reflexivity].
  apply (dimension_is_idempotent (js "Cultural Adaptability")).
  vm_compute. intros H. not_in H.
Defined.

(** X2.  The interpretation of a score that is not an integer of
    [0,100]: the chain of conditionals is applied to every integer as it
    is, so a score above 100 reads Excellent and a negative one Needs
    Improvement; NaN, for which every comparison is false, and minus
    infinity read Needs Improvement, and plus infinity reads
    Excellent. *)
Theorem interpretation_of_any_score :
  (forall k, Z.abs k < 2 ^ 53 ->
     Analyze.interpretation (of_Z k) = label_of_score k)
  /\ Analyze.interpretation NaN = js "Needs Improvement"
  /\ Analyze.interpretation (S754_infinity false) = js "Excellent"
  /\ Analyze.interpretation (S754_infinity true) = js "Needs Improvement".
Proof.
  split; [|repeat split].
  intros k Hk. unfold Analyze.interpretation, label_of_score.
  rewrite !geb_of_Z by (assumption || reflexivity). reflexivity.
Qed.

Lemma interpretation_of_any_score_witness :
  Analyze.interpretation (of_Z 120) = js "Excellent"
  /\ Analyze.interpretation (of_Z (-20)) = js "Needs Improvement".
Proof.
  split.
  - apply (proj1 interpretation_of_any_score 120). reflexivity.
  - apply (proj1 interpretation_of_any_score (-20)). reflexivity.
Defined.

(** A double of at most 53 digits divided by itself is 1: the quotient
    of the mantissas is 2^53, with no remainder. *)
Lemma div_canon_self (s : bool) (p : positive) :
  Z.pos (Pos.size p) <= 53 ->
  div (canon s p) (canon s p) = of_Z 1.
Proof.
  intros Hd. unfold canon, div. cbn [SFdiv].
  set (m := shl p (Z.to_nat (53 - Z.pos (Pos.size p)))).
  set (e := Z.pos (Pos.size p) - 53).
  unfold SFdiv_core_binary.
  replace (Zdigits2 (Z.pos m) + e - (Zdigits2 (Z.pos m) + e)) with 0 by lia.
  replace (e - e) with 0 by lia.
  change (IntDef.Z.min (fexp prec emax 0) 0) with (-53).
  cbn [Z.sub Z.opp Z.add].
  change (IntDef.Z.shiftl (Z.pos m) 53) with (Z.shiftl (Z.pos m) 53).
  change IntDef.Z.div_eucl with Z.div_eucl.
  rewrite Z.shiftl_mul_pow2 by lia.
  assert (Hq : Z.pos m * 2 ^ 53 / Z.pos m = 2 ^ 53).
  { rewrite Z.mul_comm. apply Z.div_mul. lia. }
  assert (Hr : (Z.pos m * 2 ^ 53) mod Z.pos m = 0).
  { rewrite Z.mul_comm. apply Z.mod_mul. lia. }
  unfold Z.div in Hq. unfold Z.modulo in Hr.
  destruct (Z.div_eucl (Z.pos m * 2 ^ 53) (Z.pos m)) as [q r].
  simpl in Hq, Hr. subst q r.
  unfold new_location.
  assert (Hloc : (if IntDef.Z.even (Z.pos m)
                  then new_location_even (Z.pos m)
                  else new_location_odd (Z.pos m)) 0 = loc_Exact).
  { destruct (IntDef.Z.even (Z.pos m)); reflexivity. }
  rewrite Hloc. rewrite xorb_nilpotent.
  change (Z.pow_pos 2 53) with (Z.pos (shl 1 53)).
  rewrite (binary_round_aux_exact false 1 53 (-53)) by (cbn; lia).
  reflexivity.
Qed.

Lemma div_of_Z_self (t : Z) : 0 < t < 2 ^ 53 -> div (of_Z t) (of_Z t) = of_Z 1.
Proof.
  intros H. destruct t as [|p|p]; try lia.
  rewrite of_Z_pos by (apply size_le_53; lia).
  apply div_canon_self. apply size_le_53. lia.
Qed.

(** X3.  The score at the edges, for every number of questions below
    2^53: all answers correct score exactly 100 and read Excellent, none
    correct scores 0 and reads Needs Improvement.  A topic without
    questions is no error: with a positive count of correct answers its
    score is plus infinity, with a negative one minus infinity. *)
Theorem score_at_the_edges :
  (forall total, 0 < total < 2 ^ 53 ->
     Analyze.score (topic_of total total) = of_Z 100
     /\ Analyze.interpretation (Analyze.score (topic_of total total))
        = js "Excellent")
  /\ (forall total, 0 < total < 2 ^ 53 ->
        Analyze.score (topic_of 0 total) = of_Z 0
        /\ Analyze.interpretation (Analyze.score (topic_of 0 total))
           = js "Needs Improvement")
  /\ (forall correct, 0 < correct < 2 ^ 53 ->
        Analyze.score (topic_of correct 0) = S754_infinity false)
  /\ (forall correct, - 2 ^ 53 < correct < 0 ->
        Analyze.score (topic_of correct 0) = S754_infinity true).
Proof.
  split; [|split; [|split]].
  - intros total H.
    assert (H100 : Analyze.score (topic_of total total) = of_Z 100).
    { unfold Analyze.score, topic_of. cbn [Analyze.correct Analyze.total].
      rewrite div_of_Z_self by assumption.
      rewrite mul_of_Z by lia. apply Math_round_of_Z. lia. }
    rewrite H100. split; reflexivity.
  - intros total H.
    assert (H0 : Analyze.score (topic_of 0 total) = of_Z 0).
    { unfold Analyze.score, topic_of. cbn [Analyze.correct Analyze.total].
      destruct total as [|p|p]; try lia.
      rewrite of_Z_pos by (apply size_le_53; lia). reflexivity. }
    rewrite H0. split; reflexivity.
  - intros c Hc. destruct c as [|p|p]; try lia.
    unfold topic_of, Analyze.score. cbn [Analyze.correct Analyze.total].
    rewrite of_Z_pos by (apply size_le_53; lia). reflexivity.
  - intros c Hc. destruct c as [|p|p]; try lia.
    unfold topic_of, Analyze.score. cbn [Analyze.correct Analyze.total].
    rewrite of_Z_neg by (apply size_le_53; lia). reflexivity.
Qed.

Lemma score_at_the_edges_witness :
  Analyze.score (topic_of 7 7) = of_Z 100
  /\ Analyze.score (topic_of 0 7) = of_Z 0
  /\ Analyze.score (topic_of 3 0) = S754_infinity false.
Proof.
  split; [|split].
  - apply (proj1 score_at_the_edges 7). lia.
  - apply (proj1 (proj2 score_at_the_edges) 7). lia.
  - apply (proj1 (proj2 (proj2 score_at_the_edges)) 3). lia.
Defined.

(* ================================================================== *)
(** * Rounding in binary64: quotients and products that are not exact *)
(* ================================================================== *)

(** One step of the shift halves the mantissa and doubles the
    denominator. *)
Lemma shr_1_located (mrs : shr_record) (num den : Z) :
  0 <= shr_m mrs -> 0 < den ->
  located (shr_m mrs) (loc_of_shr_record mrs) num den ->
  shr_m (shr_1 mrs) = shr_m mrs / 2
  /\ located (shr_m (shr_1 mrs)) (loc_of_shr_record (shr_1 mrs)) num (2 * den).
Proof.
  destruct mrs as [m r s]. cbn [shr_m]. intros Hm Hden H.
  destruct m as [|[p|p|]|p]; try lia; cbn [shr_1 shr_m].
  - split; [reflexivity|].
    destruct r, s; cbn [orb loc_of_shr_record located] in *; lia.
  - split; [rewrite Pos2Z.inj_xI; apply (Z.div_unique _ 2 _ 1); lia|].
    rewrite Pos2Z.inj_xI in H.
    destruct r, s; cbn [orb loc_of_shr_record located] in *; lia.
  - split; [rewrite Pos2Z.inj_xO; apply (Z.div_unique _ 2 _ 0); lia|].
    rewrite Pos2Z.inj_xO in H.
    destruct r, s; cbn [orb loc_of_shr_record located] in *; lia.
  - split; [reflexivity|].
    destruct r, s; cbn [orb loc_of_shr_record located] in *; lia.
Qed.

(** [k] steps of the shift. *)
Lemma shr_located (k : nat) (mrs : shr_record) (num den : Z) :
  0 <= shr_m mrs -> 0 < den ->
  located (shr_m mrs) (loc_of_shr_record mrs) num den ->
  shr_m (Nat.iter k shr_1 mrs) = shr_m mrs / 2 ^ Z.of_nat k
  /\ located (shr_m (Nat.iter k shr_1 mrs))
             (loc_of_shr_record (Nat.iter k shr_1 mrs))
             num (den * 2 ^ Z.of_nat k).
Proof.
  intros Hm Hden H. induction k as [|k [IHm IHl]].
  - cbn [Nat.iter Z.of_nat]. rewrite Z.pow_0_r, Z.div_1_r, Z.mul_1_r. now split.
  - rewrite Nat.iter_succ.
    assert (Hpow : 0 < 2 ^ Z.of_nat k) by (apply Z.pow_pos_nonneg; lia).
    assert (Hk : 0 <= shr_m (Nat.iter k shr_1 mrs)).
    { rewrite IHm. apply Z.div_pos; lia. }
    destruct (shr_1_located _ num (den * 2 ^ Z.of_nat k) Hk ltac:(nia) IHl)
      as [Hm' Hl'].
    rewrite Nat2Z.inj_succ, Z.pow_succ_r by lia. split.
    + rewrite Hm', IHm, Z.div_div by lia. f_equal. lia.
    + replace (den * (2 * 2 ^ Z.of_nat k)) with (2 * (den * 2 ^ Z.of_nat k)) by lia.
      exact Hl'.
Qed.

(** The location of a record made from a location. *)
Lemma loc_of_shr_record_of_loc (m : Z) (l : location) :
  loc_of_shr_record (shr_record_of_loc m l) = l
  /\ shr_m (shr_record_of_loc m l) = m.
Proof. destruct l as [|[| |]]; split; reflexivity. Qed.

(** Rounding to nearest: the mantissa chosen is within one half. *)
Lemma round_nearest_even_located (m : Z) (l : location) (num den : Z) :
  0 < den -> located m l num den ->
  m <= round_nearest_even m l <= m + 1
  /\ Z.abs (2 * num - 2 * round_nearest_even m l * den) <= den.
Proof.
  intros Hden H. destruct l as [|[| |]]; cbn [round_nearest_even located] in *.
  - split; lia.
  - destruct (IntDef.Z.even m); split; lia.
  - split; lia.
  - split; lia.
Qed.

(** The first shift of the rounding: to 53 digits. *)
Lemma shr_fexp_shift (m : positive) (e : Z) (l : location) :
  0 <= Z.pos (Pos.size m) - 53 ->
  -1074 <= e + (Z.pos (Pos.size m) - 53) ->
  shr_fexp prec emax (Z.pos m) e l
  = (Nat.iter (Z.to_nat (Z.pos (Pos.size m) - 53)) shr_1
       (shr_record_of_loc (Z.pos m) l),
     e + (Z.pos (Pos.size m) - 53)).
Proof.
  intros Hk He. unfold shr_fexp. cbn [Zdigits2].
  rewrite digits2_size, fexp_normal by lia.
  set (d := Z.pos (Pos.size m)) in *.
  replace (d + e - 53 - e) with (d - 53) by lia.
  unfold shr. destruct (d - 53) as [|q|q] eqn:Hn; [| |lia].
  - cbn [Z.to_nat Nat.iter]. f_equal. lia.
  - rewrite iter_pos_nat. reflexivity.
Qed.

(** Rounding a located quotient: the result is a double of 53 digits
    within half a unit of its last place of the quotient. *)
Lemma binary_round_aux_located (m : positive) (e : Z) (l : location)
      (num den : Z) :
  0 <= Z.pos (Pos.size m) - 53 ->
  -1074 <= e + (Z.pos (Pos.size m) - 53) ->
  e + (Z.pos (Pos.size m) - 53) + 1 <= 971 ->
  0 < den ->
  located (Z.pos m) l num den ->
  exists (M : positive) (j : Z),
    binary_round_aux prec emax false (Z.pos m) e l
    = S754_finite false M (e + (Z.pos (Pos.size m) - 53) + j)
    /\ Z.pos (Pos.size M) = 53
    /\ 0 <= j <= 1
    /\ (j = 1 -> Z.pos M = 2 ^ 52)
    /\ Z.abs (2 * num - 2 * (Z.pos M * 2 ^ j) * (den * 2 ^ (Z.pos (Pos.size m) - 53)))
       <= den * 2 ^ (Z.pos (Pos.size m) - 53).
Proof.
  intros Hk He Hmax Hden Hloc.
  set (k := Z.pos (Pos.size m) - 53) in *.
  unfold binary_round_aux. rewrite shr_fexp_shift by (fold k; lia). fold k.
  set (mrs := shr_record_of_loc (Z.pos m) l).
  destruct (loc_of_shr_record_of_loc (Z.pos m) l) as [Hl Hm]. fold mrs in Hl, Hm.
  assert (Hloc' : located (shr_m mrs) (loc_of_shr_record mrs) num den)
    by (rewrite Hl, Hm; exact Hloc).
  destruct (shr_located (Z.to_nat k) mrs num den ltac:(rewrite Hm; lia) Hden Hloc')
    as [HM1 Hloc1].
  rewrite Z2Nat.id in HM1, Hloc1 by lia. rewrite Hm in HM1.
  set (mrs1 := Nat.iter (Z.to_nat k) shr_1 mrs) in *.
  assert (Hpow : 0 < 2 ^ k) by (apply Z.pow_pos_nonneg; lia).
  pose proof (size_bounds m) as [Hlo Hhi].
  replace (Z.pos (Pos.size m)) with (53 + k) in Hhi by (unfold k; lia).
  replace (Z.pos (Pos.size m) - 1) with (52 + k) in Hlo by (unfold k; lia).
  rewrite Z.pow_add_r in Hlo, Hhi by lia.
  assert (HM1b : 2 ^ 52 <= shr_m mrs1 < 2 ^ 53).
  { rewrite HM1. split.
    - apply Z.div_le_lower_bound; lia.
    - apply Z.div_lt_upper_bound; lia. }
  destruct (round_nearest_even_located _ _ num (den * 2 ^ k) ltac:(nia) Hloc1)
    as [HR Hnear].
  set (R := round_nearest_even (shr_m mrs1) (loc_of_shr_record mrs1)) in *.
  destruct R as [|r|r] eqn:HRr; try lia.
  destruct (Z.eq_dec (Z.pos r) (2 ^ 53)) as [Hfull|Hless].
  - (* the mantissa has overflowed to 2^53 *)
    assert (Hr : r = shl 4503599627370496 1).
    { apply Pos2Z.inj. rewrite Hfull. reflexivity. }
    rewrite Hr.
    rewrite (shr_fexp_exact 4503599627370496 1 (e + k))
      by (cbn [Pos.size Pos.succ Z.of_nat Pos.of_succ_nat]; lia).
    exists 4503599627370496%positive, 1.
    split.
    { change (Z.pos (Pos.size 4503599627370496)) with 53.
      change (Z.of_nat 1) with 1. change (Z.to_nat (53 - 53)) with 0%nat.
      cbn [shr_m shl].
      replace (e + k + (53 + 1 - 53)) with (e + k + 1) by lia.
      destruct (Z.leb_spec (e + k + 1) (emax - prec)) as [_|H];
        [reflexivity|unfold emax, prec in H; lia]. }
    split; [reflexivity|]. split; [lia|]. split; [reflexivity|].
    change (Z.pos 4503599627370496 * 2 ^ 1) with (2 ^ 53). rewrite <- Hfull.
    exact Hnear.
  - assert (Hsz : Z.pos (Pos.size r) = 53).
    { apply size_unique. change (53 - 1) with 52. lia. }
    change r with (shl r 0) at 1.
    rewrite (shr_fexp_exact r 0 (e + k)) by (rewrite ?Hsz; cbn [Z.of_nat]; lia).
    rewrite Hsz. change (Z.of_nat 0) with 0.
    change (Z.to_nat (53 - 53)) with 0%nat. cbn [shr_m shl].
    exists r, 0. split.
    { replace (e + k + (53 + 0 - 53)) with (e + k + 0) by lia.
      destruct (Z.leb_spec (e + k + 0) (emax - prec)) as [_|H];
        [reflexivity|unfold emax, prec in H; lia]. }
    split; [exact Hsz|]. split; [lia|]. split; [lia|].
    rewrite Z.pow_0_r, Z.mul_1_r. exact Hnear.
Qed.

(** The quotient and the remainder of a division, located. *)
Lemma new_location_located (num den : Z) :
  0 <= num -> 0 < den ->
  located (num / den) (new_location den (num mod den)) num den.
Proof.
  intros Hn Hd.
  pose proof (Z.div_mod num den ltac:(lia)) as Hdm.
  pose proof (Z.mod_pos_bound num den Hd) as Hr.
  set (q := num / den) in *. set (r := num mod den) in *.
  unfold new_location, new_location_even, new_location_odd.
  change IntDef.Z.even with Z.even.
  destruct (Z.even den) eqn:He.
  - destruct (Z.eqb_spec r 0) as [H0|H0]; [cbn [located]; lia|].
    destruct (Z.compare_spec (2 * r) den); cbn [located]; lia.
  - destruct (Z.eqb_spec r 0) as [H0|H0]; [cbn [located]; lia|].
    assert (Hodd : Z.odd den = true) by (rewrite <- Z.negb_even, He; reflexivity).
    apply Z.odd_spec in Hodd as [x Hx].
    destruct (Z.compare_spec (2 * r + 1) den); cbn [located]; lia.
Qed.

(** The quotient of two integers below 2^53, the smaller by the
    greater. *)
Lemma div_canon_located (a b : positive) :
  Z.pos (Pos.size b) <= 53 -> Z.pos a < Z.pos b ->
  exists (M : positive) (B : Z),
    div (canon false a) (canon false b) = S754_finite false M (- B)
    /\ Z.pos (Pos.size M) = 53
    /\ 52 <= B <= 105
    /\ Z.pos M <= 2 ^ B
    /\ 2 ^ 54 * Z.abs (Z.pos a * 2 ^ B - Z.pos M * Z.pos b) <= Z.pos b * 2 ^ B.
Proof.
  intros Hb Hab.
  assert (Hsab : Z.pos (Pos.size a) <= Z.pos (Pos.size b)) by (apply size_mono; lia).
  assert (Ha : Z.pos (Pos.size a) <= 53) by lia.
  unfold canon, div. cbn [SFdiv xorb].
  set (sa := Z.pos (Pos.size a)) in *. set (sb := Z.pos (Pos.size b)) in *.
  assert (Hsa0 : 0 < sa) by (unfold sa; lia).
  assert (Hsb0 : 0 < sb) by (unfold sb; lia).
  set (u := Z.to_nat (53 - sa)). set (v := Z.to_nat (53 - sb)).
  set (ma := shl a u). set (mb := shl b v).
  assert (Hma : Z.pos ma = Z.pos a * 2 ^ Z.of_nat u) by apply shl_Z.
  assert (Hmb : Z.pos mb = Z.pos b * 2 ^ Z.of_nat v) by apply shl_Z.
  assert (Hsma : Z.pos (Pos.size ma) = 53).
  { unfold ma. rewrite size_shl. fold sa. lia. }
  assert (Hsmb : Z.pos (Pos.size mb) = 53).
  { unfold mb. rewrite size_shl. fold sb. lia. }
  pose proof (size_bounds ma) as Bma. rewrite Hsma in Bma.
  pose proof (size_bounds mb) as Bmb. rewrite Hsmb in Bmb.
  change (53 - 1) with 52 in Bma, Bmb.
  unfold SFdiv_core_binary. cbv zeta. cbn [Zdigits2].
  rewrite (digits2_size ma), (digits2_size mb), Hsma, Hsmb.
  change IntDef.Z.min with Z.min.
  replace (53 + (sa - 53) - (53 + (sb - 53))) with (sa - sb) by lia.
  rewrite fexp_normal by lia.
  replace (sa - 53 - (sb - 53)) with (sa - sb) by lia.
  rewrite Z.min_l by lia.
  replace (sa - sb - (sa - sb - 53)) with 53 by lia.
  cbv iota.
  change (IntDef.Z.shiftl (Z.pos ma) 53) with (Z.shiftl (Z.pos ma) 53).
  change IntDef.Z.div_eucl with Z.div_eucl.
  rewrite Z.shiftl_mul_pow2 by lia.
  set (num := Z.pos ma * 2 ^ 53).
  pose proof (new_location_located num (Z.pos mb) ltac:(unfold num; lia) ltac:(lia))
    as Hloc.
  pose proof (Z.div_mod num (Z.pos mb) ltac:(lia)) as Hdm.
  pose proof (Z.mod_pos_bound num (Z.pos mb) ltac:(lia)) as Hr.
  unfold Z.div, Z.modulo in Hloc, Hdm, Hr.
  destruct (Z.div_eucl num (Z.pos mb)) as [q r].
  (* the quotient has 53 or 54 digits *)
  assert (Hq : 2 ^ 52 <= q < 2 ^ 54).
  { unfold num in Hdm. split.
    - destruct (Z.le_gt_cases (2 ^ 52) q) as [|Hlt]; [assumption|exfalso].
      assert (Z.pos mb * (q + 1) <= Z.pos mb * 2 ^ 52) by (apply Z.mul_le_mono_nonneg_l; lia).
      assert (Z.pos mb * 2 ^ 52 < 2 ^ 53 * 2 ^ 52) by (apply Z.mul_lt_mono_pos_r; lia).
      assert (2 ^ 52 * 2 ^ 53 <= Z.pos ma * 2 ^ 53) by (apply Z.mul_le_mono_nonneg_r; lia).
      lia.
    - destruct (Z.lt_ge_cases q (2 ^ 54)) as [|Hge]; [assumption|exfalso].
      assert (Z.pos mb * 2 ^ 54 <= Z.pos mb * q) by (apply Z.mul_le_mono_nonneg_l; lia).
      assert (2 ^ 52 * 2 ^ 54 <= Z.pos mb * 2 ^ 54) by (apply Z.mul_le_mono_nonneg_r; lia).
      assert (Z.pos ma * 2 ^ 53 < 2 ^ 53 * 2 ^ 53) by (apply Z.mul_lt_mono_pos_r; lia).
      lia. }
  destruct q as [|qp|qp]; try lia.
  set (k := Z.pos (Pos.size qp) - 53).
  assert (Hk : 0 <= k <= 1).
  { unfold k. pose proof (size_bounds qp) as [Qlo Qhi].
    destruct (Z.le_gt_cases 53 (Z.pos (Pos.size qp))) as [H53|H53].
    - destruct (Z.le_gt_cases (Z.pos (Pos.size qp)) 54) as [H54|H54]; [lia|].
      assert (2 ^ 54 <= 2 ^ (Z.pos (Pos.size qp) - 1)) by (apply Z.pow_le_mono_r; lia).
      lia.
    - assert (2 ^ Z.pos (Pos.size qp) <= 2 ^ 52) by (apply Z.pow_le_mono_r; lia).
      lia. }
  (* with equally many digits the quotient is below 1, and has 53 digits *)
  assert (Hek : sa - sb - 53 + k <= -53).
  { destruct (Z.eq_dec sa sb) as [Heq|Hne]; [|lia].
    assert (Hklt : Z.pos qp < 2 ^ 53).
    { assert (Huv : u = v) by (unfold u, v; lia).
      assert (Hlt : Z.pos ma < Z.pos mb).
      { rewrite Hma, Hmb, Huv. apply Z.mul_lt_mono_pos_r; [|lia].
        apply Z.pow_pos_nonneg; lia. }
      destruct (Z.lt_ge_cases (Z.pos qp) (2 ^ 53)) as [|Hge]; [assumption|exfalso].
      assert (Z.pos mb * 2 ^ 53 <= Z.pos mb * Z.pos qp)
        by (apply Z.mul_le_mono_nonneg_l; lia).
      assert (Z.pos ma * 2 ^ 53 < Z.pos mb * 2 ^ 53)
        by (apply Z.mul_lt_mono_pos_r; lia).
      unfold num in Hdm. lia. }
    assert (Z.pos (Pos.size qp) = 53) by (apply size_unique; change (53 - 1) with 52; lia).
    unfold k. lia. }
  destruct (binary_round_aux_located qp (sa - sb - 53) _ num (Z.pos mb)
              ltac:(fold k; lia) ltac:(fold k; lia) ltac:(fold k; lia)
              ltac:(lia) Hloc)
    as (M & j & Hres & HsM & Hj & Hj1 & Hnear).
  fold k in Hres, Hnear.
  exists M, (- (sa - sb - 53 + k + j)).
  rewrite Z.opp_involutive.
  split; [exact Hres|]. split; [exact HsM|].
  set (B := - (sa - sb - 53 + k + j)).
  assert (HB : 52 <= B <= 105) by (unfold B; lia).
  split; [exact HB|].
  pose proof (size_bounds M) as BM. rewrite HsM in BM. change (53 - 1) with 52 in BM.
  split.
  { destruct (Z.eq_dec j 1) as [Hj1'|Hj0].
    - rewrite (Hj1 Hj1'). apply Z.pow_le_mono_r; lia.
    - assert (2 ^ 53 <= 2 ^ B) by (apply Z.pow_le_mono_r; unfold B; lia). lia. }
  (* the error *)
  assert (Hpu : 0 < 2 ^ Z.of_nat u) by (apply Z.pow_pos_nonneg; lia).
  assert (Hpv : 0 < 2 ^ Z.of_nat v) by (apply Z.pow_pos_nonneg; lia).
  assert (Hpk : 0 < 2 ^ k) by (apply Z.pow_pos_nonneg; lia).
  assert (Hpj : 1 <= 2 ^ j).
  { change 1 with (2 ^ 0). apply Z.pow_le_mono_r; lia. }
  assert (HpB : 0 < 2 ^ B) by (apply Z.pow_pos_nonneg; lia).
  assert (Hexp : 2 ^ Z.of_nat u * 2 ^ 53 = 2 ^ Z.of_nat v * 2 ^ B * 2 ^ k * 2 ^ j).
  { rewrite <- !Z.pow_add_r by lia. f_equal. unfold B, u, v. lia. }
  set (X := Z.pos a * 2 ^ B - Z.pos M * Z.pos b) in *.
  assert (Hfac : 2 * num - 2 * (Z.pos M * 2 ^ j) * (Z.pos mb * 2 ^ k)
                 = (2 ^ Z.of_nat v * 2 ^ k) * (2 * 2 ^ j * X)).
  { unfold num, X. rewrite Hma, Hmb.
    replace (Z.pos a * 2 ^ Z.of_nat u * 2 ^ 53)
      with (Z.pos a * (2 ^ Z.of_nat u * 2 ^ 53)) by ring.
    rewrite Hexp. ring. }
  rewrite Hfac, Z.abs_mul, Hmb in Hnear.
  rewrite (Z.abs_eq (2 ^ Z.of_nat v * 2 ^ k)) in Hnear by nia.
  replace (Z.pos b * 2 ^ Z.of_nat v * 2 ^ k)
    with ((2 ^ Z.of_nat v * 2 ^ k) * Z.pos b) in Hnear by ring.
  apply Z.mul_le_mono_pos_l in Hnear; [|nia].
  rewrite Z.abs_mul, (Z.abs_eq (2 * 2 ^ j)) in Hnear by lia.
  assert (H54 : 2 ^ 54 <= 2 ^ B * (2 * 2 ^ j)).
  { replace (2 ^ B * (2 * 2 ^ j)) with (2 ^ (B + 1 + j)).
    - apply Z.pow_le_mono_r; unfold B; lia.
    - rewrite !Z.pow_add_r by lia. change (2 ^ 1) with 2. ring. }
  assert (HX : 0 <= Z.abs X) by apply Z.abs_nonneg.
  assert (2 ^ 54 * Z.abs X <= 2 ^ B * (2 * 2 ^ j) * Z.abs X)
    by (apply Z.mul_le_mono_nonneg_r; lia).
  assert (2 ^ B * (2 * 2 ^ j * Z.abs X) <= 2 ^ B * Z.pos b)
    by (apply Z.mul_le_mono_nonneg_l; lia).
  lia.
Qed.

(** The arithmetic of the three roundings: the quotient, the product and
    the integer. *)
Lemma percentage_error (c t M M2 n alpha beta : Z) :
  0 < t -> 0 < beta -> 2 ^ 46 <= alpha ->
  2 ^ 54 * Z.abs (c * beta - M * t) <= t * beta ->
  2 * Z.abs (100 * M * alpha - M2 * beta) <= beta ->
  2 * alpha * n <= 2 * M2 + alpha < 2 * alpha * (n + 1) ->
  2 ^ 45 * (2 * Z.abs (n * t - 100 * c) - t) <= t.
Proof.
  intros Ht Hb Ha HD HM HR.
  set (x1 := 2 * alpha * n - 2 * M2).
  set (x2 := M2 * beta - 100 * M * alpha).
  set (x3 := M * t - c * beta).
  assert (Hx1 : Z.abs x1 <= alpha) by (unfold x1; lia).
  assert (Hx2 : 2 * Z.abs x2 <= beta) by (unfold x2; lia).
  assert (Hx3 : 2 ^ 54 * Z.abs x3 <= t * beta) by (unfold x3; lia).
  assert (Hid : 2 * alpha * beta * (n * t - 100 * c)
                = t * beta * x1 + 2 * t * x2 + 200 * alpha * x3)
    by (unfold x1, x2, x3; ring).
  set (y := n * t - 100 * c) in *.
  assert (Ha0 : 0 < alpha) by lia.
  assert (Hab : 0 < alpha * beta) by (apply Z.mul_pos_pos; assumption).
  assert (Htb : 0 < t * beta) by (apply Z.mul_pos_pos; assumption).
  (* the three terms *)
  assert (H1 : Z.abs (t * beta * x1) <= t * beta * alpha).
  { rewrite Z.abs_mul, (Z.abs_eq (t * beta)) by lia.
    apply Z.mul_le_mono_nonneg_l; [lia|exact Hx1]. }
  assert (H2 : Z.abs (2 * t * x2) <= t * beta).
  { rewrite Z.abs_mul, (Z.abs_eq (2 * t)) by lia.
    replace (2 * t * Z.abs x2) with (t * (2 * Z.abs x2)) by ring.
    apply Z.mul_le_mono_nonneg_l; [lia|exact Hx2]. }
  assert (H3 : 2 ^ 54 * Z.abs (200 * alpha * x3) <= 200 * (t * beta * alpha)).
  { rewrite Z.abs_mul, (Z.abs_eq (200 * alpha)) by lia.
    replace (2 ^ 54 * (200 * alpha * Z.abs x3))
      with (200 * alpha * (2 ^ 54 * Z.abs x3)) by ring.
    replace (200 * (t * beta * alpha)) with (200 * alpha * (t * beta)) by ring.
    apply Z.mul_le_mono_nonneg_l; [lia|exact Hx3]. }
  assert (Htri : Z.abs (2 * alpha * beta * y)
                 <= Z.abs (t * beta * x1) + Z.abs (2 * t * x2)
                    + Z.abs (200 * alpha * x3)).
  { rewrite Hid.
    eapply Z.le_trans; [apply Z.abs_triangle|].
    apply Z.add_le_mono_r. apply Z.abs_triangle. }
  rewrite Z.abs_mul, (Z.abs_eq (2 * alpha * beta)) in Htri
    by (apply Z.lt_le_incl, Z.mul_pos_pos; lia).
  assert (Hsmall : 2 ^ 54 * (t * beta) <= 2 ^ 8 * (t * beta * alpha)).
  { replace (2 ^ 8 * (t * beta * alpha)) with (2 ^ 8 * alpha * (t * beta)) by ring.
    apply Z.mul_le_mono_nonneg_r; [lia|]. change (2 ^ 54) with (2 ^ 8 * 2 ^ 46).
    apply Z.mul_le_mono_nonneg_l; lia. }
  assert (Hbig : 2 ^ 54 * (2 * (alpha * beta * Z.abs y) - t * beta * alpha)
                 <= 456 * (t * beta * alpha)).
  { replace (2 * alpha * beta * Z.abs y) with (2 * (alpha * beta * Z.abs y))
      in Htri by ring.
    generalize dependent (Z.abs (t * beta * x1)).
    generalize dependent (Z.abs (2 * t * x2)).
    generalize dependent (Z.abs (200 * alpha * x3)).
    generalize dependent (alpha * beta * Z.abs y).
    generalize dependent (t * beta * alpha).
    generalize dependent (t * beta).
    change (2 ^ 54) with 18014398509481984. change (2 ^ 8) with 256.
    intros. lia. }
  assert (Hcancel : 2 ^ 54 * (2 * Z.abs y - t) <= 456 * t).
  { apply (Z.mul_le_mono_pos_r _ _ (alpha * beta) Hab).
    replace (2 ^ 54 * (2 * Z.abs y - t) * (alpha * beta))
      with (2 ^ 54 * (2 * (alpha * beta * Z.abs y) - t * beta * alpha)) by ring.
    replace (456 * t * (alpha * beta)) with (456 * (t * beta * alpha)) by ring.
    exact Hbig. }
  change (2 ^ 54) with (2 ^ 9 * 2 ^ 45) in Hcancel. lia.
Qed.

(** A quotient of at most 1, times 100. *)
Lemma mul_100_located (M : positive) (B : Z) :
  Z.pos (Pos.size M) = 53 -> 52 <= B <= 105 -> Z.pos M <= 2 ^ B ->
  exists (M2 : positive) (A : Z),
    mul (S754_finite false M (- B)) (of_Z 100) = S754_finite false M2 (- A)
    /\ 46 <= A <= 99
    /\ Z.pos M2 <= 100 * 2 ^ A
    /\ 2 * Z.abs (100 * Z.pos M * 2 ^ A - Z.pos M2 * 2 ^ B) <= 2 ^ B.
Proof.
  intros HsM HB HM.
  change (of_Z 100) with (S754_finite false 7036874417766400 (-46)).
  unfold mul. cbn [SFmul xorb].
  set (P := (M * 7036874417766400)%positive).
  assert (HP : Z.pos P = Z.pos M * (100 * 2 ^ 46)).
  { unfold P. rewrite Pos2Z.inj_mul. reflexivity. }
  pose proof (size_bounds M) as BM. rewrite HsM in BM. change (53 - 1) with 52 in BM.
  assert (HpB : 0 < 2 ^ B) by (apply Z.pow_pos_nonneg; lia).
  (* the product has 105 or 106 digits, and no more than B + 53 *)
  assert (HPlo : 2 ^ 104 <= Z.pos P).
  { rewrite HP. change (2 ^ 104) with (2 ^ 52 * 2 ^ 52).
    apply Z.mul_le_mono_nonneg; lia. }
  assert (HPhi : Z.pos P < 2 ^ 106).
  { rewrite HP. change (2 ^ 106) with (2 ^ 53 * 2 ^ 53).
    apply Z.mul_lt_mono_nonneg; lia. }
  assert (HPB : Z.pos P < 2 ^ (B + 53)).
  { rewrite HP, Z.pow_add_r by lia.
    apply Z.le_lt_trans with (2 ^ B * (100 * 2 ^ 46)).
    - apply Z.mul_le_mono_nonneg_r; lia.
    - apply Z.mul_lt_mono_pos_l; [exact HpB|reflexivity]. }
  set (k := Z.pos (Pos.size P) - 53).
  pose proof (size_bounds P) as [Plo Phi].
  assert (Hk : 52 <= k <= 53 /\ k <= B).
  { unfold k. repeat split.
    - destruct (Z.le_gt_cases 105 (Z.pos (Pos.size P))) as [|Hlt]; [lia|].
      assert (2 ^ Z.pos (Pos.size P) <= 2 ^ 104) by (apply Z.pow_le_mono_r; lia).
      lia.
    - destruct (Z.le_gt_cases (Z.pos (Pos.size P)) 106) as [|Hgt]; [lia|].
      assert (2 ^ 106 <= 2 ^ (Z.pos (Pos.size P) - 1)) by (apply Z.pow_le_mono_r; lia).
      lia.
    - destruct (Z.le_gt_cases (Z.pos (Pos.size P)) (B + 53)) as [|Hgt]; [lia|].
      assert (2 ^ (B + 53) <= 2 ^ (Z.pos (Pos.size P) - 1))
        by (apply Z.pow_le_mono_r; lia).
      lia. }
  destruct Hk as [Hk HkB].
  assert (Hloc : located (Z.pos P) loc_Exact (Z.pos P) 1)
    by (cbn [located]; lia).
  destruct (binary_round_aux_located P (- B + -46) loc_Exact (Z.pos P) 1
              ltac:(fold k; lia) ltac:(fold k; lia) ltac:(fold k; lia)
              ltac:(lia) Hloc)
    as (M2 & j & Hres & HsM2 & Hj & _ & Hnear).
  fold k in Hres, Hnear.
  set (A := - (- B + -46 + k + j)).
  exists M2, A. unfold A at 1. rewrite Z.opp_involutive.
  split; [exact Hres|].
  pose proof (size_bounds M2) as BM2. rewrite HsM2 in BM2.
  change (53 - 1) with 52 in BM2.
  assert (HA0 : 0 <= A) by (unfold A; lia).
  assert (HpA : 0 < 2 ^ A) by (apply Z.pow_pos_nonneg; lia).
  assert (Hpk : 0 < 2 ^ k) by (apply Z.pow_pos_nonneg; lia).
  assert (Hpj : 0 < 2 ^ j) by (apply Z.pow_pos_nonneg; lia).
  (* the error, at the scale of the result *)
  set (Y := 100 * Z.pos M * 2 ^ A - Z.pos M2 * 2 ^ B).
  assert (Hexp : 2 ^ j * 2 ^ k * 2 ^ A = 2 ^ B * 2 ^ 46).
  { rewrite <- !Z.pow_add_r by lia. f_equal. unfold A. lia. }
  assert (Hfac : (2 * Z.pos P - 2 * (Z.pos M2 * 2 ^ j) * (1 * 2 ^ k)) * 2 ^ A
                 = 2 ^ 46 * (2 * Y)).
  { transitivity (2 * Z.pos P * 2 ^ A
                  - 2 * Z.pos M2 * (2 ^ j * 2 ^ k * 2 ^ A)); [ring|].
    rewrite Hexp, HP. unfold Y. ring. }
  assert (HY : 2 * Z.abs Y <= 2 ^ B).
  { assert (H1 : Z.abs (2 * Z.pos P - 2 * (Z.pos M2 * 2 ^ j) * (1 * 2 ^ k)) * 2 ^ A
                 <= 1 * 2 ^ k * 2 ^ A)
      by (apply Z.mul_le_mono_nonneg_r; [lia|exact Hnear]).
    rewrite <- (Z.abs_eq (2 ^ A)) in H1 at 1 by lia.
    rewrite <- Z.abs_mul, Hfac, Z.abs_mul, (Z.abs_eq (2 ^ 46)) in H1 by lia.
    rewrite Z.abs_mul, (Z.abs_eq 2) in H1 by lia.
    assert (H2 : 1 * 2 ^ k * 2 ^ A <= 2 ^ 46 * 2 ^ B).
    { replace (2 ^ 46 * 2 ^ B) with (2 ^ j * (1 * 2 ^ k * 2 ^ A))
        by (transitivity (2 ^ j * 2 ^ k * 2 ^ A); [ring|rewrite Hexp; ring]).
      assert (0 < 1 * 2 ^ k * 2 ^ A) by (rewrite Z.mul_1_l; apply Z.mul_pos_pos; lia).
      assert (1 <= 2 ^ j) by lia.
      replace (1 * 2 ^ k * 2 ^ A) with (1 * (1 * 2 ^ k * 2 ^ A)) at 1 by ring.
      apply Z.mul_le_mono_nonneg_r; lia. }
    apply (Z.mul_le_mono_pos_l _ _ (2 ^ 46)); lia. }
  (* the product is at most 100 *)
  assert (HM2 : Z.pos M2 <= 100 * 2 ^ A).
  { assert (H1 : 2 * (Z.pos M2 * 2 ^ B) <= 2 * (100 * Z.pos M * 2 ^ A) + 2 ^ B)
      by (unfold Y in HY; lia).
    assert (H2 : 100 * Z.pos M * 2 ^ A <= 100 * 2 ^ A * 2 ^ B).
    { replace (100 * Z.pos M * 2 ^ A) with (100 * 2 ^ A * Z.pos M) by ring.
      apply Z.mul_le_mono_nonneg_l; lia. }
    assert (H3 : 2 ^ B * (2 * Z.pos M2) < 2 ^ B * (2 * (100 * 2 ^ A) + 2)).
    { replace (2 ^ B * (2 * Z.pos M2)) with (2 * (Z.pos M2 * 2 ^ B)) by ring.
      replace (2 ^ B * (2 * (100 * 2 ^ A) + 2))
        with (2 * (100 * 2 ^ A * 2 ^ B) + 2 ^ B + 2 ^ B) by ring.
      lia. }
    apply Z.mul_lt_mono_pos_l in H3; lia. }
  assert (HA : 46 <= A <= 99).
  { split; [|unfold A; lia].
    destruct (Z.le_gt_cases 46 A) as [|Hlt]; [assumption|exfalso].
    assert (2 ^ A <= 2 ^ 45) by (apply Z.pow_le_mono_r; lia).
    assert (100 * 2 ^ 45 < 2 ^ 52) by reflexivity. lia. }
  split; [exact HA|]. split; [exact HM2|exact HY].
Qed.

(** [Math.round] of a positive double with a fraction. *)
Lemma Math_round_fraction (M : positive) (A : Z) :
  0 < A ->
  Math_round (S754_finite false M (- A))
  = of_Z ((2 * Z.pos M + 2 ^ A) / 2 ^ (A + 1)).
Proof.
  intros HA. cbn [Math_round].
  destruct (Z.leb_spec 0 (- A)) as [|_]; [lia|].
  rewrite Z.opp_involutive, Z.shiftr_div_pow2 by lia.
  destruct (Z.eqb_spec ((2 * Z.pos M + 2 ^ A) / 2 ^ (A + 1)) 0) as [->|];
    reflexivity.
Qed.

(** The score of a topic with fewer correct answers than questions. *)
Lemma score_located (c t : Z) :
  0 < c < t -> t < 2 ^ 53 ->
  exists n,
    Analyze.score (topic_of c t) = of_Z n
    /\ 0 <= n <= 100
    /\ 2 ^ 45 * (2 * Z.abs (n * t - 100 * c) - t) <= t.
Proof.
  intros Hc Ht.
  destruct c as [|a|a]; try lia. destruct t as [|b|b]; try lia.
  unfold Analyze.score, topic_of. cbn [Analyze.correct Analyze.total].
  assert (Hsb : Z.pos (Pos.size b) <= 53) by (apply size_le_53; lia).
  rewrite (of_Z_pos a), (of_Z_pos b) by (apply size_le_53; lia).
  destruct (div_canon_located a b Hsb ltac:(lia))
    as (M & B & -> & HsM & HB & HM & HD).
  destruct (mul_100_located M B HsM HB HM) as (M2 & A & -> & HA & HM2 & HY).
  rewrite Math_round_fraction by lia.
  assert (HpA : 0 < 2 ^ A) by (apply Z.pow_pos_nonneg; lia).
  assert (HpB : 0 < 2 ^ B) by (apply Z.pow_pos_nonneg; lia).
  assert (HpA1 : 2 ^ (A + 1) = 2 * 2 ^ A).
  { rewrite Z.pow_add_r by lia. change (2 ^ 1) with 2. ring. }
  set (n := (2 * Z.pos M2 + 2 ^ A) / 2 ^ (A + 1)).
  assert (Hn : 2 * 2 ^ A * n <= 2 * Z.pos M2 + 2 ^ A < 2 * 2 ^ A * (n + 1)).
  { pose proof (Z.div_mod (2 * Z.pos M2 + 2 ^ A) (2 ^ (A + 1)) ltac:(lia)) as Hdm.
    pose proof (Z.mod_pos_bound (2 * Z.pos M2 + 2 ^ A) (2 ^ (A + 1)) ltac:(lia)) as Hr.
    fold n in Hdm. rewrite HpA1 in *. lia. }
  exists n. split; [reflexivity|]. split.
  - split.
    + apply Z.div_pos; lia.
    + assert (n < 101); [|lia]. apply Z.div_lt_upper_bound; [lia|].
      rewrite HpA1. lia.
  - apply (percentage_error (Z.pos a) (Z.pos b) (Z.pos M) (Z.pos M2) n
             (2 ^ A) (2 ^ B)); try lia; try assumption.
    apply Z.pow_le_mono_r; lia.
Qed.

(* ================================================================== *)
(** * The score of a topic (C5) *)
(* ================================================================== *)

(** C5, as amended.  The source has no validation of a category result
    and no failure for it: the score is [Math.round] of the double
    product (correct / total) * 100 whatever the two numbers are, and
    the line of the prompt is written with it.  For integers
    0 <= correct <= total with 0 < total < 2^53 it is an integer of
    [0,100] that differs from 100 * correct / total by at most
    1/2 + 2^-46; correct = 6 with total = 5 gives 120, a negative count
    a negative score, total = 0 infinity or NaN; and an exact half can
    round down, since the double product may fall just below it (23 of
    40 gives 57).  From 2^53 on, where a double no longer holds every
    integer, the bound of the error fails: there is a total below 2^54
    with a score further from 100 * correct / total. *)
Theorem score_without_validation :
  (forall c t, 0 <= c <= t -> 0 < t < 2 ^ 53 ->
     exists n, Analyze.score (topic_of c t) = of_Z n
               /\ 0 <= n <= 100
               /\ 2 ^ 45 * (2 * Z.abs (n * t - 100 * c) - t) <= t)
  /\ (forall topic,
        Analyze.is_inherited (Analyze.name topic) = false ->
        exists line,
          Analyze.topic_line topic = Returned line
          /\ Analyze.line_score line = Analyze.score topic)
  /\ Analyze.score (topic_of 6 5) = of_Z 120
  /\ Analyze.score (topic_of (-1) 5) = of_Z (-20)
  /\ Analyze.score (topic_of 1 0) = S754_infinity false
  /\ Analyze.score (topic_of 0 0) = NaN
  /\ Analyze.score (topic_of 23 40) = of_Z 57
  /\ (2 ^ 53 <= 10701805860257643 < 2 ^ 54
      /\ Analyze.score (topic_of 9792152362135745 10701805860257643) = of_Z 91
      /\ 10701805860257643
         < 2 ^ 45 * (2 * Z.abs (91 * 10701805860257643 - 100 * 9792152362135745)
                     - 10701805860257643)).
Proof.
  split; [|split; [|do 5 (split; [vm_compute; reflexivity|]);
                    split; [split; [vm_compute; discriminate|reflexivity]|];
                    split; [vm_compute; reflexivity|reflexivity]]].
  - intros c t Hc Ht.
    destruct (Z.eq_dec c 0) as [->|Hc0].
    { exists 0. split; [|split; lia].
      unfold Analyze.score, topic_of. cbn [Analyze.correct Analyze.total].
      destruct t as [|p|p]; try lia.
      rewrite of_Z_pos by (apply size_le_53; lia). reflexivity. }
    destruct (Z.eq_dec c t) as [->|Hct].
    { exists 100. split; [|split; lia].
      unfold Analyze.score, topic_of. cbn [Analyze.correct Analyze.total].
      rewrite div_of_Z_self by assumption.
      rewrite mul_of_Z by lia. apply Math_round_of_Z. lia. }
    apply score_located; lia.
  - intros topic Hname. unfold Analyze.topic_line. rewrite Hname.
    eexists. split; reflexivity.
Qed.

Lemma score_without_validation_witness :
  exists n, Analyze.score (topic_of 3 4) = of_Z n
            /\ 0 <= n <= 100
            /\ 2 ^ 45 * (2 * Z.abs (n * 4 - 100 * 3) - 4) <= 4.
Proof.
  apply (proj1 score_without_validation 3 4); lia.
Defined.

(** C5, as stated, fails: 6 correct answers out of 5 are InvalidInput
    for the specification; the source computes 120 and the handler
    answers the request with the report of the collaborator. *)
Lemma score_accepts_6_of_5 :
  Spec.normalize 6 5 = None
  /\ Analyze.score (topic_of 6 5) = of_Z 120
  /\ exists body,
       Analyze.POST (Some (js "key")) (replies (prose ++ report_text))
                    (student [topic_of 6 5])
       = Analyze.Json200 body.
Proof.
  split; [reflexivity|]. split; [vm_compute; reflexivity|].
  eexists. vm_compute. reflexivity.
Qed.

(* ================================================================== *)
(** * The text of the reply and the object in it *)
(* ================================================================== *)

(** X4.  The text taken from a completion is never empty.  Without
    [choices] the read of its first element throws; with no first
    choice, or a first choice without a message, the optional chain
    gives undefined and the handler fails with Empty response from LLM;
    otherwise the content decides: a non-empty string is the text, a
    falsy content is an empty response, and any other content fails
    where the text is used as a string. *)
Theorem generatedText_cases (completion : list (jsstring * value)) :
  (forall text, Analyze.generatedText completion = Returned text -> text <> [])
  /\ (is_nullish (lookup (js "choices") completion) = true ->
      Analyze.generatedText completion = Thrown TypeError)
  /\ (lookup (js "choices") completion = VArr [] ->
      Analyze.generatedText completion = Thrown empty_response)
  /\ (forall choice others,
        lookup (js "choices") completion = VArr (choice :: others) ->
        is_nullish (get choice "message") = true ->
        Analyze.generatedText completion = Thrown empty_response)
  /\ (forall choice others content,
        lookup (js "choices") completion = VArr (choice :: others) ->
        get (get choice "message") "content" = content ->
        Analyze.generatedText completion
        = match content with
          | VStr (c :: text) => Returned (c :: text)
          | _ => if truthy content then Thrown TypeError
                 else Thrown empty_response
          end).
Proof.
  unfold Analyze.generatedText. cbn [get].
  split; [|split; [|split; [|split]]].
  - intros text. destruct (is_nullish _); [discriminate|].
    destruct (or_else _ _) as [| |b|x|s|items|props] eqn:Ho;
      cbn [truthy negb];
      try discriminate.
    + destruct b; discriminate.
    + destruct x; try discriminate.
    + destruct s; [discriminate|]. intros H. injection H as <-. discriminate.
  - intros H. now rewrite H.
  - intros H. rewrite H. reflexivity.
  - intros choice others H Hm. rewrite H. cbn [is_nullish Analyze.first_item].
    unfold Analyze.get_opt at 2.
    destruct choice; cbn [is_nullish get] in *; try reflexivity.
    unfold Analyze.get_opt. rewrite Hm. reflexivity.
  - intros choice others content H Hc. rewrite H.
    cbn [is_nullish Analyze.first_item].
    assert (Ho : Analyze.get_opt (Analyze.get_opt choice "message") "content"
                 = content).
    { unfold Analyze.get_opt.
      destruct choice; cbn [is_nullish get] in *; try (subst; reflexivity).
      destruct (lookup (js "message") props); cbn [is_nullish get] in *;
        subst; reflexivity. }
    rewrite Ho. unfold or_else.
    destruct content as [| |b|x|s|items|props]; cbn [truthy negb]; try reflexivity.
    + destruct b; reflexivity.
    + destruct x; try reflexivity.
    + destruct s; reflexivity.
Qed.

Lemma generatedText_cases_witness :
  Analyze.generatedText [(js "choices", VArr [])] = Thrown empty_response
  /\ Analyze.generatedText
       [(js "choices", VArr [VObj [(js "message", VObj [(js "content", VNum (of_Z 5))])]])]
     = Thrown TypeError.
Proof.
  split.
  - apply (proj1 (proj2 (proj2 (generatedText_cases [(js "choices", VArr [])])))).
    reflexivity.
  - apply (proj2 (proj2 (proj2 (proj2 (generatedText_cases
             [(js "choices",
               VArr [VObj [(js "message",
                            VObj [(js "content", VNum (of_Z 5))])]])]))))
             (VObj [(js "message", VObj [(js "content", VNum (of_Z 5))])])
             [] (VNum (of_Z 5))); reflexivity.
Defined.

(** X5.  Extraction is idempotent: the span that is matched starts with
    an opening brace and ends with a closing brace, matching it again
    gives the span itself, and extraction from the span gives what
    extraction from the whole text gives. *)
Theorem jsonMatch_is_idempotent (text span : jsstring) :
  Analyze.jsonMatch text = Some span ->
  Analyze.jsonMatch span = Some span
  /\ Analyze.extract span = Analyze.extract text
  /\ hd_error span = Some open_brace
  /\ last span open_brace = close_brace.
Proof.
  intros H. pose proof H as H0.
  apply jsonMatch_some in H as (pre & mid & post & -> & -> & Hpre & Hpost).
  assert (Hs : Analyze.jsonMatch (open_brace :: mid ++ [close_brace])
               = Some (open_brace :: mid ++ [close_brace])).
  { apply (jsonMatch_span [] mid []); intros []. }
  split; [exact Hs|]. split; [|split; [reflexivity|]].
  - unfold Analyze.extract. now rewrite Hs, H0.
  - change (open_brace :: mid ++ [close_brace])
      with ((open_brace :: mid) ++ [close_brace]).
    apply last_last.
Qed.

Lemma jsonMatch_is_idempotent_witness :
  Analyze.jsonMatch report_text = Some report_text
  /\ Analyze.extract report_text = Analyze.extract (prose ++ report_text).
Proof.
  assert (H : Analyze.jsonMatch (prose ++ report_text) = Some report_text)
    by (vm_compute; reflexivity).
  split.
  - exact (proj1 (jsonMatch_is_idempotent _ _ H)).
  - exact (proj1 (proj2 (jsonMatch_is_idempotent _ _ H))).
Defined.

(* ================================================================== *)
(** * What the handler of analyze-results answers with status 200 *)
(* ================================================================== *)

(** A report that passes the validator is returned as it is, and all
    seven tests have found their field. *)
Lemma validate_returned (llmResult report : value) :
  Analyze.validate llmResult = Returned report ->
  report = llmResult
  /\ Forall (fun f => snd f = true) (supplied llmResult).
Proof.
  unfold Analyze.validate, supplied.
  destruct (truthy (get llmResult "Student Name")),
           (truthy (get llmResult "studentName"));
    cbn [negb andb orb]; try discriminate;
    (destruct (truthy (get llmResult "Scores")),
              (truthy (get llmResult "scores"));
     cbn [negb andb orb]; try discriminate);
    (destruct (truthy (get llmResult "Overall Readiness Index"));
     cbn [negb]; [|discriminate]);
    (destruct (truthy (get llmResult "Readiness Level"));
     cbn [negb]; [|discriminate]);
    (destruct (truthy (get llmResult "Strengths"));
     cbn [negb]; [|discriminate]);
    (destruct (truthy (get llmResult "Gaps"));
     cbn [negb]; [|discriminate]);
    (destruct (truthy (get llmResult "Recommendations"));
     cbn [negb]; [|discriminate]);
    intros H; injection H as <-; (split; [reflexivity|]);
    repeat constructor.
Qed.

(** A completion is returned by a model that resolved before its
    timer. *)
Lemma call_models_returned (create : jsstring -> Analyze.Promise)
      (completion : list (jsstring * value)) :
  Analyze.call_models create = Returned completion ->
  exists model after_ms,
    In model Analyze.models
    /\ create model = Analyze.Resolves after_ms completion
    /\ (after_ms < Analyze.timeout_ms)%N.
Proof.
  unfold Analyze.call_models, Analyze.models. simpl Analyze.try_models.
  destruct (Analyze.race (create (js "sonar-pro"))) as [c|m] eqn:Hp; simpl.
  - intros H. injection H as ->. apply race_succeeded in Hp as (t & Hc & Ht).
    exists (js "sonar-pro"), t. split; [now left|]. split; assumption.
  - destruct (Analyze.race (create (js "sonar"))) as [c|m'] eqn:Ha; simpl;
      [|discriminate].
    intros H. injection H as ->. apply race_succeeded in Ha as (t & Hc & Ht).
    exists (js "sonar"), t. split; [right; now left|]. split; assumption.
Qed.

(** The text of a completion is not empty. *)
Lemma generatedText_nonempty (completion : list (jsstring * value))
      (text : jsstring) :
  Analyze.generatedText completion = Returned text -> text <> [].
Proof.
  unfold Analyze.generatedText.
  destruct (is_nullish _); [discriminate|].
  destruct (or_else _ _) as [| |b|x|s|items|props] eqn:Ho;
    cbn [truthy negb];
    try discriminate.
  - destruct b; discriminate.
  - destruct x; try discriminate.
  - destruct s; [discriminate|]. intros H. injection H as <-. discriminate.
Qed.

(** A property that is not [undefined] is written, and read back as
    what [JSON.stringify] writes for it. *)
Lemma get_serialized (v : value) (k : string) :
  get v k <> VUndefined -> get (serialized v) k = serialized (get v k).
Proof.
  destruct v as [| |b|x|s|items|props]; cbn [get]; try congruence.
  induction props as [|[k' x] props IH]; cbn [lookup]; [congruence|].
  intros H. cbn [serialized] in *.
  destruct (str_eqb (js k) k') eqn:Hk.
  - destruct x; try congruence; cbn [lookup get]; rewrite Hk; reflexivity.
  - destruct x; cbn [lookup get]; rewrite ?Hk; apply IH; exact H.
Qed.

(** The chain of the handler, where it succeeds. *)
Lemma analyze_returned (apiKey : option jsstring)
      (create : list Analyze.TopicLine -> jsstring -> Analyze.Promise)
      (studentData : Analyze.StudentData) (report : value) :
  Analyze.analyze apiKey create studentData = Returned report
  <-> (exists key, apiKey = Some key /\ key <> [])
      /\ exists prompt completion text,
           Analyze.userPrompt studentData = Returned prompt
           /\ Analyze.call_models (create prompt) = Returned completion
           /\ Analyze.generatedText completion = Returned text
           /\ Analyze.extract text = Returned report
           /\ Analyze.validate report = Returned report.
Proof.
  unfold Analyze.analyze. split.
  - destruct apiKey as [[|k key]|]; try discriminate.
    destruct (Analyze.userPrompt studentData) as [prompt|e0] eqn:Hu;
      [|discriminate].
    cbn [bind].
    destruct (Analyze.call_models _) as [completion|e1] eqn:Hc; [|discriminate].
    cbn [bind].
    destruct (Analyze.generatedText completion) as [text|e2] eqn:Hg;
      [|discriminate].
    cbn [bind].
    destruct (Analyze.extract text) as [llmResult|e3] eqn:He; [|discriminate].
    cbn [bind]. intros Hv.
    pose proof (validate_returned _ _ Hv) as [-> _].
    split; [eexists; split; [reflexivity|discriminate]|].
    exists prompt, completion, text. repeat split; assumption.
  - intros [(key & -> & Hkey) (prompt & completion & text & Hu & Hc & Hg & He & Hv)].
    destruct key as [|k key]; [congruence|].
    rewrite Hu. cbn [bind]. rewrite Hc. cbn [bind]. rewrite Hg. cbn [bind].
    rewrite He. exact Hv.
Qed.

(** X6.  A status 200 of analyze-results is given only to a request with
    a user name whose prompt could be written, with a non-empty API key
    configured, and its body is what the chain of the handler produced:
    what [JSON.stringify] writes for a JSON object, extracted from the
    non-empty text of the completion of a model that resolved before
    its timer, in which all seven required fields are truthy.  Each of
    these fields is written in the body as [JSON.stringify] writes its
    value: a string and a finite number as they are, a number that is
    not finite as null. *)
Theorem POST_200_is_a_validated_object
        (apiKey : option jsstring)
        (create : list Analyze.TopicLine -> jsstring -> Analyze.Promise)
        (studentData : Analyze.StudentData) (body : value) :
  Analyze.POST apiKey create studentData = Analyze.Json200 body ->
  Analyze.userName studentData <> []
  /\ (exists key, apiKey = Some key /\ key <> [])
  /\ exists prompt model after_ms completion text llmResult,
       Analyze.userPrompt studentData = Returned prompt
       /\ In model Analyze.models
       /\ create prompt model = Analyze.Resolves after_ms completion
       /\ (after_ms < Analyze.timeout_ms)%N
       /\ Analyze.generatedText completion = Returned text
       /\ text <> []
       /\ Analyze.extract text = Returned llmResult
       /\ (exists props, llmResult = VObj props)
       /\ Forall (fun f => snd f = true) (supplied llmResult)
       /\ body = serialized llmResult
       /\ (forall k s, get llmResult k = VStr s -> get body k = VStr s)
       /\ (forall k sign m e,
             get llmResult k = VNum (S754_finite sign m e) ->
             get body k = VNum (S754_finite sign m e))
       /\ (forall k sign,
             get llmResult k = VNum (S754_infinity sign) ->
             get body k = VNull)
       /\ (forall k, truthy (get llmResult k) = true ->
             get body k = serialized (get llmResult k)).
Proof.
  unfold Analyze.POST.
  destruct (Analyze.userName studentData) as [|c n]; [discriminate|].
  destruct (Analyze.analyze apiKey create studentData) as [report|e] eqn:Ha;
    [|discriminate].
  intros H. injection H as <-. split; [discriminate|].
  apply analyze_returned in Ha
    as [Hkey (prompt & completion & text & Hu & Hc & Hg & He & Hv)].
  split; [exact Hkey|].
  apply call_models_returned in Hc as (model & after_ms & Hin & Hcreate & Ht).
  exists prompt, model, after_ms, completion, text, report.
  split; [exact Hu|]. split; [exact Hin|]. split; [exact Hcreate|].
  split; [exact Ht|]. split; [exact Hg|].
  split; [exact (generatedText_nonempty _ _ Hg)|]. split; [exact He|].
  split.
  { unfold Analyze.extract in He.
    destruct (Analyze.jsonMatch text) as [span|] eqn:Hm; [|discriminate].
    apply jsonMatch_some in Hm as (pre & mid & post & _ & -> & _).
    destruct (JSON_parse _) as [v|] eqn:Hp; [|discriminate].
    injection He as <-. eapply JSON_parse_object. exact Hp. }
  split; [exact (proj2 (validate_returned _ _ Hv))|].
  split; [reflexivity|].
  split; [intros k s H; rewrite get_serialized, H by (rewrite H; discriminate);
          reflexivity|].
  split; [intros k sign m e H;
          rewrite get_serialized, H by (rewrite H; discriminate); reflexivity|].
  split; [intros k sign H;
          rewrite get_serialized, H by (rewrite H; discriminate); reflexivity|].
  intros k Hk. apply get_serialized. intros H. rewrite H in Hk. discriminate.
Qed.

Lemma POST_200_is_a_validated_object_witness :
  Analyze.POST (Some (js "key")) (replies (prose ++ report_text))
               (student [topic_of 6 5])
  = Analyze.Json200 asha_report
  /\ Analyze.userName (student [topic_of 6 5]) <> [].
Proof.
  assert (H : Analyze.POST (Some (js "key")) (replies (prose ++ report_text))
                           (student [topic_of 6 5])
              = Analyze.Json200 asha_report) by (vm_compute; reflexivity).
  split; [exact H|].
  exact (proj1 (POST_200_is_a_validated_object _ _ _ _ H)).
Defined.

(** X7.  What the validator of analyze-results accepts passes every
    presence test of generate-pdf: the request is not answered 400, and
    [generateHTMLContent] reaches its template with the index, the
    level, the strengths, the gaps and the recommendations of the
    report.  The converse fails: generate-pdf accepts a report whose
    index is 0, which the validator rejects. *)
Theorem validated_report_passes_the_pdf_tests :
  (forall llmResult report,
     Analyze.validate llmResult = Returned report ->
     Pdf.missing_student_name report = false
     /\ exists data,
          Pdf.generateHTMLContent report = Returned data
          /\ Pdf.overallIndex data = get report "Overall Readiness Index"
          /\ Pdf.readinessLevel data = get report "Readiness Level"
          /\ Pdf.strengths data = get report "Strengths"
          /\ Pdf.gaps data = get report "Gaps"
          /\ Pdf.recommendations data = get report "Recommendations")
  /\ (exists results data,
        Pdf.missing_student_name results = false
        /\ Pdf.generateHTMLContent results = Returned data
        /\ Analyze.validate results
           = Thrown (Analyze.missing "Overall Readiness Index")).
Proof.
  split.
  2:{ exists (index_zero ["Overall Readiness Index"; "overallIndex"]%string).
      eexists. split; [reflexivity|]. split; vm_compute; reflexivity. }
  intros llmResult report H. apply validate_returned in H as [-> H].
  unfold supplied in H.
  repeat match goal with
         | H : Forall _ (_ :: _) |- _ =>
             let H1 := fresh "T" in
             apply Forall_cons_iff in H as [H1 H]; cbn [snd] in H1
         end.
  clear H.
  assert (Hobj : is_nullish llmResult = false).
  { destruct llmResult; try reflexivity; discriminate T3. }
  unfold Pdf.missing_student_name, Pdf.generateHTMLContent.
  rewrite Hobj.
  assert (Hname : truthy (or_else (get llmResult "Student Name")
                                  (get llmResult "studentName")) = true).
  { unfold or_else. destruct (truthy (get llmResult "Student Name")) eqn:E;
      [exact E|exact T]. }
  assert (Hscores : truthy (or_else (or_else (get llmResult "scores")
                                             (get llmResult "Scores"))
                                    (get llmResult "Scores")) = true).
  { unfold or_else. destruct (truthy (get llmResult "scores")) eqn:E.
    - now rewrite E.
    - destruct (truthy (get llmResult "Scores")) eqn:E'; [now rewrite E'|].
      discriminate T0. }
  rewrite Hname, Hscores. cbn [negb].
  assert (Hor : forall a b, truthy a = true -> or_else a b = a).
  { intros a b Ha. unfold or_else. now rewrite Ha. }
  rewrite (Hor _ (get llmResult "overallIndex") T1).
  rewrite (Hor _ (get llmResult "readinessLevel") T2).
  rewrite T2, T3, T4, T5. cbn [negb].
  assert (Hu : Pdf.is_undefined (get llmResult "Overall Readiness Index") = false).
  { destruct (get llmResult "Overall Readiness Index"); try reflexivity.
    discriminate T1. }
  rewrite Hu. split.
  - apply andb_false_iff.
    destruct (truthy (get llmResult "Student Name")) eqn:E; [now left|].
    right. cbn [orb] in T. now rewrite T.
  - eexists. split; [reflexivity|]. repeat split.
Qed.

Lemma validated_report_passes_the_pdf_tests_witness :
  Pdf.missing_student_name asha_report = false
  /\ exists data, Pdf.generateHTMLContent asha_report = Returned data.
Proof.
  destruct (proj1 validated_report_passes_the_pdf_tests asha_report asha_report
              eq_refl) as [H400 [data [Hdata _]]].
  split; [exact H400|]. exists data. exact Hdata.
Defined.

(* ================================================================== *)
(** * The readiness level of a report (C1) *)
(* ================================================================== *)

(** Reading a property that has been written. *)
Lemma lookup_set_prop (k k' : jsstring) (v : value)
      (props : list (jsstring * value)) :
  lookup k (set_prop k' v props) = if str_eqb k k' then v else lookup k props.
Proof.
  induction props as [|[k0 v0] props IH]; cbn [set_prop lookup].
  - destruct (str_eqb k k'); reflexivity.
  - destruct (str_eqb k' k0) eqn:H0; cbn [lookup].
    + apply str_eqb_eq in H0. subst k0.
      destruct (str_eqb k k'); reflexivity.
    + destruct (str_eqb k k0) eqn:H1; [|exact IH].
      apply str_eqb_eq in H1. subst k0.
      destruct (str_eqb k k') eqn:H2; [|reflexivity].
      apply str_eqb_eq in H2. subst k'. rewrite str_eqb_refl in H0.
      discriminate H0.
Qed.

(** C1, as amended.  The handler computes no readiness level.  The
    ladder of the claim is the list READINESS LEVELS of the system
    prompt, an instruction to the collaborator: on the integers of
    [0,100] its six rows hold every index exactly once, with the level
    the claim gives it.  The validator asks for a truthy index and a
    truthy level and does not compare them: a reply that passes it
    passes it with any other truthy index and level.  The level and the
    index of a status 200 are those of the reply of the collaborator:
    a level that is a string and an index that is a finite number are
    answered as they are. *)
Theorem readiness_level_is_the_collaborators :
  (forall index, 0 <= index <= 100 ->
     levels_of index = [Spec.label (Spec.classifyTier index)])
  /\ (forall llmResult index level,
        Analyze.validate llmResult = Returned llmResult ->
        truthy index = true -> truthy level = true ->
        Analyze.validate (relabelled index level llmResult)
        = Returned (relabelled index level llmResult))
  /\ (forall apiKey create studentData body,
        Analyze.POST apiKey create studentData = Analyze.Json200 body ->
        exists prompt completion text llmResult,
          Analyze.userPrompt studentData = Returned prompt
          /\ Analyze.call_models (create prompt) = Returned completion
          /\ Analyze.generatedText completion = Returned text
          /\ Analyze.extract text = Returned llmResult
          /\ truthy (get llmResult "Readiness Level") = true
          /\ truthy (get llmResult "Overall Readiness Index") = true
          /\ (forall level,
                get llmResult "Readiness Level" = VStr level ->
                get body "Readiness Level" = VStr level)
          /\ (forall sign m e,
                get llmResult "Overall Readiness Index"
                = VNum (S754_finite sign m e) ->
                get body "Overall Readiness Index"
                = VNum (S754_finite sign m e))).
Proof.
  split; [|split].
  - intros index H. unfold levels_of, Analyze.READINESS_LEVELS, Spec.classifyTier.
    cbn [filter fst snd in_range].
    repeat match goal with
           | |- context [?a <=? ?b] => destruct (Z.leb_spec a b); try lia
           | |- context [?a <? ?b] => destruct (Z.ltb_spec a b); try lia
           end; reflexivity.
  - intros llmResult index level Hv Hi Hl.
    apply validate_returned in Hv as [_ Hall].
    unfold supplied in Hall.
    repeat match goal with
           | H : Forall _ (_ :: _) |- _ =>
               let H1 := fresh "T" in
               apply Forall_cons_iff in H as [H1 H]; cbn [snd] in H1
           end.
    clear Hall.
    destruct llmResult as [| |b|x|s|items|props]; try discriminate T1.
    unfold Analyze.validate, relabelled. cbn [get] in *.
    rewrite !lookup_set_prop. eval_keys.
    rewrite Hi, Hl, T3, T4, T5. cbn [negb andb].
    apply orb_true_iff in T. apply orb_true_iff in T0.
    destruct T as [-> | ->], T0 as [-> | ->]; cbn [negb andb];
      rewrite ?andb_false_r; reflexivity.
  - intros apiKey create studentData body. unfold Analyze.POST.
    destruct (Analyze.userName studentData) as [|c n]; [discriminate|].
    destruct (Analyze.analyze apiKey create studentData) as [report|e] eqn:Ha;
      [|discriminate].
    intros H. injection H as <-.
    apply analyze_returned in Ha
      as [_ (prompt & completion & text & Hu & Hc & Hg & He & Hv)].
    apply validate_returned in Hv as [_ Hall].
    unfold supplied in Hall.
    repeat match goal with
           | H : Forall _ (_ :: _) |- _ =>
               let H1 := fresh "T" in
               apply Forall_cons_iff in H as [H1 H]; cbn [snd] in H1
           end.
    exists prompt, completion, text, report.
    repeat (split; [assumption|]).
    split.
    + intros level H. rewrite get_serialized, H by (rewrite H; discriminate).
      reflexivity.
    + intros sign m e H. rewrite get_serialized, H by (rewrite H; discriminate).
      reflexivity.
Qed.

Lemma readiness_level_is_the_collaborators_witness :
  levels_of 40 = [js "Low Readiness"].
Proof.
  apply (proj1 readiness_level_is_the_collaborators 40). lia.
Defined.

(** C1, as stated, fails: for an index of 40 the ladder gives Low; a
    reply of the collaborator that calls it Excellent passes the
    validator, and the handler answers 200 with that index and that
    level. *)
Lemma readiness_level_is_not_checked :
  Spec.classifyTier 40 = Spec.Low
  /\ Analyze.POST (Some (js "key")) (replies (prose ++ mislabelled_text))
                  (student [topic_of 2 5])
     = Analyze.Json200 mislabelled_report
  /\ get mislabelled_report "Overall Readiness Index" = VNum (of_Z 40)
  /\ get mislabelled_report "Readiness Level" = VStr (Spec.label Spec.Excellent).
Proof.
  split; [reflexivity|]. split; [vm_compute; reflexivity|].
  split; reflexivity.
Qed.

(* ================================================================== *)
(** * The scores of the cards and of the charts *)
(* ================================================================== *)

Lemma or_else_coalesce (v : value) :
  or_else (coalesce v zero) zero = or_else v zero.
Proof. destruct v; reflexivity. Qed.

(** X8.  The scores a report is drawn with.  The score mapping is read
    from [scores] and, when that is falsy, from [Scores].  A card gets
    the score of its framework, or 0 when the mapping has none or null
    for it; the radar chart and the trend chart show the six frameworks
    in the order of the cards, with the same values in both, and 0 in
    the place of every falsy score, so what a chart shows is truthy or
    the number 0. *)
Theorem charts_show_zero_for_falsy_scores
        (results : value) (data : Pdf.ReportData) :
  Pdf.generateHTMLContent results = Returned data ->
  let scoresRaw := or_else (get results "scores") (get results "Scores") in
  truthy scoresRaw = true
  /\ [ Pdf.financialPlanning (Pdf.scores data);
       Pdf.academicReadiness (Pdf.scores data);
       Pdf.careerAlignment (Pdf.scores data);
       Pdf.personalCultural (Pdf.scores data);
       Pdf.practicalReadiness (Pdf.scores data);
       Pdf.supportSystem (Pdf.scores data) ]
     = List.map (fun framework => coalesce (get scoresRaw framework) zero)
                frameworks
  /\ List.map fst (Pdf.generateRadarChart (Pdf.scores data))
     = List.map js frameworks
  /\ List.map snd (Pdf.generateRadarChart (Pdf.scores data))
     = List.map (fun framework => or_else (get scoresRaw framework) zero)
                frameworks
  /\ List.map snd (Pdf.generateTrendChart (Pdf.scores data))
     = List.map snd (Pdf.generateRadarChart (Pdf.scores data))
  /\ Forall (fun shown => truthy shown = true \/ shown = zero)
            (List.map snd (Pdf.generateRadarChart (Pdf.scores data))).
Proof.
  intros H scoresRaw.
  assert (Hraw : or_else (or_else (get results "scores") (get results "Scores"))
                         (get results "Scores") = scoresRaw).
  { unfold scoresRaw, or_else.
    destruct (truthy (get results "scores")) eqn:E; [now rewrite E|].
    destruct (truthy (get results "Scores")); reflexivity. }
  unfold Pdf.generateHTMLContent in H. rewrite Hraw in H.
  destruct (is_nullish results); [discriminate|].
  destruct (negb (truthy (or_else _ _))); [discriminate|].
  destruct (truthy scoresRaw) eqn:Ht; [|discriminate]. cbn [negb] in H.
  destruct (Pdf.is_undefined _); [discriminate|].
  destruct (negb (truthy (or_else _ _))); [discriminate|].
  destruct (negb _); [discriminate|].
  destruct (negb _); [discriminate|].
  destruct (negb _); [discriminate|].
  injection H as <-.
  unfold Pdf.generateRadarChart, Pdf.generateTrendChart, frameworks.
  cbn [Pdf.scores Pdf.financialPlanning Pdf.academicReadiness Pdf.careerAlignment
       Pdf.personalCultural Pdf.practicalReadiness Pdf.supportSystem
       List.map fst snd].
  fold zero. rewrite !or_else_coalesce.
  split; [reflexivity|]. split; [reflexivity|]. split; [reflexivity|].
  split; [reflexivity|]. split; [reflexivity|].
  repeat (apply Forall_cons;
          [match goal with
           | |- truthy (or_else ?v zero) = true \/ _ =>
               unfold or_else; destruct (truthy v) eqn:E;
               [left; exact E|right; reflexivity]
           end|]).
  apply Forall_nil.
Qed.

Lemma charts_show_zero_for_falsy_scores_witness :
  exists data,
    Pdf.generateHTMLContent asha_report = Returned data
    /\ List.map snd (Pdf.generateRadarChart (Pdf.scores data))
       = [VNum (of_Z 120); zero; zero; zero; zero; zero].
Proof.
  eexists. split; [reflexivity|].
  exact (proj1 (proj2 (proj2 (proj2
           (charts_show_zero_for_falsy_scores asha_report _ eq_refl))))).
Defined.

(** X9.  A score card shows its score rounded to an integer, with no
    clamping to [0,100], and the class of its bar follows the rounded
    value: excellent from 80, good from 60, average from 40 and weak
    below, so 79.5 is shown as 80 and 79.49 as 79; a score that is NaN
    is shown as NaN with the class weak. *)
Theorem generateScoreCard_of_integer :
  (forall label weight k, Z.abs k < 2 ^ 53 ->
     Pdf.generateScoreCard label (of_Z k) weight
     = {| Pdf.scorecard_label := label;
          Pdf.scorecard_percentage := of_Z k;
          Pdf.scorecard_barClass := class_of_percentage k;
          Pdf.scorecard_weight := weight |})
  /\ (forall label weight,
        Pdf.generateScoreCard label NaN weight
        = {| Pdf.scorecard_label := label;
             Pdf.scorecard_percentage := NaN;
             Pdf.scorecard_barClass := js "weak";
             Pdf.scorecard_weight := weight |})
  /\ (forall label weight,
        Pdf.generateScoreCard label (of_decimal false 795 3 (-1)) weight
        = Pdf.generateScoreCard label (of_Z 80) weight
        /\ Pdf.generateScoreCard label (of_decimal false 7949 4 (-2)) weight
           = Pdf.generateScoreCard label (of_Z 79) weight).
Proof.
  split; [|split].
  - intros label weight k Hk. unfold Pdf.generateScoreCard.
    rewrite Math_round_of_Z by assumption. f_equal.
    unfold Pdf.barClass, class_of_percentage.
    rewrite !geb_of_Z by (assumption || reflexivity). reflexivity.
  - reflexivity.
  - intros label weight. split; vm_compute; reflexivity.
Qed.

Lemma generateScoreCard_of_integer_witness :
  Pdf.scorecard_percentage
    (Pdf.generateScoreCard (js "Financial Planning") (of_Z 120) (js "25%"))
  = of_Z 120
  /\ Pdf.scorecard_barClass
       (Pdf.generateScoreCard (js "Financial Planning") (of_Z 120) (js "25%"))
     = js "excellent".
Proof.
  rewrite (proj1 generateScoreCard_of_integer
             (js "Financial Planning") (js "25%") 120) by reflexivity.
  split; reflexivity.
Defined.

(** X10.  The weights of the two handlers.  A framework to which both
    give a weight gets the same weight from both; the weights of the six
    score cards are 25, 20, 20, 15, 10 and 10 percent, 100 in all. *)
Theorem weights_agree :
  (forall framework,
     snd (Analyze.dimension framework) <> 0 ->
     Pdf.getFrameworkWeight framework <> js "0%" ->
     Pdf.getFrameworkWeight framework
     = percent (snd (Analyze.dimension framework)))
  /\ List.map (fun name => Pdf.getFrameworkWeight (js name)) frameworks
     = List.map percent [25; 20; 20; 15; 10; 10]
  /\ fold_right Z.add 0 [25; 20; 20; 15; 10; 10] = 100.
Proof.
  split; [|split; reflexivity].
  intros framework. unfold Pdf.getFrameworkWeight.
  repeat match goal with
         | |- context [str_eqb framework (js ?k)] =>
             let H := fresh "H" in
             destruct (str_eqb framework (js k)) eqn:H;
             [apply str_eqb_eq in H; subst framework;
              try (intros _ _; vm_compute; reflexivity);
              try (intros Hw _; vm_compute in Hw; congruence)|]
         end.
  intros _ Hz. now contradiction Hz.
Qed.

Lemma weights_agree_witness :
  Pdf.getFrameworkWeight (js "Financial Planning") = js "25%"
  /\ snd (Analyze.dimension (js "Financial Planning")) = 25.
Proof.
  split; [|reflexivity].
  apply (proj1 weights_agree (js "Financial Planning")).
  - vm_compute. discriminate.
  - vm_compute. discriminate.
Defined.

(* ================================================================== *)
(** * Bullet points from a string *)
(* ================================================================== *)

(** A piece is read to its end, and ends the run before it. *)
Lemma split_aux_piece (delim : char -> bool) (piece s cur : jsstring)
      (in_run : bool) :
  free_of delim piece -> piece <> [] ->
  split_aux delim in_run cur (piece ++ s)
  = split_aux delim false (rev piece ++ cur) s.
Proof.
  intros Hp. revert in_run cur.
  induction Hp as [|c p Hc Hp IH]; intros in_run cur Hne; [congruence|].
  simpl. rewrite Hc. destruct p as [|d p].
  - reflexivity.
  - rewrite IH by discriminate. simpl. now rewrite <- !app_assoc.
Qed.

Lemma split_aux_skip (delim : char -> bool) (run s cur : jsstring) :
  Forall (fun c => delim c = true) run ->
  split_aux delim true cur (run ++ s) = split_aux delim true cur s.
Proof.
  induction 1 as [|c r Hc _ IH]; [reflexivity|]. simpl. now rewrite Hc.
Qed.

(** A run of delimiters ends the piece before it. *)
Lemma split_aux_run (delim : char -> bool) (run s cur : jsstring) :
  run_of delim run ->
  split_aux delim false cur (run ++ s) = rev cur :: split_aux delim true [] s.
Proof.
  intros [Hne Hr]. destruct Hr as [|c r Hc Hr]; [congruence|].
  simpl. rewrite Hc. f_equal. now apply split_aux_skip.
Qed.

Lemma split_aux_rest (delim : char -> bool) (rest : list (jsstring * jsstring))
      (cur : jsstring) :
  well_cut delim rest ->
  split_aux delim false cur
    (List.concat (List.map (fun rp => fst rp ++ snd rp) rest))
  = rev cur :: List.map snd rest.
Proof.
  revert cur. induction rest as [|[run piece] rest IH]; intros cur; [reflexivity|].
  intros (Hrun & Hpiece & Hlast & Hrest).
  cbn [List.map List.concat fst snd].
  rewrite <- !app_assoc. rewrite split_aux_run by assumption.
  destruct piece as [|c p].
  - rewrite (Hlast eq_refl). reflexivity.
  - rewrite split_aux_piece by (assumption || discriminate).
    rewrite app_nil_r. rewrite IH by assumption. now rewrite rev_involutive.
Qed.

(** [split] gives the pieces of a text. *)
Lemma split_pieces (delim : char -> bool) (first : jsstring)
      (rest : list (jsstring * jsstring)) :
  free_of delim first -> well_cut delim rest ->
  split delim (pieces_text first rest) = first :: List.map snd rest.
Proof.
  intros Hf Hr. unfold split, pieces_text.
  destruct first as [|c p].
  - simpl. now apply (split_aux_rest delim rest []).
  - rewrite split_aux_piece by (assumption || discriminate).
    rewrite app_nil_r, split_aux_rest by assumption. now rewrite rev_involutive.
Qed.

(** The branch of strings, for a text that is not empty and none of the
    three texts that stand for no content. *)
Lemma formatToBulletPoints_string (text : jsstring) :
  text <> [] -> Pdf.is_no_content text = false ->
  Pdf.formatToBulletPoints (VStr text)
  = Returned
      (join (List.map clean
               (if Nat.ltb 1 (List.length (filter Pdf.not_blank
                                             (split Pdf.is_sentence_end text)))
                then filter Pdf.not_blank (split Pdf.is_sentence_end text)
                else filter Pdf.not_blank (split Pdf.is_list_separator text)))).
Proof.
  intros Hne Hno. unfold Pdf.formatToBulletPoints.
  destruct text as [|c text]; [congruence|]. cbn [truthy negb].
  rewrite Hno. reflexivity.
Qed.

Lemma is_no_content_one_sentence (text : jsstring) :
  Pdf.is_no_content text = true ->
  split Pdf.is_sentence_end text = [text].
Proof.
  unfold Pdf.is_no_content. intros H.
  apply orb_true_iff in H as [H|H]; [apply orb_true_iff in H as [H|H]|];
    apply str_eqb_eq in H; subst text; reflexivity.
Qed.

(** X11.  A string with more than one sentence that is not blank gives
    one item for each such sentence, in their order: the sentence
    without the full stops, exclamation marks and question marks that
    end it, trimmed, and without a leading number.  So the number of an
    enumeration, which its full stop makes a sentence of its own, gives
    an empty item. *)
Theorem formatToBulletPoints_sentences
        (first : jsstring) (rest : list (jsstring * jsstring)) :
  free_of Pdf.is_sentence_end first ->
  well_cut Pdf.is_sentence_end rest ->
  (1 < List.length (filter Pdf.not_blank (first :: List.map snd rest)))%nat ->
  Pdf.formatToBulletPoints (VStr (pieces_text first rest))
  = Returned (join (List.map clean
                      (filter Pdf.not_blank (first :: List.map snd rest)))).
Proof.
  intros Hf Hr Hn.
  pose proof (split_pieces _ _ _ Hf Hr) as Hs.
  rewrite formatToBulletPoints_string.
  - rewrite Hs. apply Nat.ltb_lt in Hn. rewrite Hn. reflexivity.
  - intros H. rewrite H in Hs. unfold split in Hs. simpl in Hs.
    rewrite <- Hs in Hn. simpl in Hn. lia.
  - destruct (Pdf.is_no_content (pieces_text first rest)) eqn:Hno; [|reflexivity].
    apply is_no_content_one_sentence in Hno. rewrite Hno in Hs.
    rewrite <- Hs in Hn. simpl in Hn. destruct (Pdf.not_blank _); simpl in Hn; lia.
Qed.

Lemma formatToBulletPoints_sentences_witness :
  Pdf.formatToBulletPoints (VStr (js "1. Budget early. 2. Apply for a visa."))
  = Returned (Pdf.bullet_item []
              ++ Pdf.bullet_item (js "Budget early")
              ++ Pdf.bullet_item []
              ++ Pdf.bullet_item (js "Apply for a visa")).
Proof.
  apply (formatToBulletPoints_sentences
           (js "1")
           [ (js ".", js " Budget early"); (js ".", js " 2");
             (js ".", js " Apply for a visa"); (js ".", []) ]).
  - repeat constructor.
  - cbn [well_cut]. unfold run_of, free_of.
    repeat split; try discriminate; repeat constructor.
  - vm_compute. lia.
Defined.

(** X12.  A string with at most one sentence that is not blank is cut at
    its commas and semicolons instead: one item for each piece that is
    not blank, trimmed and without a leading number.  The text is cut as
    it is, so a full stop at its end stays in the last item. *)
Theorem formatToBulletPoints_list
        (first : jsstring) (rest : list (jsstring * jsstring)) :
  free_of Pdf.is_list_separator first ->
  well_cut Pdf.is_list_separator rest ->
  pieces_text first rest <> [] ->
  Pdf.is_no_content (pieces_text first rest) = false ->
  (List.length (filter Pdf.not_blank
                  (split Pdf.is_sentence_end (pieces_text first rest))) <= 1)%nat ->
  Pdf.formatToBulletPoints (VStr (pieces_text first rest))
  = Returned (join (List.map clean
                      (filter Pdf.not_blank (first :: List.map snd rest)))).
Proof.
  intros Hf Hr Hne Hno Hn.
  rewrite formatToBulletPoints_string by assumption.
  rewrite (split_pieces _ _ _ Hf Hr).
  destruct (Nat.ltb_spec 1 (List.length (filter Pdf.not_blank
             (split Pdf.is_sentence_end (pieces_text first rest))))); [lia|].
  reflexivity.
Qed.

Lemma formatToBulletPoints_list_witness :
  Pdf.formatToBulletPoints (VStr (js "Budget early, apply for a visa."))
  = Returned (Pdf.bullet_item (js "Budget early")
              ++ Pdf.bullet_item (js "apply for a visa.")).
Proof.
  apply (formatToBulletPoints_list
           (js "Budget early") [(js ",", js " apply for a visa.")]).
  - repeat constructor.
  - cbn [well_cut]. unfold run_of, free_of.
    repeat split; try discriminate; repeat constructor.
  - discriminate.
  - reflexivity.
  - vm_compute. lia.
Defined.

(** The pieces of a text hold nothing but what the text holds between
    its delimiters. *)
Lemma split_aux_within (delim : char -> bool) (P : char -> Prop) (s : jsstring) :
  Forall (fun c => delim c = true \/ P c) s ->
  forall in_run cur, Forall P cur ->
  Forall (Forall P) (split_aux delim in_run cur s).
Proof.
  induction 1 as [|c s Hc _ IH]; intros in_run cur Hcur; simpl.
  - constructor; [|constructor]. now apply Forall_rev.
  - destruct (delim c) eqn:Hd.
    + destruct in_run; [now apply IH|].
      constructor; [now apply Forall_rev|]. apply IH. constructor.
    + apply IH. constructor; [|exact Hcur]. destruct Hc; congruence.
Qed.

Lemma trim_blank (p : jsstring) :
  Forall (fun c => is_space c = true) p -> trim p = [].
Proof.
  intros H. unfold trim.
  assert (Hd : dropWhile is_space p = []).
  { induction H as [|c p Hc _ IH]; [reflexivity|]. simpl. now rewrite Hc. }
  now rewrite Hd.
Qed.

Lemma filter_blank (l : list jsstring) :
  Forall (Forall (fun c => is_space c = true)) l -> filter Pdf.not_blank l = [].
Proof.
  induction 1 as [|p l Hp _ IH]; [reflexivity|]. simpl.
  unfold Pdf.not_blank at 1. now rewrite (trim_blank p Hp).
Qed.

(** X13.  A string that is not empty and holds nothing but white space,
    commas and semicolons gives no item at all: no piece of it passes
    the filter, and the item Information not available, which stands for
    falsy input only, is not written. *)
Theorem formatToBulletPoints_blank (text : jsstring) :
  text <> [] ->
  Forall (fun c => is_space c = true \/ Pdf.is_list_separator c = true) text ->
  Pdf.formatToBulletPoints (VStr text) = Returned []
  /\ Pdf.formatToBulletPoints (VStr text) <> Returned Pdf.not_available.
Proof.
  intros Hne Hall.
  assert (H : Pdf.formatToBulletPoints (VStr text) = Returned []).
  { assert (Hfree : free_of Pdf.is_sentence_end text).
    { unfold free_of. eapply Forall_impl; [|exact Hall]. intros c [Hc|Hc].
      - unfold Pdf.is_sentence_end.
        destruct (N.eqb_spec c 46); [subst; discriminate|].
        destruct (N.eqb_spec c 33); [subst; discriminate|].
        destruct (N.eqb_spec c 63); [subst; discriminate|]. reflexivity.
      - unfold Pdf.is_list_separator in Hc. unfold Pdf.is_sentence_end.
        destruct (N.eqb_spec c 46); [subst; discriminate|].
        destruct (N.eqb_spec c 33); [subst; discriminate|].
        destruct (N.eqb_spec c 63); [subst; discriminate|]. reflexivity. }
    pose proof (split_pieces Pdf.is_sentence_end text [] Hfree I) as Hs.
    unfold pieces_text in Hs. simpl in Hs. rewrite app_nil_r in Hs.
    rewrite formatToBulletPoints_string.
    - rewrite Hs. simpl. destruct (Pdf.not_blank text); simpl;
        (rewrite filter_blank; [reflexivity|]);
        (apply split_aux_within; [|constructor]);
        (eapply Forall_impl; [|exact Hall]; intros c [Hc|Hc]; tauto).
    - exact Hne.
    - destruct (Pdf.is_no_content text) eqn:Hno; [|reflexivity].
      exfalso. unfold Pdf.is_no_content in Hno.
      destruct text as [|c text]; [congruence|].
      apply Forall_inv in Hall.
      assert (c = 78%N).
      { apply orb_true_iff in Hno as [Hno|Hno];
          [apply orb_true_iff in Hno as [Hno|Hno]|];
          apply str_eqb_eq in Hno; now injection Hno. }
      subst c. destruct Hall; discriminate. }
  split; [exact H|]. rewrite H. discriminate.
Qed.

Lemma formatToBulletPoints_blank_witness :
  Pdf.formatToBulletPoints (VStr (js " , ; ")) = Returned [].
Proof.
  apply (formatToBulletPoints_blank (js " , ; ")).
  - discriminate.
  - repeat (apply Forall_cons;
            [first [left; reflexivity|right; reflexivity]|]).
    apply Forall_nil.
Defined.

(* ================================================================== *)
(** * The country matrix and the country cards, entry by entry *)
(* ================================================================== *)

(** An entry that is null or undefined makes both helpers throw; any
    other entry gives an item, and the card of that item. *)
Lemma matrix_item_cases (countryData : value) (index : nat) :
  if is_nullish countryData
  then Pdf.matrix_item countryData index = Thrown TypeError
       /\ Pdf.generateCountryCard countryData index = Thrown TypeError
  else exists item,
         Pdf.matrix_item countryData index = Returned item
         /\ Pdf.matrix_rank item = (index + 1)%nat
         /\ Pdf.generateCountryCard countryData index = Returned (card_of item).
Proof.
  destruct countryData; simpl; try (split; reflexivity);
    eexists; (split; [reflexivity|]); split; reflexivity.
Qed.

Lemma map_index_matrix (countries : list value) (start : nat) :
  if existsb is_nullish countries
  then Pdf.map_index Pdf.matrix_item start countries = Thrown TypeError
       /\ Pdf.map_index Pdf.generateCountryCard start countries = Thrown TypeError
  else exists items,
         Pdf.map_index Pdf.matrix_item start countries = Returned items
         /\ List.map Pdf.matrix_rank items = seq (start + 1) (List.length countries)
         /\ Pdf.map_index Pdf.generateCountryCard start countries
            = Returned (List.map card_of items).
Proof.
  revert start. induction countries as [|x r IH]; intros start.
  - simpl. exists []. repeat split.
  - cbn [existsb Pdf.map_index].
    pose proof (matrix_item_cases x start) as Hx.
    destruct (is_nullish x) eqn:Hn; cbn [orb].
    + destruct Hx as [Hitem Hcard]. rewrite Hitem, Hcard. split; reflexivity.
    + destruct Hx as (item & Hitem & Hrank & Hcard). rewrite Hitem, Hcard.
      specialize (IH (S start)).
      destruct (existsb is_nullish r).
      * destruct IH as [H1 H2]. cbn [bind]. rewrite H1, H2. split; reflexivity.
      * destruct IH as (items & H1 & H2 & H3). cbn [bind]. rewrite H1, H3.
        exists (item :: items). split; [reflexivity|]. split; [|reflexivity].
        cbn [List.map List.length seq]. rewrite Hrank. f_equal.
        rewrite H2. f_equal.
Qed.

Lemma existsb_nullish (countries : list value) :
  existsb is_nullish countries = true
  <-> Exists (fun countryData => is_nullish countryData = true) countries.
Proof.
  rewrite existsb_exists, Exists_exists. reflexivity.
Qed.

(** X14.  An entry of the country list that is null or undefined makes
    the matrix and the cards throw a TypeError, and the matrix throws
    nothing else.  When the matrix is written it has one item for each
    entry, ranked 1, 2, 3, ... in the order of the list, and no entry
    is null or undefined. *)
Theorem generateCountryMatrix_ranks (countries : list value) :
  (Exists (fun countryData => is_nullish countryData = true) countries ->
     Pdf.generateCountryMatrix countries = Thrown TypeError
     /\ Pdf.generateCountryCards countries = Thrown TypeError)
  /\ (forall e, Pdf.generateCountryMatrix countries = Thrown e -> e = TypeError)
  /\ (forall items,
        Pdf.generateCountryMatrix countries = Returned items ->
        List.map Pdf.matrix_rank items = seq 1 (List.length countries)
        /\ Forall (fun countryData => is_nullish countryData = false) countries).
Proof.
  unfold Pdf.generateCountryMatrix, Pdf.generateCountryCards.
  pose proof (map_index_matrix countries 0) as H.
  pose proof (existsb_nullish countries) as Hex.
  destruct (existsb is_nullish countries) eqn:Hb.
  - destruct H as [H1 H2]. rewrite H1, H2.
    split; [intros _; split; reflexivity|].
    split; [intros e He; now injection He|discriminate].
  - destruct H as (items & H & Hranks & _). rewrite H.
    split; [intros Hx; apply Hex in Hx; discriminate|].
    split; [discriminate|]. intros items' Hi. injection Hi as <-.
    split; [exact Hranks|].
    apply Forall_forall. intros x Hin.
    destruct (is_nullish x) eqn:Hx; [|reflexivity].
    assert (Ht : existsb is_nullish countries = true)
      by (apply existsb_exists; eauto).
    congruence.
Qed.

Lemma generateCountryMatrix_ranks_witness :
  Pdf.generateCountryMatrix [VStr (js "Canada"); VNull] = Thrown TypeError.
Proof.
  apply (proj1 (generateCountryMatrix_ranks [VStr (js "Canada"); VNull])).
  apply Exists_cons_tl. apply Exists_cons_hd. reflexivity.
Defined.

(** X15.  The cards and the matrix agree: when both are written, the
    card of every entry shows the rank, the name and the match
    percentage that the item of the matrix shows for it. *)
Theorem cards_agree_with_matrix
        (countries : list value) (items : list Pdf.MatrixItem)
        (cards : list Pdf.CountryCard) :
  Pdf.generateCountryMatrix countries = Returned items ->
  Pdf.generateCountryCards countries = Returned cards ->
  cards = List.map card_of items.
Proof.
  unfold Pdf.generateCountryCards, Pdf.generateCountryMatrix.
  pose proof (map_index_matrix countries 0) as H.
  destruct (existsb is_nullish countries).
  - destruct H as [H1 _]. rewrite H1. discriminate.
  - destruct H as (items' & H1 & _ & H3). rewrite H1, H3.
    intros Hi Hc. injection Hi as <-. now injection Hc as <-.
Qed.

Lemma cards_agree_with_matrix_witness :
  exists items,
    Pdf.generateCountryMatrix
      [VStr (js "Canada"); VObj [(js "country", VStr (js "Ireland"))]]
    = Returned items
    /\ Pdf.generateCountryCards
         [VStr (js "Canada"); VObj [(js "country", VStr (js "Ireland"))]]
       = Returned (List.map card_of items).
Proof.
  eexists. split; [reflexivity|].
  rewrite <- (cards_agree_with_matrix
                [VStr (js "Canada"); VObj [(js "country", VStr (js "Ireland"))]]
                _ _ eq_refl eq_refl).
  reflexivity.
Defined.

(* ================================================================== *)
(** * The name of the attachment and white space *)
(* ================================================================== *)

Lemma lower_unit_no_space (c : char) :
  is_space c = false -> is_space (lower_unit c) = false.
Proof.
  intros H. unfold lower_unit.
  destruct ((N.leb 65 c && N.leb c 90)
            || (N.leb 192 c && N.leb c 222 && negb (N.eqb c 215))) eqn:Hc;
    [|exact H].
  assert (Hr : (65 <= c <= 90 \/ 192 <= c <= 222)%N).
  { apply orb_true_iff in Hc as [Hc|Hc].
    - apply andb_true_iff in Hc as [H1 H2].
      apply N.leb_le in H1, H2. lia.
    - apply andb_true_iff in Hc as [Hc _]. apply andb_true_iff in Hc as [H1 H2].
      apply N.leb_le in H1, H2. lia. }
  clear H Hc. unfold is_space.
  repeat match goal with
         | |- context [N.leb ?a ?b] => destruct (N.leb_spec a b); try lia
         | |- context [N.eqb ?a ?b] => destruct (N.eqb_spec a b); try lia
         end; reflexivity.
Qed.

Lemma no_space_check (s : jsstring) :
  forallb (fun c => negb (is_space c)) s = true -> no_space s.
Proof.
  intros H. apply Forall_forall. intros c Hc.
  rewrite forallb_forall in H. apply negb_true_iff. now apply H.
Qed.

(** The replacement leaves no white space, and keeps what is none. *)
Lemma replace_spaces_no_space (sep s : jsstring) (in_run : bool) :
  no_space sep -> no_space (replace_spaces_aux sep in_run s).
Proof.
  intros Hsep. revert in_run. unfold no_space.
  induction s as [|c s IH]; intros in_run; simpl; [constructor|].
  destruct (is_space c) eqn:Hc.
  - destruct in_run; [apply IH|]. apply Forall_app. split; [exact Hsep|apply IH].
  - constructor; [exact Hc|apply IH].
Qed.

Lemma replace_spaces_keeps (sep s : jsstring) (in_run : bool) (c : char) :
  is_space c = false -> In c s -> In c (replace_spaces_aux sep in_run s).
Proof.
  intros Hc. revert in_run. induction s as [|d s IH]; intros in_run; [intros []|].
  simpl. intros [->|Hin].
  - rewrite Hc. now left.
  - destruct (is_space d).
    + destruct in_run; [now apply IH|]. apply in_or_app. right. now apply IH.
    + right. now apply IH.
Qed.

(** X16.  The file name of the attachment holds no white space, so no
    line break of the name reaches the header; a double quote of the
    name is kept in it, inside the quoted value of the header.  (Names
    of code units below 256, where the model of toLowerCase is
    exact.) *)
Theorem filename_has_no_white_space (results : value) (studentName : jsstring) :
  or_else (get results "Student Name") (get results "studentName")
    = VStr studentName ->
  Forall (fun c => (c < 256)%N) studentName ->
  exists file,
    Pdf.filename results = Returned file
    /\ no_space file
    /\ (In double_quote studentName -> In double_quote file).
Proof.
  intros Hname _. unfold Pdf.filename. rewrite Hname.
  eexists. split; [reflexivity|]. split.
  - unfold no_space. apply Forall_app. split; [now apply no_space_check|].
    apply Forall_app. split; [|now apply no_space_check].
    unfold toLowerCase. apply Forall_map.
    eapply Forall_impl; [apply lower_unit_no_space|].
    apply replace_spaces_no_space. now apply no_space_check.
  - intros Hq. apply in_or_app. right. apply in_or_app. left.
    unfold toLowerCase. change double_quote with (lower_unit double_quote).
    apply in_map. apply replace_spaces_keeps; [reflexivity|exact Hq].
Qed.

Lemma filename_has_no_white_space_witness :
  exists file,
    Pdf.filename (named (jq "Asha 'Ash' Rao")) = Returned file
    /\ no_space file
    /\ (In double_quote (jq "Asha 'Ash' Rao") -> In double_quote file).
Proof.
  apply (filename_has_no_white_space
           (named (jq "Asha 'Ash' Rao")) (jq "Asha 'Ash' Rao")).
  - reflexivity.
  - apply Forall_forall. intros c Hc.
    apply (proj1 (forallb_forall (fun c => N.ltb c 256)
                                 (jq "Asha 'Ash' Rao")) eq_refl) in Hc.
    now apply N.ltb_lt.
Defined.

(* ================================================================== *)
(** * The second page and the analysis *)
(* ================================================================== *)

(** X17.  The strengths, the gaps and the recommendations are written on
    the second page only, and that page is written only for a country
    list that is not empty.  A report without a truthy country list is
    accepted, with the empty list in its place; its strengths, gaps and
    recommendations are required, and truthy, but no page shows them.
    With countries, the page shows what [formatToBulletPoints] makes of
    each of the three. *)
Theorem analysis_is_written_with_countries_only :
  (forall results data,
     Pdf.generateHTMLContent results = Returned data ->
     truthy (get results "Country Fit (Top 3)") = false ->
     Pdf.countryFit data = VArr []
     /\ truthy (Pdf.strengths data) = true
     /\ truthy (Pdf.gaps data) = true
     /\ truthy (Pdf.recommendations data) = true
     /\ Pdf.countryPage data [] = Returned None)
  /\ (forall results data,
        truthy (get results "Strengths") = false
        \/ truthy (get results "Gaps") = false
        \/ truthy (get results "Recommendations") = false ->
        Pdf.generateHTMLContent results <> Returned data)
  /\ (forall data countries page,
        Pdf.countryPage data countries = Returned (Some page) ->
        countries <> []
        /\ Pdf.formatToBulletPoints (Pdf.strengths data)
           = Returned (Pdf.page_strengths page)
        /\ Pdf.formatToBulletPoints (Pdf.gaps data)
           = Returned (Pdf.page_gaps page)
        /\ Pdf.formatToBulletPoints (Pdf.recommendations data)
           = Returned (Pdf.page_recommendations page)).
Proof.
  split; [|split].
  - intros results data H Hc. unfold Pdf.generateHTMLContent in H.
    rewrite (or_else_falsy _ _ Hc) in H.
    destruct (is_nullish results); [discriminate|].
    destruct (negb (truthy (or_else _ _))); [discriminate|].
    destruct (negb (truthy (or_else _ _))); [discriminate|].
    destruct (Pdf.is_undefined _); [discriminate|].
    destruct (negb (truthy (or_else _ _))); [discriminate|].
    destruct (truthy (get results "Strengths")) eqn:Hs; cbn [negb] in H;
      [|discriminate].
    destruct (truthy (get results "Gaps")) eqn:Hg; cbn [negb] in H;
      [|discriminate].
    destruct (truthy (get results "Recommendations")) eqn:Hr; cbn [negb] in H;
      [|discriminate].
    injection H as <-.
    cbn [Pdf.countryFit Pdf.strengths Pdf.gaps Pdf.recommendations
         Pdf.countryPage].
    repeat split; assumption.
  - intros results data H. unfold Pdf.generateHTMLContent.
    destruct (is_nullish results); [discriminate|].
    destruct (negb (truthy (or_else _ _))); [discriminate|].
    destruct (negb (truthy (or_else _ _))); [discriminate|].
    destruct (Pdf.is_undefined _); [discriminate|].
    destruct (negb (truthy (or_else _ _))); [discriminate|].
    destruct (truthy (get results "Strengths")); cbn [negb]; [|discriminate].
    destruct (truthy (get results "Gaps")); cbn [negb]; [|discriminate].
    destruct (truthy (get results "Recommendations")); cbn [negb];
      [|discriminate].
    destruct H as [H|[H|H]]; discriminate H.
  - intros data countries page H. unfold Pdf.countryPage in H.
    destruct countries as [|x r]; [discriminate|]. split; [discriminate|].
    destruct (Pdf.formatToBulletPoints (Pdf.strengths data)); [|discriminate].
    destruct (Pdf.formatToBulletPoints (Pdf.gaps data)); [|discriminate].
    destruct (Pdf.formatToBulletPoints (Pdf.recommendations data));
      [|discriminate].
    cbn [bind] in H.
    destruct (Pdf.generateCountryMatrix (x :: r)); [|discriminate].
    destruct (Pdf.generateCountryCards (x :: r)); [|discriminate].
    cbn [bind] in H. injection H as <-. repeat split.
Qed.

Lemma analysis_is_written_with_countries_only_witness :
  exists data,
    Pdf.generateHTMLContent asha_report = Returned data
    /\ Pdf.strengths data = VStr (js "Budgeting.")
    /\ Pdf.countryPage data [] = Returned None.
Proof.
  eexists. split; [reflexivity|]. split; [reflexivity|].
  exact (proj2 (proj2 (proj2 (proj2
           (proj1 analysis_is_written_with_countries_only
              asha_report _ eq_refl eq_refl))))).
Defined.

(* ================================================================== *)
(** * The disposition of the attachment as the value of a header *)
(* ================================================================== *)

Lemma lower_unit_byte (c : char) : (c < 256)%N -> N.leb (lower_unit c) 255 = true.
Proof.
  intros H. unfold lower_unit. apply N.leb_le.
  destruct ((N.leb 65 c && N.leb c 90)
            || (N.leb 192 c && N.leb c 222 && negb (N.eqb c 215))) eqn:Hc; [|lia].
  apply orb_true_iff in Hc as [Hc|Hc].
  - apply andb_true_iff in Hc as [H1 H2]. apply N.leb_le in H1, H2. lia.
  - apply andb_true_iff in Hc as [Hc _]. apply andb_true_iff in Hc as [H1 H2].
    apply N.leb_le in H1, H2. lia.
Qed.

Lemma lower_unit_header (c : char) :
  is_space c = false -> header_unit_ok (lower_unit c) = no_nul c.
Proof.
  intros Hs. unfold lower_unit.
  destruct ((N.leb 65 c && N.leb c 90)
            || (N.leb 192 c && N.leb c 222 && negb (N.eqb c 215))) eqn:Hc.
  - assert (Hr : (65 <= c <= 90 \/ 192 <= c <= 222)%N).
    { apply orb_true_iff in Hc as [Hc|Hc].
      - apply andb_true_iff in Hc as [H1 H2].
        apply N.leb_le in H1, H2. lia.
      - apply andb_true_iff in Hc as [Hc _]. apply andb_true_iff in Hc as [H1 H2].
        apply N.leb_le in H1, H2. lia. }
    unfold header_unit_ok, no_nul.
    repeat match goal with
           | |- context [N.eqb ?a ?b] => destruct (N.eqb_spec a b); try lia
           end; reflexivity.
  - assert (Hn : c <> 10%N /\ c <> 13%N).
    { split; intros ->; discriminate Hs. }
    unfold header_unit_ok, no_nul.
    repeat match goal with
           | |- context [N.eqb ?a ?b] => destruct (N.eqb_spec a b); try lia
           end; reflexivity.
Qed.

(** The units of the lower-cased, hyphenated name. *)
Lemma hyphenated_name_units (P : char -> bool) (Q : char -> bool) (s : jsstring) :
  P 45%N = true ->
  (forall c, In c s -> is_space c = false -> P (lower_unit c) = Q c) ->
  (forall c, In c s -> is_space c = true -> Q c = true) ->
  forall in_run,
    forallb P (toLowerCase (replace_spaces_aux (js "-") in_run s)) = forallb Q s.
Proof.
  intros Hsep Hword Hspace. unfold toLowerCase.
  induction s as [|c s IH]; intros in_run; [reflexivity|].
  cbn [replace_spaces_aux forallb].
  assert (IH' : forall in_run,
             forallb P (List.map lower_unit (replace_spaces_aux (js "-") in_run s))
             = forallb Q s).
  { apply IH; intros d Hd; [apply Hword|apply Hspace]; now right. }
  destruct (is_space c) eqn:Hc.
  - rewrite (Hspace c (or_introl eq_refl) Hc). cbn [andb].
    destruct in_run; [apply IH'|].
    change (js "-" ++ ?l) with (45%N :: l). cbn [List.map forallb].
    change (lower_unit 45%N) with 45%N. rewrite Hsep. apply IH'.
  - cbn [List.map forallb]. rewrite (Hword c (or_introl eq_refl) Hc), IH'.
    reflexivity.
Qed.

(** A value between two code units that are no white space is not
    stripped. *)
Lemma strip_between (a z : char) (m : jsstring) :
  is_http_space a = false -> is_http_space z = false ->
  rev (dropWhile is_http_space (rev (dropWhile is_http_space (a :: m ++ [z]))))
  = a :: m ++ [z].
Proof.
  intros Ha Hz. cbn [dropWhile]. rewrite Ha.
  rewrite app_comm_cons, rev_app_distr.
  change (rev [z] ++ rev (a :: m)) with (z :: rev (a :: m)).
  cbn [dropWhile]. rewrite Hz.
  change (rev (z :: rev (a :: m))) with (rev (rev (a :: m)) ++ [z]).
  now rewrite rev_involutive.
Qed.

Lemma contentDisposition_header (results : value) (studentName : jsstring) :
  or_else (get results "Student Name") (get results "studentName")
  = VStr studentName ->
  Forall (fun c => (c < 256)%N) studentName ->
  exists disposition,
    Pdf.contentDisposition results = Returned disposition
    /\ header_value_ok disposition = forallb no_nul studentName.
Proof.
  intros Hname Hbyte. unfold Pdf.contentDisposition, Pdf.filename.
  rewrite Hname. cbn [bind]. eexists. split; [reflexivity|].
  set (word := toLowerCase (replace_spaces (js "-") studentName)).
  unfold header_value_ok.
  assert (Hstrip : forall v : jsstring,
             rev (dropWhile is_http_space
                    (rev (dropWhile is_http_space
                            (jq "attachment; filename='" ++ v ++ jq "'"))))
             = jq "attachment; filename='" ++ v ++ jq "'").
  { intros v.
    change (jq "attachment; filename='" ++ v ++ jq "'")
      with (97%N :: (List.tl (jq "attachment; filename='") ++ v) ++ [34%N]).
    apply strip_between; reflexivity. }
  rewrite Hstrip.
  rewrite !forallb_app.
  change (forallb (fun c => N.leb c 255) (jq "attachment; filename='")) with true.
  change (forallb (fun c => N.leb c 255) (js "psychometric-report-")) with true.
  change (forallb (fun c => N.leb c 255) (js ".pdf")) with true.
  change (forallb (fun c => N.leb c 255) (jq "'")) with true.
  change (forallb (fun c => negb (N.eqb c 0 || N.eqb c 10 || N.eqb c 13))
            (jq "attachment; filename='")) with true.
  change (forallb (fun c => negb (N.eqb c 0 || N.eqb c 10 || N.eqb c 13))
            (js "psychometric-report-")) with true.
  change (forallb (fun c => negb (N.eqb c 0 || N.eqb c 10 || N.eqb c 13))
            (js ".pdf")) with true.
  change (forallb (fun c => negb (N.eqb c 0 || N.eqb c 10 || N.eqb c 13))
            (jq "'")) with true.
  cbn [andb]. rewrite !andb_true_r.
  unfold word, replace_spaces.
  rewrite (hyphenated_name_units (fun c => N.leb c 255) (fun _ => true)).
  - rewrite (hyphenated_name_units header_unit_ok no_nul).
    + assert (Ht : forallb (fun _ : char => true) studentName = true)
        by (apply forallb_forall; reflexivity).
      rewrite Ht. reflexivity.
    + reflexivity.
    + intros c _. apply lower_unit_header.
    + intros c _ Hc. unfold no_nul. destruct (N.eqb_spec c 0) as [->|]; [discriminate Hc|reflexivity].
  - reflexivity.
  - intros c Hc _. apply lower_unit_byte. rewrite Forall_forall in Hbyte. now apply Hbyte.
  - reflexivity.
Qed.

(* ================================================================== *)
(** * The handler of generate-pdf and its browser *)
(* ================================================================== *)

Section Browser.

Variable Html : Type.
Variable template : Pdf.ReportData -> outcome Html.
Variable VERCEL AWS_LAMBDA_FUNCTION_NAME : option jsstring.
Variable throws : Pdf.Call -> option error.
Variable pdfLength : Html -> N.

Local Abbreviation POST :=
  (Pdf.POST template VERCEL AWS_LAMBDA_FUNCTION_NAME throws pdfLength).
Local Abbreviation before := (calls_before VERCEL AWS_LAMBDA_FUNCTION_NAME).

(** The handler, step by step: the answer and the calls made at each
    place where the [try] block can end. *)
Lemma POST_shape (results : value) :
  POST (Some results)
  = if is_nullish results then (Pdf.Json500 failed_to_generate, [])
    else if Pdf.missing_student_name results
    then (Pdf.Json400 (js "Missing student name"), [])
    else
      match made_of throws before with
      | (made, true) => (Pdf.Json500 failed_to_generate, made)
      | (made, false) =>
        match Pdf.htmlContent template results with
        | Thrown _ => (Pdf.Json500 failed_to_generate, made)
        | Returned html =>
          match made_of throws (print_calls ++ [Pdf.Close]) with
          | (made', true) => (Pdf.Json500 failed_to_generate, made ++ made')
          | (made', false) =>
            if N.eqb (pdfLength html) 0
            then (Pdf.Json500 empty_buffer, made ++ made')
            else match Pdf.contentDisposition results with
                 | Returned disposition =>
                     if header_value_ok disposition
                     then (Pdf.Pdf200 (js "application/pdf") (pdfLength html)
                                      disposition,
                           made ++ made')
                     else (Pdf.Json500 failed_to_generate, made ++ made')
                 | Thrown _ => (Pdf.Json500 failed_to_generate, made ++ made')
                 end
          end
        end
      end.
Proof.
  unfold Pdf.POST, Pdf.respond, calls_before, launch_calls, Pdf.launch.
  destruct (is_nullish results); [reflexivity|].
  destruct (Pdf.missing_student_name results); [reflexivity|].
  destruct (Pdf.isServerless VERCEL AWS_LAMBDA_FUNCTION_NAME);
  cbv beta iota delta [Pdf.and_then Pdf.call Pdf.wait Pdf.lift Pdf.ret Pdf.throw
                       made_of failure app page_calls print_calls];
  repeat match goal with
         | |- context [throws ?c] => destruct (throws c); try reflexivity
         end;
  destruct (Pdf.htmlContent template results); try reflexivity;
  repeat match goal with
         | |- context [throws ?c] => destruct (throws c); try reflexivity
         end;
  destruct (N.eqb _ _); try reflexivity;
  destruct (Pdf.contentDisposition results) as [disposition|e];
  try reflexivity;
  destruct (header_value_ok disposition); reflexivity.
Qed.

(** The calls made are a prefix of the calls attempted; none throws
    exactly when all return. *)
Lemma made_of_prefix (l : list Pdf.Call) :
  exists post, l = fst (made_of throws l) ++ post.
Proof.
  induction l as [|c r [post IH]]; [now exists []|]. simpl.
  destruct (failure throws c); [now exists r|].
  destruct (made_of throws r) as [made thrown]. simpl in *.
  exists post. now rewrite IH at 1.
Qed.

Lemma made_of_all (l : list Pdf.Call) :
  snd (made_of throws l) = false <-> Forall (returns throws) l.
Proof.
  induction l as [|c r IH]; simpl; [split; [constructor|reflexivity]|].
  unfold returns at 1. destruct (failure throws c) eqn:Hc.
  - simpl. split; [discriminate|]. inversion 1. congruence.
  - destruct (made_of throws r) as [made thrown]. simpl in *.
    rewrite IH. split; [intros H; now constructor|now inversion 1].
Qed.

Lemma made_of_returns (l : list Pdf.Call) :
  Forall (returns throws) l -> made_of throws l = (l, false).
Proof.
  induction 1 as [|c r Hc _ IH]; [reflexivity|]. simpl.
  unfold returns in Hc. now rewrite Hc, IH.
Qed.

Lemma made_of_nonempty (c : Pdf.Call) (r : list Pdf.Call) :
  fst (made_of throws (c :: r)) <> [].
Proof.
  simpl. destruct (failure throws c); [discriminate|].
  destruct (made_of throws r). discriminate.
Qed.

(** The last of the calls attempted is made only when all before it
    return. *)
Lemma made_of_last (l : list Pdf.Call) (c : Pdf.Call) :
  ~ In c l -> In c (fst (made_of throws (l ++ [c]))) ->
  Forall (returns throws) l.
Proof.
  induction l as [|d r IH]; [constructor|]. simpl. intros Hn.
  unfold returns at 1. destruct (failure throws d) eqn:Hd.
  - simpl. intros [H|[]]. tauto.
  - destruct (made_of throws (r ++ [c])) as [made thrown]. simpl in *.
    intros [H|H]; [tauto|]. constructor; [exact Hd|]. apply IH; tauto.
Qed.

Lemma Close_not_before : ~ In Pdf.Close before.
Proof.
  unfold calls_before, launch_calls, page_calls.
  destruct (Pdf.isServerless VERCEL AWS_LAMBDA_FUNCTION_NAME); simpl;
    intuition discriminate.
Qed.

Lemma before_made : fst (made_of throws before) <> [].
Proof.
  unfold calls_before, launch_calls.
  destruct (Pdf.isServerless VERCEL AWS_LAMBDA_FUNCTION_NAME);
    apply made_of_nonempty.
Qed.

(** A report with a name is not answered 400, and a call is made for
    it. *)
Lemma POST_launched (results : value) :
  is_nullish results = false ->
  Pdf.missing_student_name results = false ->
  snd (POST (Some results)) <> []
  /\ forall m, fst (POST (Some results)) <> Pdf.Json400 m.
Proof.
  intros Hn Hm. rewrite POST_shape, Hn, Hm.
  pose proof before_made as Hb.
  destruct (made_of throws before) as [made thrown]. simpl in Hb.
  assert (Hmade : forall made', made ++ made' <> []).
  { intros made' H. apply app_eq_nil in H. tauto. }
  destruct thrown; [split; [exact Hb|discriminate]|].
  destruct (Pdf.htmlContent template results) as [html|e];
    [|split; [exact Hb|discriminate]].
  destruct (made_of throws (print_calls ++ [Pdf.Close])) as [made' thrown'].
  specialize (Hmade made').
  destruct thrown'; [split; [exact Hmade|discriminate]|].
  destruct (N.eqb (pdfLength html) 0); [split; [exact Hmade|discriminate]|].
  destruct (Pdf.contentDisposition results) as [disposition|e];
    [|split; [exact Hmade|discriminate]].
  destruct (header_value_ok disposition); (split; [exact Hmade|discriminate]).
Qed.

(** X18.  The handler of generate-pdf makes no call at all, no import
    and no launch, exactly for a request whose body is not JSON, is
    null, or has no truthy student name under either key; for every
    other request it sets out to launch a browser before it looks at
    the rest of the report.  It answers 400, with Missing student name,
    exactly when the body is a JSON value other than null without a
    truthy name. *)
Theorem pdf_POST_launches_for_named_reports (body : option value) :
  (snd (POST body) = []
   <-> body = None
       \/ exists results, body = Some results
            /\ (is_nullish results = true
                \/ Pdf.missing_student_name results = true))
  /\ (forall m, fst (POST body) = Pdf.Json400 m
      <-> m = js "Missing student name"
          /\ exists results, body = Some results
               /\ is_nullish results = false
               /\ Pdf.missing_student_name results = true).
Proof.
  destruct body as [results|].
  2:{ split; [split; [now left|reflexivity]|].
      intros m. split; [discriminate|]. intros (_ & r & H & _). discriminate. }
  destruct (is_nullish results) eqn:Hn.
  { rewrite POST_shape, Hn.
    split; [split; [right; eauto|reflexivity]|].
    intros m. split; [discriminate|].
    intros (_ & r & H & Hr & _). injection H as <-. congruence. }
  destruct (Pdf.missing_student_name results) eqn:Hm.
  { rewrite POST_shape, Hn, Hm.
    split; [split; [right; eauto|reflexivity]|].
    intros m. split.
    - intros H. injection H as <-. eauto.
    - intros (-> & _). reflexivity. }
  destruct (POST_launched results Hn Hm) as [Hmade H400].
  split; [split; [intros H; contradiction|]|].
  - intros [H|(r & H & Hr)]; [discriminate|]. injection H as <-.
    destruct Hr; congruence.
  - intros m. split; [intros H; now apply H400 in H|].
    intros (_ & r & H & _ & Hr). injection H as <-. congruence.
Qed.

(** X19.  The browser is closed only after the page has been printed.
    When [generateHTMLContent] throws, for a missing field of the report
    or in its template, a browser has been launched and a page opened;
    the handler answers 500 with Failed to generate PDF, without the
    message of the error, and [browser.close()] is not called.  In
    general [browser.close()] has been called only if every call before
    it returned and the markup was built. *)
Theorem pdf_POST_closes_after_printing :
  (forall results e,
     is_nullish results = false ->
     Pdf.missing_student_name results = false ->
     Forall (returns throws) before ->
     Pdf.htmlContent template results = Thrown e ->
     POST (Some results) = (Pdf.Json500 failed_to_generate, before))
  /\ ~ In Pdf.Close before
  /\ (forall body,
        In Pdf.Close (snd (POST body)) ->
        exists results html,
          body = Some results
          /\ Pdf.htmlContent template results = Returned html
          /\ Forall (returns throws) (before ++ print_calls)).
Proof.
  split; [|split; [exact Close_not_before|]].
  - intros results e Hn Hm Hok He.
    rewrite POST_shape, Hn, Hm, (made_of_returns _ Hok), He. reflexivity.
  - intros [results|]; [|intros []].
    rewrite POST_shape.
    destruct (is_nullish results); [intros []|].
    destruct (Pdf.missing_student_name results); [intros []|].
    pose proof (made_of_prefix before) as [post Hpre].
    pose proof (proj1 (made_of_all before)) as Hall.
    destruct (made_of throws before) as [made thrown]. simpl in Hpre, Hall.
    assert (Hnot : ~ In Pdf.Close made).
    { intros H. apply Close_not_before. rewrite Hpre. apply in_or_app. now left. }
    destruct thrown; [simpl; tauto|]. specialize (Hall eq_refl).
    destruct (Pdf.htmlContent template results) as [html|e] eqn:Hh;
      [|simpl; tauto].
    pose proof (made_of_last print_calls Pdf.Close) as Hlast.
    destruct (made_of throws (print_calls ++ [Pdf.Close])) as [made' thrown'].
    simpl in Hlast.
    assert (Hin : In Pdf.Close (made ++ made') ->
                  exists results0 html0,
                    Some results = Some results0
                    /\ Pdf.htmlContent template results0 = Returned html0
                    /\ Forall (returns throws) (before ++ print_calls)).
    { intros H. apply in_app_or in H as [H|H]; [contradiction|].
      exists results, html. split; [reflexivity|]. split; [exact Hh|].
      apply Forall_app. split; [exact Hall|]. apply Hlast; [|exact H].
      unfold print_calls. simpl. intuition discriminate. }
    destruct thrown'; [exact Hin|].
    destruct (N.eqb (pdfLength html) 0); [exact Hin|].
    destruct (Pdf.contentDisposition results) as [disposition|e0];
      [|exact Hin].
    destruct (header_value_ok disposition); exact Hin.
Qed.

(** X20.  For a request whose student name, when it is a string, has
    code units below 256: the handler answers 200 exactly when the body
    is a report with a truthy name, every call on the browser returns,
    the markup is built, the buffer printed is not empty and the name is
    a string without a NUL.  The answer then has the content type
    application/pdf, the length of the buffer and the disposition of the
    attachment, and the browser has been closed.  A report whose name
    is truthy and no string, or is a string with a NUL, which
    [new Response] does not accept in a header, is answered 500 after
    its PDF has been printed and the browser closed; an empty buffer is
    answered 500 with its own message, the browser closed. *)
Theorem pdf_POST_answers_200 :
  (forall body contentType contentLength disposition made,
     latin_named body ->
     (POST body = (Pdf.Pdf200 contentType contentLength disposition, made)
      <-> exists results html studentName,
            body = Some results
            /\ is_nullish results = false
            /\ Pdf.missing_student_name results = false
            /\ Forall (returns throws) (before ++ print_calls ++ [Pdf.Close])
            /\ Pdf.htmlContent template results = Returned html
            /\ pdfLength html <> 0%N
            /\ or_else (get results "Student Name") (get results "studentName")
               = VStr studentName
            /\ ~ In 0%N studentName
            /\ Pdf.contentDisposition results = Returned disposition
            /\ contentType = js "application/pdf"
            /\ contentLength = pdfLength html
            /\ made = before ++ print_calls ++ [Pdf.Close]))
  /\ (forall results html,
        is_nullish results = false ->
        Pdf.missing_student_name results = false ->
        (forall studentName,
           or_else (get results "Student Name") (get results "studentName")
           <> VStr studentName) ->
        Forall (returns throws) (before ++ print_calls ++ [Pdf.Close]) ->
        Pdf.htmlContent template results = Returned html ->
        pdfLength html <> 0%N ->
        POST (Some results)
        = (Pdf.Json500 failed_to_generate,
           before ++ print_calls ++ [Pdf.Close]))
  /\ (forall results html studentName,
        is_nullish results = false ->
        Pdf.missing_student_name results = false ->
        or_else (get results "Student Name") (get results "studentName")
        = VStr studentName ->
        Forall (fun c => (c < 256)%N) studentName ->
        In 0%N studentName ->
        Forall (returns throws) (before ++ print_calls ++ [Pdf.Close]) ->
        Pdf.htmlContent template results = Returned html ->
        pdfLength html <> 0%N ->
        POST (Some results)
        = (Pdf.Json500 failed_to_generate,
           before ++ print_calls ++ [Pdf.Close]))
  /\ (forall results html,
        is_nullish results = false ->
        Pdf.missing_student_name results = false ->
        Forall (returns throws) (before ++ print_calls ++ [Pdf.Close]) ->
        Pdf.htmlContent template results = Returned html ->
        pdfLength html = 0%N ->
        POST (Some results)
        = (Pdf.Json500 empty_buffer, before ++ print_calls ++ [Pdf.Close])).
Proof.
  split; [|split; [|split]].
  - intros body contentType contentLength disposition made Hlatin. split.
    + destruct body as [results|]; [|discriminate].
      rewrite POST_shape.
      destruct (is_nullish results) eqn:Hn; [discriminate|].
      destruct (Pdf.missing_student_name results) eqn:Hm; [discriminate|].
      pose proof (made_of_all before) as Hb.
      pose proof (made_of_returns before) as Hb'.
      destruct (made_of throws before) as [m1 t1]. simpl in Hb.
      destruct t1; [discriminate|].
      apply proj1 in Hb. specialize (Hb eq_refl). specialize (Hb' Hb).
      injection Hb' as ->.
      destruct (Pdf.htmlContent template results) as [html|e] eqn:Hh;
        [|discriminate].
      pose proof (made_of_all (print_calls ++ [Pdf.Close])) as Hp.
      pose proof (made_of_returns (print_calls ++ [Pdf.Close])) as Hp'.
      destruct (made_of throws (print_calls ++ [Pdf.Close])) as [m2 t2].
      simpl in Hp.
      destruct t2; [discriminate|].
      apply proj1 in Hp. specialize (Hp eq_refl). specialize (Hp' Hp).
      injection Hp' as ->.
      destruct (N.eqb_spec (pdfLength html) 0) as [|Hlen]; [discriminate|].
      destruct (Pdf.contentDisposition results) as [d|e] eqn:Hd; [|discriminate].
      destruct (header_value_ok d) eqn:Hok; [|discriminate].
      intros H. injection H as <- <- <- <-.
      assert (Hname : exists studentName,
                 or_else (get results "Student Name") (get results "studentName")
                 = VStr studentName).
      { unfold Pdf.contentDisposition, Pdf.filename in Hd.
        destruct (or_else _ _) as [| |b|x|s|items|props]; try discriminate.
        now exists s. }
      destruct Hname as [studentName Hname].
      exists results, html, studentName.
      destruct (contentDisposition_header results studentName Hname
                  (Hlatin results studentName eq_refl Hname)) as (d' & Hd' & Hok').
      rewrite Hd in Hd'. injection Hd' as <-. rewrite Hok in Hok'.
      repeat split; try assumption; try reflexivity.
      * apply Forall_app. now split.
      * intros Hnul. symmetry in Hok'.
        rewrite forallb_forall in Hok'. specialize (Hok' 0%N Hnul).
        discriminate Hok'.
    + intros (results & html & studentName & -> & Hn & Hm & Hok & Hh & Hlen
              & Hname & Hnul & Hd & -> & -> & ->).
      apply Forall_app in Hok as [Hb Hp].
      rewrite POST_shape, Hn, Hm, (made_of_returns _ Hb), Hh,
        (made_of_returns _ Hp), Hd.
      apply N.eqb_neq in Hlen. rewrite Hlen.
      destruct (contentDisposition_header results studentName Hname
                  (Hlatin results studentName eq_refl Hname)) as (d' & Hd' & Hok').
      rewrite Hd in Hd'. injection Hd' as <-.
      assert (Hall : forallb no_nul studentName = true).
      { apply forallb_forall. intros c Hc. unfold no_nul.
        destruct (N.eqb_spec c 0) as [->|]; [contradiction|reflexivity]. }
      rewrite Hok', Hall. reflexivity.
  - intros results html Hn Hm Hname Hok Hh Hlen.
    apply Forall_app in Hok as [Hb Hp].
    rewrite POST_shape, Hn, Hm, (made_of_returns _ Hb), Hh,
      (made_of_returns _ Hp).
    apply N.eqb_neq in Hlen. rewrite Hlen.
    unfold Pdf.contentDisposition, Pdf.filename.
    destruct (or_else _ _) as [| |b|x|s|items|props] eqn:Ho; try reflexivity.
    exfalso. exact (Hname s eq_refl).
  - intros results html studentName Hn Hm Hname Hbyte Hnul Hok Hh Hlen.
    apply Forall_app in Hok as [Hb Hp].
    rewrite POST_shape, Hn, Hm, (made_of_returns _ Hb), Hh,
      (made_of_returns _ Hp).
    apply N.eqb_neq in Hlen. rewrite Hlen.
    destruct (contentDisposition_header results studentName Hname Hbyte)
      as (d & Hd & Hok).
    rewrite Hd.
    assert (Hall : forallb no_nul studentName = false).
    { destruct (forallb no_nul studentName) eqn:E; [|reflexivity].
      rewrite forallb_forall in E. specialize (E 0%N Hnul). discriminate E. }
    rewrite Hok, Hall. reflexivity.
  - intros results html Hn Hm Hok Hh Hlen.
    apply Forall_app in Hok as [Hb Hp].
    rewrite POST_shape, Hn, Hm, (made_of_returns _ Hb), Hh,
      (made_of_returns _ Hp), Hlen.
    reflexivity.
Qed.

End Browser.

Lemma pdf_POST_launches_for_named_reports_witness :
  snd (Pdf.POST plain_template None None unfailing two_kilobytes
                (Some (VObj [])))
  = [].
Proof.
  apply (proj2 (proj1 (pdf_POST_launches_for_named_reports
                         Pdf.ReportData plain_template None None unfailing
                         two_kilobytes (Some (VObj []))))).
  right. exists (VObj []). split; [reflexivity|]. right. reflexivity.
Defined.

Lemma pdf_POST_closes_after_printing_witness :
  Pdf.POST plain_template None None unfailing two_kilobytes
           (Some (named (js "Asha")))
  = (Pdf.Json500 failed_to_generate,
     [Pdf.ImportPuppeteer; Pdf.Launch; Pdf.NewPage; Pdf.SetDefaultTimeout;
      Pdf.SetDefaultNavigationTimeout]).
Proof.
  apply (proj1 (pdf_POST_closes_after_printing
                  Pdf.ReportData plain_template None None unfailing
                  two_kilobytes)
           (named (js "Asha")) (Pdf.required "Scores data is required")).
  - reflexivity.
  - reflexivity.
  - repeat constructor.
  - reflexivity.
Defined.

Lemma pdf_POST_answers_200_witness :
  Pdf.POST plain_template None None unfailing two_kilobytes (Some asha_report)
  = (Pdf.Pdf200 (js "application/pdf") 2048%N
                (jq "attachment; filename='psychometric-report-asha.pdf'"),
     [Pdf.ImportPuppeteer; Pdf.Launch; Pdf.NewPage; Pdf.SetDefaultTimeout;
      Pdf.SetDefaultNavigationTimeout; Pdf.SetViewport; Pdf.EmulateMediaType;
      Pdf.SetContent; Pdf.Wait 1000; Pdf.Wait 3000; Pdf.PrintPdf; Pdf.Close])
  /\ Pdf.POST plain_template None None unfailing two_kilobytes
              (Some (VObj [(js "Student Name", VNum (of_Z 7))]
                     ))
     = (Pdf.Json500 failed_to_generate,
        [Pdf.ImportPuppeteer; Pdf.Launch; Pdf.NewPage; Pdf.SetDefaultTimeout;
         Pdf.SetDefaultNavigationTimeout]).
Proof.
  split; [|reflexivity].
  assert (Hlatin : latin_named (Some asha_report)).
  { intros results studentName H Hname. injection H as <-.
    injection Hname as <-. repeat constructor. }
  apply (proj2 (proj1 (pdf_POST_answers_200
                         Pdf.ReportData plain_template None None unfailing
                         two_kilobytes)
                  (Some asha_report) _ _ _ _ Hlatin)).
  exists asha_report. eexists. exists (js "Asha").
  split; [reflexivity|]. split; [reflexivity|]. split; [reflexivity|].
  split; [repeat constructor|].
  split; [reflexivity|].
  split; [discriminate|].
  split; [reflexivity|].
  split; [intros H; repeat (destruct H as [H|H]; [discriminate H|]); exact H|].
  split; [reflexivity|]. split; [reflexivity|]. split; reflexivity.
Defined.

(* ================================================================== *)
(** * The time the loop over the models takes *)
(* ================================================================== *)

(** An attempt settles when its timer fires at the latest, and before
    that when it succeeds. *)
Lemma settles_after_bound (p : Analyze.Promise) :
  (Analyze.settles_after p <= Analyze.timeout_ms)%N.
Proof. destruct p; simpl; lia. Qed.

Lemma settles_after_success (p : Analyze.Promise) (c : list (jsstring * value)) :
  Analyze.race p = Analyze.Succeeded c -> (Analyze.settles_after p < Analyze.timeout_ms)%N.
Proof.
  destruct p as [t c'|t m|]; simpl; try discriminate.
  - destruct (N.ltb_spec t Analyze.timeout_ms); [lia|discriminate].
  - destruct (N.ltb t Analyze.timeout_ms); discriminate.
Qed.

(** X21.  The loop over the models gives up on each model when its
    timer of 45 seconds fires, so its two races take 90 seconds at most
    together, and less when a model answers: under 45 seconds when the
    primary model succeeds, under 90 when the call returns at all.  The
    bound is reached when neither model ever answers, and the call then
    fails with the message of the timeout. *)
Theorem call_models_waits_at_most_90_seconds (create : jsstring -> Analyze.Promise) :
  (Analyze.waited create Analyze.models <= 90000)%N
  /\ (forall c, Analyze.race (create primary) = Analyze.Succeeded c ->
        (Analyze.waited create Analyze.models < 45000)%N)
  /\ (forall c, Analyze.call_models create = Returned c ->
        (Analyze.waited create Analyze.models < 90000)%N)
  /\ (create primary = Analyze.Pending -> create alternate = Analyze.Pending ->
      Analyze.waited create Analyze.models = 90000%N
      /\ Analyze.call_models create
         = Thrown (Error (js "All models failed. Last error: Model timeout"))).
Proof.
  pose proof (settles_after_bound (create primary)) as H1.
  pose proof (settles_after_bound (create alternate)) as H2.
  pose proof (settles_after_success (create primary)) as S1.
  pose proof (settles_after_success (create alternate)) as S2.
  change Analyze.timeout_ms with 45000%N in *.
  unfold Analyze.models, Analyze.call_models.
  simpl Analyze.try_models. simpl Analyze.waited. fold primary alternate.
  split; [|split; [|split]].
  - destruct (Analyze.race (create primary)); [lia|].
    destruct (Analyze.race (create alternate)); lia.
  - intros c Hc. rewrite Hc. specialize (S1 c Hc). lia.
  - intros c.
    destruct (Analyze.race (create primary)) as [c1|m1]; simpl.
    + intros _. specialize (S1 c1 eq_refl). lia.
    + destruct (Analyze.race (create alternate)) as [c2|m2]; simpl;
        [|intros H; discriminate H].
      intros _. specialize (S2 c2 eq_refl). lia.
  - intros -> ->. split; reflexivity.
Qed.

Lemma call_models_waits_at_most_90_seconds_witness :
  Analyze.waited silent Analyze.models = 90000%N
  /\ Analyze.call_models silent
     = Thrown (Error (js "All models failed. Last error: Model timeout")).
Proof.
  apply (proj2 (proj2 (proj2 (call_models_waits_at_most_90_seconds silent))));
    reflexivity.
Defined.

(* ================================================================== *)
(** * The first failure of the tests of the template *)
(* ================================================================== *)

(** X22.  [generateHTMLContent] reports the first of its seven tests
    that fails, in the order name, scores, index, level, strengths,
    gaps, recommendations, with the message of that test, and reaches
    its template exactly when none fails.  (For a report that is not
    null: the tests read its properties.) *)
Theorem generateHTMLContent_reports_the_first_failure (results : value) :
  is_nullish results = false ->
  (forall message,
     first_missing (report_tests results) = Some message ->
     Pdf.generateHTMLContent results = Thrown (Pdf.required message))
  /\ (first_missing (report_tests results) = None <->
      exists data, Pdf.generateHTMLContent results = Returned data)
  /\ (forall e,
        Pdf.generateHTMLContent results = Thrown e ->
        exists message,
          first_missing (report_tests results) = Some message
          /\ e = Pdf.required message).
Proof.
  intros Hn. unfold Pdf.generateHTMLContent, report_tests, first_missing.
  rewrite Hn.
  assert (Hraw : or_else (or_else (get results "scores") (get results "Scores"))
                         (get results "Scores")
                 = or_else (get results "scores") (get results "Scores")).
  { unfold or_else.
    destruct (truthy (get results "scores")) eqn:E; [now rewrite E|].
    destruct (truthy (get results "Scores")); reflexivity. }
  rewrite Hraw.
  assert (Hfail : forall (message : string) (rest : option string) (res : outcome Pdf.ReportData),
             rest = Some message -> res = Thrown (Pdf.required message) ->
             (forall m, rest = Some m -> res = Thrown (Pdf.required m))
             /\ (rest = None <-> exists data, res = Returned data)
             /\ (forall e, res = Thrown e ->
                   exists m, rest = Some m /\ e = Pdf.required m)).
  { intros message rest res -> ->.
    split; [intros m H; now injection H as <-|].
    split; [split; [discriminate|intros [d H]; discriminate]|].
    intros e H. injection H as <-. eauto. }
  destruct (truthy (or_else (get results "Student Name") _));
    cbn [find snd fst option_map negb]; [|now eapply Hfail].
  destruct (truthy (or_else (get results "scores") _));
    cbn [find snd fst option_map negb]; [|now eapply Hfail].
  destruct (Pdf.is_undefined _);
    cbn [find snd fst option_map negb]; [now eapply Hfail|].
  destruct (truthy (or_else (get results "Readiness Level") _));
    cbn [find snd fst option_map negb]; [|now eapply Hfail].
  destruct (truthy (get results "Strengths"));
    cbn [find snd fst option_map negb]; [|now eapply Hfail].
  destruct (truthy (get results "Gaps"));
    cbn [find snd fst option_map negb]; [|now eapply Hfail].
  destruct (truthy (get results "Recommendations"));
    cbn [find snd fst option_map negb]; [|now eapply Hfail].
  split; [discriminate|].
  split; [split; [eauto|reflexivity]|discriminate].
Qed.

Lemma generateHTMLContent_reports_the_first_failure_witness :
  Pdf.generateHTMLContent (named (js "Asha"))
  = Thrown (Pdf.required "Scores data is required").
Proof.
  apply (proj1 (generateHTMLContent_reports_the_first_failure
                  (named (js "Asha")) eq_refl)).
  reflexivity.
Defined.

(* ================================================================== *)
(** * Text after the object of a reply *)
(* ================================================================== *)

(** What is left of a text, and what is taken from it, when more text
    follows. *)
Lemma dropWhile_app_stop {A : Type} (p : A -> bool) (s t : list A) (x : A) (r : list A) :
  dropWhile p s = x :: r -> dropWhile p (s ++ t) = x :: r ++ t.
Proof.
  induction s as [|y s IH]; [discriminate|]. simpl.
  destruct (p y); [exact IH|]. intros H. injection H as <- <-. reflexivity.
Qed.

Lemma takeWhile_app_stop {A : Type} (p : A -> bool) (s t : list A) :
  dropWhile p s <> [] -> takeWhile p (s ++ t) = takeWhile p s.
Proof.
  induction s as [|y s IH]; [simpl; congruence|]. simpl.
  destruct (p y); [intros H; f_equal; now apply IH|reflexivity].
Qed.

Lemma skip_ws_app (s t : jsstring) (c : char) (r : jsstring) :
  skip_ws s = c :: r -> skip_ws (s ++ t) = c :: r ++ t.
Proof. apply dropWhile_app_stop. Qed.

Lemma parse_chars_app (s t : jsstring) :
  forall acc str r,
    parse_chars acc s = Some (str, r) ->
    parse_chars acc (s ++ t) = Some (str, r ++ t).
Proof.
  induction s as [s IH] using (well_founded_induction
                                 (well_founded_ltof _ (@List.length char))).
  unfold ltof in IH. intros acc str r.
  destruct s as [|c s]; [discriminate|]. cbn [parse_chars app].
  destruct (N.eqb c 34); [intros H; now injection H as <- <-|].
  destruct (N.eqb c 92).
  - destruct s as [|e r1]; [discriminate|]. cbn [app].
    destruct (N.eqb e 117).
    + destruct r1 as [|h1 [|h2 [|h3 [|h4 r2]]]]; try discriminate. cbn [app].
      destruct (hex4 h1 h2 h3 h4); [|discriminate].
      apply IH. simpl. lia.
    + destruct (escape_value e); [|discriminate].
      apply IH. simpl. lia.
  - destruct (N.ltb c 32); [discriminate|].
    apply IH. simpl. lia.
Qed.

Lemma starts_with_app (p s t r : jsstring) :
  starts_with p s = Some r -> starts_with p (s ++ t) = Some (r ++ t).
Proof.
  unfold starts_with.
  destruct (str_eqb p (firstn (List.length p) s)) eqn:He; [|discriminate].
  intros H. injection H as <-.
  apply str_eqb_eq in He.
  assert (Hl : (List.length p <= List.length s)%nat).
  { assert (H : List.length p = List.length (firstn (List.length p) s))
      by congruence.
    rewrite length_firstn in H. lia. }
  rewrite firstn_app, skipn_app.
  replace (List.length p - List.length s)%nat with 0%nat by lia.
  cbn [firstn skipn]. rewrite app_nil_r, <- He, str_eqb_refl. reflexivity.
Qed.

(** The stages of [parse_number], and each of them when more text
    follows what it leaves. *)
Lemma parse_number_stages (s : jsstring) :
  parse_number s
  = let '(neg, s0) := number_sign s in
    match number_integer s0 with
    | None => None
    | Some (ipart, s1) =>
        match number_fraction s1 with
        | None => None
        | Some (fpart, s2) =>
            match number_exponent s2 with
            | None => None
            | Some (ex, s3) =>
                let ds := ipart ++ fpart in
                Some (of_decimal neg (digits_value ds)
                        (Z.of_nat (List.length ds))
                        (ex - Z.of_nat (List.length fpart)), s3)
            end
        end
    end.
Proof.
  unfold parse_number, number_sign, number_integer.
  destruct s as [|c r]; [reflexivity|].
  destruct (N.eqb c 45).
  - destruct r as [|d r]; [reflexivity|]. destruct (negb (is_digit d)); reflexivity.
  - destruct (negb (is_digit c)); reflexivity.
Qed.

Lemma dropWhile_app_rest {A : Type} (p : A -> bool) (s t : list A) :
  dropWhile p s <> [] -> dropWhile p (s ++ t) = dropWhile p s ++ t.
Proof.
  destruct (dropWhile p s) as [|x r] eqn:H; [congruence|]. intros _.
  now apply dropWhile_app_stop.
Qed.

Lemma number_exponent_app (s2 t : jsstring) (ex : Z) (s3 : jsstring) :
  number_exponent s2 = Some (ex, s3) -> s3 <> [] ->
  number_exponent (s2 ++ t) = Some (ex, s3 ++ t) /\ s2 <> [].
Proof.
  unfold number_exponent. destruct s2 as [|e r2].
  { intros H. injection H as _ <-. congruence. }
  intros H Hne. split; [|discriminate]. cbn [app].
  destruct (N.eqb e 101 || N.eqb e 69).
  - destruct r2 as [|g r3]; [discriminate|]. cbn [app].
    assert (Hd : forall (eneg : bool) (r : jsstring),
               match takeWhile is_digit r with
               | [] => @None (Z * jsstring)
               | c :: l =>
                   Some (if eneg then - digits_value (c :: l)
                         else digits_value (c :: l), dropWhile is_digit r)
               end = Some (ex, s3) ->
               match takeWhile is_digit (r ++ t) with
               | [] => @None (Z * jsstring)
               | c :: l =>
                   Some (if eneg then - digits_value (c :: l)
                         else digits_value (c :: l), dropWhile is_digit (r ++ t))
               end = Some (ex, s3 ++ t)).
    { intros eneg r Hr.
      destruct (takeWhile is_digit r) as [|c l] eqn:Ht; [discriminate|].
      injection Hr as <- <-.
      rewrite takeWhile_app_stop, Ht by exact Hne.
      now rewrite dropWhile_app_rest. }
    destruct (N.eqb g 45); [exact (Hd true r3 H)|].
    destruct (N.eqb g 43); [exact (Hd false r3 H)|].
    exact (Hd false (g :: r3) H).
  - injection H as <- <-. reflexivity.
Qed.

Lemma number_fraction_app (s1 t fpart s2 : jsstring) :
  number_fraction s1 = Some (fpart, s2) -> s2 <> [] ->
  number_fraction (s1 ++ t) = Some (fpart, s2 ++ t) /\ s1 <> [].
Proof.
  unfold number_fraction. destruct s1 as [|d r1].
  { intros H. injection H as _ <-. congruence. }
  intros H Hne. split; [|discriminate]. cbn [app].
  destruct (N.eqb d 46).
  - destruct (takeWhile is_digit r1) as [|c l] eqn:Ht; [discriminate|].
    injection H as <- <-.
    rewrite takeWhile_app_stop, Ht by exact Hne.
    now rewrite dropWhile_app_rest.
  - injection H as <- <-. reflexivity.
Qed.

Lemma number_integer_app (s0 t ipart s1 : jsstring) :
  number_integer s0 = Some (ipart, s1) -> s1 <> [] ->
  number_integer (s0 ++ t) = Some (ipart, s1 ++ t) /\ s0 <> [].
Proof.
  unfold number_integer. destruct s0 as [|c r]; [discriminate|].
  intros H Hne. split; [|discriminate]. cbn [app].
  destruct (negb (is_digit c)); [discriminate|].
  destruct (N.eqb c 48).
  - injection H as <- <-. reflexivity.
  - injection H as <- <-.
    change (c :: r ++ t) with ((c :: r) ++ t).
    rewrite takeWhile_app_stop by exact Hne.
    now rewrite dropWhile_app_rest.
Qed.

Lemma number_sign_app (s t : jsstring) :
  snd (number_sign s) <> [] ->
  number_sign (s ++ t) = (fst (number_sign s), snd (number_sign s) ++ t).
Proof.
  unfold number_sign. destruct s as [|c r]; [simpl; congruence|]. cbn [app].
  destruct (N.eqb c 45); reflexivity.
Qed.

Lemma parse_number_app (s t : jsstring) (x : number) (r : jsstring) :
  parse_number s = Some (x, r) -> r <> [] ->
  parse_number (s ++ t) = Some (x, r ++ t).
Proof.
  rewrite !parse_number_stages. intros H Hr.
  destruct (number_sign s) as [neg s0] eqn:Hs.
  destruct (number_integer s0) as [[ipart s1]|] eqn:Hi; [|discriminate].
  destruct (number_fraction s1) as [[fpart s2]|] eqn:Hf; [|discriminate].
  destruct (number_exponent s2) as [[ex s3]|] eqn:He; [|discriminate].
  injection H as <- <-.
  destruct (number_exponent_app _ t _ _ He Hr) as [He' H2].
  destruct (number_fraction_app _ t _ _ Hf H2) as [Hf' H1].
  destruct (number_integer_app _ t _ _ Hi H1) as [Hi' H0].
  pose proof (number_sign_app s t) as Hs'. rewrite Hs in Hs'. cbn [fst snd] in Hs'.
  rewrite (Hs' H0), Hi', Hf', He'. reflexivity.
Qed.


Lemma skip_ws_nonempty (r : jsstring) (c : char) (r' : jsstring) :
  skip_ws r = c :: r' -> r <> [].
Proof. destruct r; [discriminate|discriminate]. Qed.

Lemma parse_append (f : nat) (t : jsstring) :
  (forall s v r,
      parse_value f s = Some (v, r) -> delimited v r ->
      parse_value f (s ++ t) = Some (v, r ++ t))
  /\ (forall acc s v r,
      parse_elements f acc s = Some (v, r) ->
      parse_elements f acc (s ++ t) = Some (v, r ++ t))
  /\ (forall acc s v r,
      parse_members f acc s = Some (v, r) ->
      parse_members f acc (s ++ t) = Some (v, r ++ t)).
Proof.
  induction f as [|f (IHv & IHe & IHm)]; [repeat split; discriminate|].
  assert (Hdel : forall v r c r', skip_ws r = c :: r' -> delimited v r).
  { intros v r c r' H. destruct v; try exact I. simpl.
    eapply skip_ws_nonempty. exact H. }
  split; [|split].
  - intros s v r. cbn [parse_value].
    destruct (skip_ws s) as [|c r0] eqn:Hs; [discriminate|].
    rewrite (skip_ws_app _ t _ _ Hs).
    destruct (N.eqb c 123).
    { destruct (skip_ws r0) as [|d r'] eqn:Hr0; [discriminate|].
      rewrite (skip_ws_app _ t _ _ Hr0).
      destruct (N.eqb d 125).
      - intros H _. now injection H as <- <-.
      - intros H _. apply (IHm [] (d :: r') v r H). }
    destruct (N.eqb c 91).
    { destruct (skip_ws r0) as [|d r'] eqn:Hr0; [discriminate|].
      rewrite (skip_ws_app _ t _ _ Hr0).
      destruct (N.eqb d 93).
      - intros H _. now injection H as <- <-.
      - intros H _. apply (IHe [] (d :: r') v r H). }
    destruct (N.eqb c 34).
    { destruct (parse_chars [] r0) as [[str r']|] eqn:Hp; [|discriminate].
      rewrite (parse_chars_app _ t _ _ _ Hp).
      intros H _. now injection H as <- <-. }
    destruct (N.eqb c 116).
    { destruct (starts_with (js "true") (c :: r0)) as [r'|] eqn:Hp; [|discriminate].
      change (c :: r0 ++ t) with ((c :: r0) ++ t).
      rewrite (starts_with_app _ _ t _ Hp).
      intros H _. now injection H as <- <-. }
    destruct (N.eqb c 102).
    { destruct (starts_with (js "false") (c :: r0)) as [r'|] eqn:Hp; [|discriminate].
      change (c :: r0 ++ t) with ((c :: r0) ++ t).
      rewrite (starts_with_app _ _ t _ Hp).
      intros H _. now injection H as <- <-. }
    destruct (N.eqb c 110).
    { destruct (starts_with (js "null") (c :: r0)) as [r'|] eqn:Hp; [|discriminate].
      change (c :: r0 ++ t) with ((c :: r0) ++ t).
      rewrite (starts_with_app _ _ t _ Hp).
      intros H _. now injection H as <- <-. }
    destruct (parse_number (c :: r0)) as [[x r']|] eqn:Hp; [|discriminate].
    intros H Hd. injection H as <- <-. simpl in Hd.
    change (c :: r0 ++ t) with ((c :: r0) ++ t).
    now rewrite (parse_number_app _ t _ _ Hp Hd).
  - intros acc s v r. cbn [parse_elements].
    destruct (parse_value f s) as [[v0 r0]|] eqn:Hv; [|discriminate].
    destruct (skip_ws r0) as [|c r'] eqn:Hr0; [discriminate|].
    rewrite (IHv _ _ _ Hv (Hdel _ _ _ _ Hr0)).
    rewrite (skip_ws_app _ t _ _ Hr0).
    destruct (N.eqb c 44); [apply IHe|].
    destruct (N.eqb c 93); [|discriminate].
    intros H. now injection H as <- <-.
  - intros acc s v r. cbn [parse_members].
    destruct (skip_ws s) as [|q r0] eqn:Hs; [discriminate|].
    rewrite (skip_ws_app _ t _ _ Hs).
    destruct (negb (N.eqb q 34)); [discriminate|].
    destruct (parse_chars [] r0) as [[k r1]|] eqn:Hk; [|discriminate].
    rewrite (parse_chars_app _ t _ _ _ Hk).
    destruct (skip_ws r1) as [|c r2] eqn:Hr1; [discriminate|].
    rewrite (skip_ws_app _ t _ _ Hr1).
    destruct (negb (N.eqb c 58)); [discriminate|].
    destruct (parse_value f r2) as [[v0 r3]|] eqn:Hv; [|discriminate].
    destruct (skip_ws r3) as [|d r4] eqn:Hr3; [discriminate|].
    rewrite (IHv _ _ _ Hv (Hdel _ _ _ _ Hr3)).
    rewrite (skip_ws_app _ t _ _ Hr3).
    destruct (N.eqb d 44); [apply IHm|].
    destruct (N.eqb d 125); [|discriminate].
    intros H. now injection H as <- <-.
Qed.

Lemma skip_ws_all (r : jsstring) :
  skip_ws r = [] -> Forall (fun c => is_json_ws c = true) r.
Proof.
  unfold skip_ws. induction r as [|c r IH]; [constructor|]. simpl.
  destruct (is_json_ws c) eqn:Hc; [|discriminate].
  intros H. constructor; [exact Hc|now apply IH].
Qed.

Lemma skip_ws_app_nonempty (r t : jsstring) :
  In close_brace t -> skip_ws (r ++ t) <> [].
Proof.
  intros Hin H. apply skip_ws_all in H.
  rewrite Forall_forall in H. specialize (H close_brace).
  assert (Hc : is_json_ws close_brace = true)
    by (apply H; apply in_or_app; now right).
  discriminate Hc.
Qed.

(** A text that parses, followed by text with a closing brace, does not. *)
Lemma JSON_parse_trailing (object tail : jsstring) (v : value) :
  JSON_parse object = Some v ->
  (forall x, v <> VNum x) ->
  In close_brace tail ->
  JSON_parse (object ++ tail) = None.
Proof.
  unfold JSON_parse. intros H Hv Hin.
  destruct (parse_value (2 * List.length object + 2) object) as [[v' r]|] eqn:Hp;
    [|discriminate].
  destruct (skip_ws r) eqn:Hr; [|discriminate]. injection H as ->.
  destruct (parse_append (2 * List.length object + 2) tail) as (Ha & _ & _).
  assert (Hd : delimited v r).
  { destruct v; try exact I. exfalso. now apply (Hv x). }
  specialize (Ha _ _ _ Hp Hd).
  destruct (parse_fuel (2 * List.length object + 2)) as (Hf & _ & _).
  destruct (Hf _ _ _ Ha) as [Hlen Hfuel].
  rewrite (Hfuel (2 * List.length (object ++ tail) + 2)%nat) by lia.
  destruct (skip_ws (r ++ tail)) eqn:Hs; [|reflexivity].
  exfalso. now apply (skip_ws_app_nonempty r tail Hin).
Qed.

(** X23.  What follows the object of a reply decides its extraction.
    When the reply holds, after prose without an opening brace, an
    object that JSON.parse accepts, text after the object is harmless as
    long as it holds no closing brace: the object is extracted.  Text
    after it that holds a closing brace, a second object or a brace in
    prose, makes the extraction fail with the SyntaxError of
    JSON.parse, although the reply holds a well-formed object. *)
Theorem extract_rejects_text_after_the_object
        (pre mid : jsstring) (v : value) :
  ~ In open_brace pre ->
  JSON_parse (open_brace :: mid ++ [close_brace]) = Some v ->
  (forall post,
     ~ In close_brace post ->
     Analyze.extract (pre ++ (open_brace :: mid ++ [close_brace]) ++ post)
     = Returned v)
  /\ (forall tail,
        In close_brace tail ->
        Analyze.extract (pre ++ (open_brace :: mid ++ [close_brace]) ++ tail)
        = Thrown SyntaxError).
Proof.
  intros Hpre Hv. split.
  - intros post Hpost. unfold Analyze.extract.
    replace (pre ++ (open_brace :: mid ++ [close_brace]) ++ post)
      with (pre ++ open_brace :: mid ++ close_brace :: post)
      by (simpl; now rewrite <- !app_assoc).
    rewrite jsonMatch_span by assumption. now rewrite Hv.
  - intros tail Hin.
    destruct (in_split_last _ _ Hin) as (between & post & -> & Hpost).
    unfold Analyze.extract.
    replace (pre ++ (open_brace :: mid ++ [close_brace])
                 ++ between ++ close_brace :: post)
      with (pre ++ open_brace :: (mid ++ close_brace :: between)
                ++ close_brace :: post)
      by (simpl; now rewrite <- !app_assoc).
    rewrite jsonMatch_span by assumption.
    replace (open_brace :: (mid ++ close_brace :: between) ++ [close_brace])
      with ((open_brace :: mid ++ [close_brace]) ++ (between ++ [close_brace]))
      by (simpl; rewrite <- !app_assoc; reflexivity).
    destruct (JSON_parse_object _ _ Hv) as [props ->].
    rewrite (JSON_parse_trailing _ _ _ Hv).
    + reflexivity.
    + discriminate.
    + apply in_or_app. right. now left.
Qed.

Lemma extract_rejects_text_after_the_object_witness :
  Analyze.extract (prose ++ report_text ++ js " Keep {this} in mind.")
  = Thrown SyntaxError.
Proof.
  assert (H : exists v, JSON_parse report_text = Some v)
    by (eexists; vm_compute; reflexivity).
  destruct H as [v Hv].
  apply (proj2 (extract_rejects_text_after_the_object
                  prose (removelast (tl report_text)) v
                  ltac:(vm_compute; intros H; not_in H) Hv)).
  vm_compute. tauto.
Defined.

(* ================================================================== *)
(** * Bullet points: what throws *)
(* ================================================================== *)

(** The items of an array are written when all of them are strings. *)
Lemma mapM_array_item_cases (items : list value) :
  if forallb is_string items
  then exists lis, mapM Pdf.array_item items = Returned lis
                   /\ List.length lis = List.length items
  else mapM Pdf.array_item items = Thrown TypeError.
Proof.
  induction items as [|x r IH]; [now exists []|].
  cbn [forallb mapM].
  destruct x; cbn [is_string andb Pdf.array_item bind]; try reflexivity.
  destruct (forallb is_string r).
  - destruct IH as (lis & -> & Hl). cbn [bind]. eexists. split; [reflexivity|].
    simpl. now rewrite Hl.
  - rewrite IH. reflexivity.
Qed.

(** X24.  [formatToBulletPoints] throws exactly for an array with an
    element that is no string, whose [trim] is no function, and what it
    throws is a TypeError; it throws for no other input.  A truthy
    input that is neither a string nor an array gives the one item
    Invalid input format. *)
Theorem formatToBulletPoints_throws_for_an_item_that_is_no_string :
  (forall items,
     Pdf.formatToBulletPoints (VArr items) = Thrown TypeError
     <-> Exists (fun item => is_string item = false) items)
  /\ (forall text e,
        Pdf.formatToBulletPoints text = Thrown e ->
        e = TypeError /\ exists items, text = VArr items)
  /\ (forall text,
        truthy text = true ->
        (forall s, text <> VStr s) -> (forall items, text <> VArr items) ->
        Pdf.formatToBulletPoints text
        = Returned (Pdf.bullet_item (js "Invalid input format"))).
Proof.
  split; [|split].
  - intros items. unfold Pdf.formatToBulletPoints. cbn [truthy negb].
    pose proof (mapM_array_item_cases items) as H.
    assert (Hex : forallb is_string items = false
                  <-> Exists (fun item => is_string item = false) items).
    { rewrite Exists_exists. split.
      - intros Hf. destruct (forallb is_string items) eqn:E; [discriminate|].
        clear H Hf. induction items as [|x r IH]; [discriminate|].
        simpl in E. destruct (is_string x) eqn:Hx.
        + destruct (IH E) as (y & Hin & Hy). exists y. split; [now right|exact Hy].
        + exists x. split; [now left|exact Hx].
      - intros (x & Hin & Hx).
        destruct (forallb is_string items) eqn:E; [|reflexivity].
        rewrite forallb_forall in E. specialize (E x Hin). congruence. }
    destruct (forallb is_string items).
    + destruct H as (lis & -> & _). cbn [bind].
      split; [discriminate|]. intros Hx. apply Hex in Hx. discriminate.
    + rewrite H. cbn [bind]. split; [intros _; now apply Hex|reflexivity].
  - intros text e. unfold Pdf.formatToBulletPoints.
    destruct (negb (truthy text)); [discriminate|].
    destruct text as [| |b|x|s|items|props]; try discriminate.
    + destruct (Pdf.is_no_content s); discriminate.
    + pose proof (mapM_array_item_cases items) as H.
      destruct (forallb is_string items).
      * destruct H as (lis & -> & _). discriminate.
      * rewrite H. cbn [bind]. intros He. injection He as <-. eauto.
  - intros text Ht Hs Ha. unfold Pdf.formatToBulletPoints. rewrite Ht.
    cbn [negb]. destruct text as [| |b|x|s|items|props]; try reflexivity.
    + exfalso. now apply (Hs s).
    + exfalso. now apply (Ha items).
Qed.

Lemma formatToBulletPoints_throws_for_an_item_that_is_no_string_witness :
  Pdf.formatToBulletPoints (VArr [VStr (js "Budgeting"); VNum (of_Z 3)])
  = Thrown TypeError.
Proof.
  apply (proj2 (proj1 formatToBulletPoints_throws_for_an_item_that_is_no_string
                  [VStr (js "Budgeting"); VNum (of_Z 3)])).
  apply Exists_cons_tl. apply Exists_cons_hd. reflexivity.
Defined.

(* ================================================================== *)
(** * The score and the number of correct answers *)
(* ================================================================== *)

(** X25.  With at most 100 questions the score rises strictly with the
    number of correct answers: for 0 <= correct < correct' <= total the
    score of correct' answers is the greater integer, so two different
    counts never get the same score. *)
Theorem score_rises_with_the_correct_answers (correct correct' total : Z) :
  0 <= correct < correct' -> correct' <= total -> 0 < total <= 100 ->
  exists n n',
    Analyze.score (topic_of correct total) = of_Z n
    /\ Analyze.score (topic_of correct' total) = of_Z n'
    /\ n < n'.
Proof.
  intros Hc Hc' Ht.
  pose proof (score_in_table correct total ltac:(lia) Ht) as H1.
  pose proof (score_in_table correct' total ltac:(lia) Ht) as H2.
  unfold score_ok in H1, H2.
  destruct (integer_of (Analyze.score (topic_of correct total))) as [n|] eqn:E1;
    [|discriminate].
  destruct (integer_of (Analyze.score (topic_of correct' total))) as [n'|] eqn:E2;
    [|discriminate].
  apply integer_of_spec in E1, E2.
  unfold nearest_percentage in H1, H2.
  apply andb_true_iff in H1 as [_ H1]. apply andb_true_iff in H2 as [_ H2].
  apply Z.leb_le in H1, H2.
  exists n, n'. split; [exact E1|]. split; [exact E2|].
  destruct (Z.eq_dec total 100) as [->|Hlt]; [lia|nia].
Qed.

Lemma score_rises_with_the_correct_answers_witness :
  exists n n',
    Analyze.score (topic_of 22 40) = of_Z n
    /\ Analyze.score (topic_of 23 40) = of_Z n'
    /\ n < n'.
Proof.
  apply (score_rises_with_the_correct_answers 22 23 40); lia.
Defined.
